(** * CAI ai-service: training orchestration and progress tracking

    A shallow embedding of the training pipeline of the ai-service
    (src/tasks/training_tasks.py, src/ml/training/trainer.py,
    src/ml/data/transforms.py, src/ml/data/dataset.py,
    src/core/redis_client.py, src/api/routes/training.py,
    src/services/training_service.py) together with the properties
    of the design document that can be settled on it.

    Conventions.
    - Python dictionaries with string keys are [gmap string _]; a
      dictionary literal whose insertion order matters (JSON text) is
      an association list.
    - A Python [str] is the Rocq string of its UTF-8 bytes.
    - Python floats are stood for by exact rationals ([Q]); only
      comparisons and the four operations the code uses are relied on.
    - [datetime.utcnow()] reads the clock of the state, an integer
      number of seconds.
    - A call that may raise returns an [outcome]; code that also
      changes the state runs in the monad [M].
    - The limits of the machine and of the interpreter (memory, depth
      of recursion, number of digits of an integer written as text)
      and the failures of the network are left out. *)

From Stdlib Require Import ZArith QArith Lia Ascii String Decimal Sorted.
From Stdlib Require DecimalFacts DecimalPos DecimalN.
From stdpp Require Import base option list gmap strings fin_maps.

Open Scope Z_scope.
Open Scope string_scope.
Open Scope list_scope.

(** ** Python values and outcomes *)

Module Py.

(** Floats: a rational, an infinity, or not-a-number. *)
Inductive pyfloat : Type :=
| Fin (q : Q)
| PosInf
| NegInf
| NaN.

(** [a < b] on floats; every comparison with NaN is false. *)
Definition float_lt (a b : pyfloat) : bool :=
  match a, b with
  | NaN, _ | _, NaN => false
  | _, NegInf => false
  | NegInf, _ => true
  | PosInf, _ => false
  | Fin _, PosInf => true
  | Fin x, Fin y => negb (Qle_bool y x)
  end.

(** The values that travel through job rows and progress
    notifications.  The one nested dictionary of the pipeline is
    [detailed_metrics], from metric name to float. *)
Inductive pyval : Type :=
| VNone
| VBool (b : bool)
| VInt (z : Z)
| VFloat (x : pyfloat)
| VStr (s : string)
| VTime (t : Z)
| VDict (d : list (string * pyfloat)).

(** An exception, by class name and by what [str(e)] returns. *)
Record pyexn : Type := mk_exn { exn_class : string; exn_str : string }.

Inductive outcome (A : Type) : Type :=
| Returns (a : A)
| Raises (e : pyexn).
Arguments Returns {A} a.
Arguments Raises {A} e.

(** Code that threads a mutable state and may raise: the state at the
    point of the raise is kept, as [except] handlers see it. *)
Definition M (S A : Type) : Type := S -> outcome A * S.

Definition ret {S A} (a : A) : M S A := fun s => (Returns a, s).

Definition raise {S A} (e : pyexn) : M S A := fun s => (Raises e, s).

Definition bind {S A B} (m : M S A) (f : A -> M S B) : M S B :=
  fun s =>
    match m s with
    | (Returns a, s') => f a s'
    | (Raises e, s') => (Raises e, s')
    end.

(** [try: body  except Exception as e: handler(e)] *)
Definition try_except {S A} (body : M S A) (handler : pyexn -> M S A) : M S A :=
  fun s =>
    match body s with
    | (Returns a, s') => (Returns a, s')
    | (Raises e, s') => handler e s'
    end.

Definition modify {S} (f : S -> S) : M S unit := fun s => (Returns tt, f s).

Definition gets {S A} (f : S -> A) : M S A := fun s => (Returns (f s), s).

Definition lift {S A} (o : outcome A) : M S A := fun s => (o, s).

(** Python truthiness of an optional string argument: [None] and the
    empty string are both falsy. *)
Definition truthy_str (o : option string) : bool :=
  match o with
  | Some (String _ _) => true
  | _ => false
  end.

(** [d.get(k)] on a notification literal. *)
Fixpoint dict_get (k : string) (d : list (string * pyval)) : option pyval :=
  match d with
  | [] => None
  | (k', v) :: d' => if String.eqb k k' then Some v else dict_get k d'
  end.

Definition dict_get_default (k : string) (dflt : pyval)
    (d : list (string * pyval)) : pyval :=
  default dflt (dict_get k d).

Declare Scope py_scope.
Delimit Scope py_scope with py.
Notation "x <- m ;; k" := (bind m (fun x => k))
  (at level 100, m at next level, right associativity) : py_scope.

End Py.

(** ** The JSON text of the cache ([json.dumps], [json.loads])

    The cache stores text.  The values that reach it are Python [None],
    booleans, integers, floats, strings, lists and dictionaries with
    string keys; a dictionary is the list of its items in insertion
    order.  A Python [str] is written as the Rocq string of its UTF-8
    bytes, which is also what Redis holds; a lone surrogate, which a
    [str] may contain and UTF-8 proper excludes, is written in the same
    three-byte form.  A float is kept as the text [json] writes and
    reads for it ([JFloat]): its value is not interpreted. *)

Module Json.

#[local] Unset Elimination Schemes.
Inductive json : Type :=
| JNull
| JBool (b : bool)
| JInt (z : Z)
| JFloat (lit : string)
| JStr (s : string)
| JList (l : list json)
| JDict (d : list (string * json)).
#[local] Set Elimination Schemes.

Definition quote : ascii := "034"%char.
Definition backslash : ascii := "\"%char.

Definition code (c : ascii) : N := N_of_ascii c.

(** *** Encoder: [json.dumps(v)] with the default options
    ([ensure_ascii=True], separators [", "] and [": "]).  [emit v k] is
    the text of [v] followed by [k]. *)

Definition hex_digit (n : N) : ascii :=
  ascii_of_N (if (n <? 10)%N then 48 + n else 87 + n).

(** [\uXXXX], in lower-case hexadecimal. *)
Definition emit_u4 (n : N) (k : string) : string :=
  String backslash (String "u"
    (String (hex_digit (n / 4096)) (String (hex_digit (n / 256 mod 16))
      (String (hex_digit (n / 16 mod 16)) (String (hex_digit (n mod 16)) k))))).

(** A character of the ASCII range. *)
Definition emit_char (c : ascii) (k : string) : string :=
  if Ascii.eqb c quote then String backslash (String quote k)
  else if Ascii.eqb c backslash then String backslash (String backslash k)
  else if Ascii.eqb c "010" then String backslash (String "n" k)
  else if Ascii.eqb c "013" then String backslash (String "r" k)
  else if Ascii.eqb c "009" then String backslash (String "t" k)
  else if Ascii.eqb c "008" then String backslash (String "b" k)
  else if Ascii.eqb c "012" then String backslash (String "f" k)
  else if ((32 <=? code c) && (code c <=? 126))%N then String c k
  else emit_u4 (code c) k.

(** A character above the ASCII range, by its code point: one escape,
    or the two escapes of a surrogate pair above [0xFFFF]. *)
Definition emit_code (n : N) (k : string) : string :=
  if (n <? 65536)%N then emit_u4 n k
  else
    emit_u4 (55296 + (n - 65536) / 1024)
      (emit_u4 (56320 + (n - 65536) mod 1024) k).

(** The characters of a string and the closing quote.  The bytes are
    decoded as they come: [need] continuation bytes are still due for
    the character whose leading bits are [acc].  (Bytes that are not
    the UTF-8 text of a [str] stand for no Python value.) *)
Fixpoint emit_from (need : nat) (acc : N) (s : string) (k : string) : string :=
  match s with
  | EmptyString => String quote k
  | String c s' =>
      match need with
      | O =>
          if (code c <? 128)%N then emit_char c (emit_from 0 0 s' k)
          else if (code c <? 224)%N then emit_from 1 (code c - 192) s' k
          else if (code c <? 240)%N then emit_from 2 (code c - 224) s' k
          else emit_from 3 (code c - 240) s' k
      | S O => emit_code (acc * 64 + (code c - 128)) (emit_from 0 0 s' k)
      | S need' => emit_from need' (acc * 64 + (code c - 128)) s' k
      end
  end.

Definition emit_chars (s : string) (k : string) : string := emit_from 0 0 s k.

Definition emit_string (s : string) (k : string) : string :=
  String quote (emit_chars s k).

Fixpoint emit_uint (u : Decimal.uint) (k : string) : string :=
  match u with
  | Decimal.Nil => k
  | Decimal.D0 u => String "0" (emit_uint u k)
  | Decimal.D1 u => String "1" (emit_uint u k)
  | Decimal.D2 u => String "2" (emit_uint u k)
  | Decimal.D3 u => String "3" (emit_uint u k)
  | Decimal.D4 u => String "4" (emit_uint u k)
  | Decimal.D5 u => String "5" (emit_uint u k)
  | Decimal.D6 u => String "6" (emit_uint u k)
  | Decimal.D7 u => String "7" (emit_uint u k)
  | Decimal.D8 u => String "8" (emit_uint u k)
  | Decimal.D9 u => String "9" (emit_uint u k)
  end.

Definition emit_int (z : Z) (k : string) : string :=
  match z with
  | Zneg p => String "-" (emit_uint (Pos.to_uint p) k)
  | _ => emit_uint (N.to_uint (Z.to_N z)) k
  end.

Fixpoint emit (v : json) (k : string) : string :=
  match v with
  | JNull => String "n" (String "u" (String "l" (String "l" k)))
  | JBool true => String "t" (String "r" (String "u" (String "e" k)))
  | JBool false => String "f" (String "a" (String "l" (String "s" (String "e" k))))
  | JInt z => emit_int z k
  | JFloat lit => String.append lit k
  | JStr s => emit_string s k
  | JList l =>
      String "[" (
        match l with
        | [] => String "]" k
        | v0 :: l0 =>
            emit v0 ((fix more (l : list json) : string :=
                        match l with
                        | [] => String "]" k
                        | v1 :: l1 => String "," (String " " (emit v1 (more l1)))
                        end) l0)
        end)
  | JDict d =>
      String "{" (
        match d with
        | [] => String "}" k
        | (k0, v0) :: rest0 =>
            emit_string k0 (String ":" (String " " (
              emit v0 ((fix more (d : list (string * json)) : string :=
                          match d with
                          | [] => String "}" k
                          | (k1, v1) :: rest1 =>
                              String "," (String " " (emit_string k1
                                (String ":" (String " " (emit v1 (more rest1))))))
                          end) rest0))))
        end)
  end.

Definition json_dumps (v : json) : string := emit v EmptyString.

(** *** Decoder: [json.loads(s)]; [None] is [JSONDecodeError]. *)

Definition is_ws (c : ascii) : bool :=
  Ascii.eqb c " " || Ascii.eqb c "009" || Ascii.eqb c "010" || Ascii.eqb c "013".

Fixpoint skip_ws (s : string) : string :=
  match s with
  | String c r => if is_ws c then skip_ws r else s
  | EmptyString => s
  end.

Definition digit_of (c : ascii) : option (Decimal.uint -> Decimal.uint) :=
  match code c with
  | 48 => Some Decimal.D0 | 49 => Some Decimal.D1 | 50 => Some Decimal.D2
  | 51 => Some Decimal.D3 | 52 => Some Decimal.D4 | 53 => Some Decimal.D5
  | 54 => Some Decimal.D6 | 55 => Some Decimal.D7 | 56 => Some Decimal.D8
  | 57 => Some Decimal.D9 | _ => None
  end%N.

Definition is_digit (c : ascii) : bool := bool_decide (is_Some (digit_of c)).

(** The longest run of decimal digits at the head of the text. *)
Fixpoint read_digits (s : string) : Decimal.uint * string :=
  match s with
  | String c r =>
      match digit_of c with
      | Some D => let '(u, r') := read_digits r in (D u, r')
      | None => (Decimal.Nil, s)
      end
  | EmptyString => (Decimal.Nil, s)
  end.

Definition hex_val (c : ascii) : option N :=
  let n := code c in
  if ((48 <=? n) && (n <=? 57))%N then Some (n - 48)%N
  else if ((97 <=? n) && (n <=? 102))%N then Some (n - 87)%N
  else if ((65 <=? n) && (n <=? 70))%N then Some (n - 55)%N
  else None.

Definition hex4 (h3 h2 h1 h0 : ascii) : option N :=
  match hex_val h3, hex_val h2, hex_val h1, hex_val h0 with
  | Some a, Some b, Some c, Some d => Some (((a * 16 + b) * 16 + c) * 16 + d)%N
  | _, _, _, _ => None
  end.

(** [chr(n)], as UTF-8 bytes, followed by [k]. *)
Definition utf8 (n : N) (k : string) : string :=
  if (n <? 128)%N then String (ascii_of_N n) k
  else if (n <? 2048)%N then
    String (ascii_of_N (192 + n / 64)) (String (ascii_of_N (128 + n mod 64)) k)
  else if (n <? 65536)%N then
    String (ascii_of_N (224 + n / 4096))
      (String (ascii_of_N (128 + n / 64 mod 64))
         (String (ascii_of_N (128 + n mod 64)) k))
  else
    String (ascii_of_N (240 + n / 262144))
      (String (ascii_of_N (128 + n / 4096 mod 64))
         (String (ascii_of_N (128 + n / 64 mod 64))
            (String (ascii_of_N (128 + n mod 64)) k))).

Definition is_high_surrogate (n : N) : bool := ((55296 <=? n) && (n <=? 56319))%N.
Definition is_low_surrogate (n : N) : bool := ((56320 <=? n) && (n <=? 57343))%N.

Definition join_surrogates (hi lo : N) : N :=
  (65536 + (hi - 55296) * 1024 + (lo - 56320))%N.

(** The body of a string literal, after the opening quote (the
    scanner of the C accelerator, strict mode).  A high surrogate
    escape followed by a low surrogate escape is one character; any
    other surrogate escape is kept as it is. *)
Fixpoint parse_chars (s : string) : option (string * string) :=
  match s with
  | EmptyString => None
  | String c r =>
      if Ascii.eqb c quote then Some (EmptyString, r)
      else if Ascii.eqb c backslash then
        match r with
        | String e r1 =>
            let simple (d : ascii) :=
              match parse_chars r1 with
              | Some (t, r') => Some (String d t, r')
              | None => None
              end in
            if Ascii.eqb e quote then simple quote
            else if Ascii.eqb e backslash then simple backslash
            else if Ascii.eqb e "/" then simple "/"%char
            else if Ascii.eqb e "b" then simple "008"%char
            else if Ascii.eqb e "f" then simple "012"%char
            else if Ascii.eqb e "n" then simple "010"%char
            else if Ascii.eqb e "r" then simple "013"%char
            else if Ascii.eqb e "t" then simple "009"%char
            else if Ascii.eqb e "u" then
              match r1 with
              | String h3 (String h2 (String h1 (String h0 r2))) =>
                  match hex4 h3 h2 h1 h0 with
                  | Some n =>
                      let single :=
                        match parse_chars r2 with
                        | Some (t, r') => Some (utf8 n t, r')
                        | None => None
                        end in
                      if is_high_surrogate n then
                        match r2 with
                        | String b (String u
                            (String g3 (String g2 (String g1 (String g0 r3))))) =>
                            if Ascii.eqb b backslash && Ascii.eqb u "u" then
                              match hex4 g3 g2 g1 g0 with
                              | Some m =>
                                  if is_low_surrogate m then
                                    match parse_chars r3 with
                                    | Some (t, r') =>
                                        Some (utf8 (join_surrogates n m) t, r')
                                    | None => None
                                    end
                                  else single
                              | None => None
                              end
                            else single
                        | _ => single
                        end
                      else single
                  | None => None
                  end
              | _ => None
              end
            else None
        | EmptyString => None
        end
      else if (code c <? 32)%N then None
      else
        match parse_chars r with
        | Some (t, r') => Some (String c t, r')
        | None => None
        end
  end.

(** [.digits] after the integer part, if any: the digits and the rest. *)
Definition read_frac (s : string) : option (string * string) :=
  match s with
  | String "." r =>
      match read_digits r with
      | (Decimal.Nil, _) => None
      | (u, r') => Some (String "." (emit_uint u EmptyString), r')
      end
  | _ => None
  end.

(** The sign of an exponent, if any. *)
Definition read_sign (s : string) : string * string :=
  match s with
  | String "+" r => (String "+" EmptyString, r)
  | String "-" r => (String "-" EmptyString, r)
  | _ => (EmptyString, s)
  end.

(** [e], [E] with an optional sign and digits, if any. *)
Definition read_exp (s : string) : option (string * string) :=
  match s with
  | String c r =>
      if Ascii.eqb c "e" || Ascii.eqb c "E" then
        let '(sg, r0) := read_sign r in
        match read_digits r0 with
        | (Decimal.Nil, _) => None
        | (u, r') => Some (String c (String.append sg (emit_uint u EmptyString)), r')
        end
      else None
  | EmptyString => None
  end.

(** The integer part: a single zero, or a run of digits that starts
    with a nonzero one. *)
Definition read_int (s : string) : option (Decimal.uint * string) :=
  match s with
  | String "0" r => Some (Decimal.D0 Decimal.Nil, r)
  | String c _ => if is_digit c then Some (read_digits s) else None
  | EmptyString => None
  end.

(** A number after its sign: the integer part, then an optional
    fraction and an optional exponent; an integer when neither of the
    two is present. *)
Definition read_number (neg : bool) (s : string) : option (json * string) :=
  match read_int s with
  | None => None
  | Some (u, r) =>
      let sign := if neg then String "-" EmptyString else EmptyString in
      let '(frac, r1) :=
        match read_frac r with
        | Some (f, r1) => (f, r1)
        | None => (EmptyString, r)
        end in
      let '(ex, r2) :=
        match read_exp r1 with
        | Some (e, r2) => (e, r2)
        | None => (EmptyString, r1)
        end in
      match frac, ex with
      | EmptyString, EmptyString =>
          let n := Z.of_N (N.of_uint u) in
          Some (JInt (if neg then - n else n), r)
      | _, _ =>
          Some (JFloat (String.append sign
                  (emit_uint u (String.append frac ex))), r2)
      end
  end.

(** A number: an optional minus sign, then the rest. *)
Definition parse_number (s : string) : option (json * string) :=
  match s with
  | String "-" r => read_number true r
  | _ => read_number false s
  end.

(** [s[idx:idx+len(lit)] == lit] *)
Fixpoint starts_with (lit s : string) : option string :=
  match lit, s with
  | EmptyString, _ => Some s
  | String a lit', String b s' => if Ascii.eqb a b then starts_with lit' s' else None
  | String _ _, EmptyString => None
  end.

(** [dict(pairs)]: a repeated key keeps its first place and its last value. *)
Fixpoint dict_set (k : string) (v : json) (d : list (string * json))
    : list (string * json) :=
  match d with
  | [] => [(k, v)]
  | (k', v') :: d' =>
      if String.eqb k k' then (k', v) :: d' else (k', v') :: dict_set k v d'
  end.

Definition dict_of_pairs (pairs : list (string * json)) : list (string * json) :=
  foldl (fun d kv => dict_set kv.1 kv.2 d) [] pairs.

Section Containers.
(** The scanner of values one nesting level down. *)
Variable scan_once : string -> option (json * string).

(** The items of an array after the first [[] and blanks; [fuel]
    bounds their number. *)
Fixpoint parse_items (fuel : nat) (s : string) : option (list json * string) :=
  match fuel with
  | O => None
  | S fuel =>
      match scan_once s with
      | None => None
      | Some (v, r) =>
          match skip_ws r with
          | String "," r' =>
              match parse_items fuel (skip_ws r') with
              | Some (vs, r'') => Some (v :: vs, r'')
              | None => None
              end
          | String "]" r' => Some ([v], r')
          | _ => None
          end
      end
  end.

Definition parse_array (s : string) : option (json * string) :=
  match skip_ws s with
  | String "]" r => Some (JList [], r)
  | s' =>
      match parse_items (String.length s') s' with
      | Some (vs, r) => Some (JList vs, r)
      | None => None
      end
  end.

(** The pairs of an object, from the quote that opens a key. *)
Fixpoint parse_pairs (fuel : nat) (s : string)
    : option (list (string * json) * string) :=
  match fuel with
  | O => None
  | S fuel =>
      match s with
      | String "034" r =>
          match parse_chars r with
          | None => None
          | Some (key, r0) =>
              match skip_ws r0 with
              | String ":" r1 =>
                  match scan_once (skip_ws r1) with
                  | None => None
                  | Some (v, r2) =>
                      match skip_ws r2 with
                      | String "," r3 =>
                          match parse_pairs fuel (skip_ws r3) with
                          | Some (ps, r4) => Some ((key, v) :: ps, r4)
                          | None => None
                          end
                      | String "}" r3 => Some ([(key, v)], r3)
                      | _ => None
                      end
                  end
              | _ => None
              end
          end
      | _ => None
      end
  end.

Definition parse_object (s : string) : option (json * string) :=
  match skip_ws s with
  | String "}" r => Some (JDict [], r)
  | s' =>
      match parse_pairs (String.length s') s' with
      | Some (ps, r) => Some (JDict (dict_of_pairs ps), r)
      | None => None
      end
  end.
End Containers.

(** [scan_once]: one value at the head of the text; [depth] bounds
    the nesting. *)
Fixpoint parse_value (depth : nat) (s : string) : option (json * string) :=
  match depth with
  | O => None
  | S depth =>
      match s with
      | EmptyString => None
      | String c r =>
          if Ascii.eqb c quote then
            match parse_chars r with
            | Some (t, r') => Some (JStr t, r')
            | None => None
            end
          else if Ascii.eqb c "{" then parse_object (parse_value depth) r
          else if Ascii.eqb c "[" then parse_array (parse_value depth) r
          else
            match starts_with "null" s, starts_with "true" s, starts_with "false" s with
            | Some r', _, _ => Some (JNull, r')
            | _, Some r', _ => Some (JBool true, r')
            | _, _, Some r' => Some (JBool false, r')
            | None, None, None =>
                match parse_number s with
                | Some res => Some res
                | None =>
                    match starts_with "NaN" s, starts_with "Infinity" s,
                          starts_with "-Infinity" s with
                    | Some r', _, _ => Some (JFloat "NaN", r')
                    | _, Some r', _ => Some (JFloat "Infinity", r')
                    | _, _, Some r' => Some (JFloat "-Infinity", r')
                    | None, None, None => None
                    end
                end
            end
      end
  end.

(** [json.loads]: blanks, one value, blanks, end of text. *)
Definition json_loads (s : string) : option json :=
  match parse_value (S (String.length s)) (skip_ws s) with
  | Some (v, r) =>
      match skip_ws r with
      | EmptyString => Some v
      | String _ _ => None
      end
  | None => None
  end.

(** *** Measures and well-formedness used by the round-trip proof *)

(** What [emit] writes after the first item of a list, and after the
    first item of a dictionary. *)
Fixpoint emit_items (l : list json) (k : string) : string :=
  match l with
  | [] => String "]" k
  | v :: l' => String "," (String " " (emit v (emit_items l' k)))
  end.

Fixpoint emit_pairs (d : list (string * json)) (k : string) : string :=
  match d with
  | [] => String "}" k
  | (k1, v1) :: d' =>
      String "," (String " " (emit_string k1
        (String ":" (String " " (emit v1 (emit_pairs d' k))))))
  end.

(** Text that may follow a value inside a document: nothing, or a
    comma, or a closing bracket or brace. *)
Definition closes (k : string) : bool :=
  match k with
  | EmptyString => true
  | String c _ => Ascii.eqb c "," || Ascii.eqb c "]" || Ascii.eqb c "}"
  end.

(** The characters a value written by [emit] can start with. *)
Definition opens_value (c : ascii) : bool :=
  Ascii.eqb c quote || Ascii.eqb c "{" || Ascii.eqb c "[" || Ascii.eqb c "n"
  || Ascii.eqb c "t" || Ascii.eqb c "f" || Ascii.eqb c "-" || is_digit c
  || Ascii.eqb c "N" || Ascii.eqb c "I".

Fixpoint depth (v : json) : nat :=
  match v with
  | JList l => S (foldr (fun v n => Nat.max (depth v) n) O l)
  | JDict d => S (foldr (fun kv n => Nat.max (depth kv.2) n) O d)
  | _ => 1
  end.

(** The UTF-8 text of a [str] that has one: no stray or missing
    continuation byte, no over-long form, no surrogate, nothing above
    [0x10FFFF]. *)
Definition is_cont (c : ascii) : bool := ((128 <=? code c) && (code c <? 192))%N.

Fixpoint utf8_text (s : string) : bool :=
  match s with
  | EmptyString => true
  | String c0 s0 =>
      if (code c0 <? 128)%N then utf8_text s0
      else if (code c0 <? 194)%N then false
      else
        match s0 with
        | EmptyString => false
        | String c1 s1 =>
            if (code c0 <? 224)%N then is_cont c1 && utf8_text s1
            else
              match s1 with
              | EmptyString => false
              | String c2 s2 =>
                  if (code c0 <? 240)%N then
                    let n := (((code c0 - 224) * 64 + (code c1 - 128)) * 64
                              + (code c2 - 128))%N in
                    is_cont c1 && is_cont c2 && (2048 <=? n)%N
                    && negb ((55296 <=? n) && (n <=? 57343))%N && utf8_text s2
                  else
                    match s2 with
                    | EmptyString => false
                    | String c3 s3 =>
                        let n := ((((code c0 - 240) * 64 + (code c1 - 128)) * 64
                                   + (code c2 - 128)) * 64 + (code c3 - 128))%N in
                        (code c0 <? 248)%N && is_cont c1 && is_cont c2 && is_cont c3
                        && (65536 <=? n)%N && (n <? 1114112)%N && utf8_text s3
                    end
              end
        end
  end.

(** The texts [json.loads] reads as one float: a number written with a
    fraction or an exponent, which is what [float.__repr__] gives for a
    finite float, and the three names [json.dumps] uses for the others. *)
Definition float_literal (lit : string) : bool :=
  match parse_number lit with
  | Some (JFloat lit', EmptyString) => String.eqb lit' lit
  | _ => false
  end
  || String.eqb lit "NaN" || String.eqb lit "Infinity" || String.eqb lit "-Infinity".

(** The values that stand for a Python value: the keys of a
    dictionary are distinct, as those of every [dict] are; a string is
    the UTF-8 text of a [str]; a float is the text of a float. *)
Fixpoint storable (v : json) : bool :=
  match v with
  | JFloat lit => float_literal lit
  | JStr s => utf8_text s
  | JList l => forallb storable l
  | JDict d =>
      bool_decide (NoDup (map fst d))
      && forallb (fun kv => utf8_text kv.1 && storable kv.2) d
  | _ => true
  end.

End Json.

(** ** Dataset preparation ([_prepare_dataset_config]) *)

Module DatasetPrep.
Import Py.

Record Dataset : Type := mk_dataset {
  ds_name : string;
  ds_status : string;
  file_ids : list string;
  labels : option (gmap string Z)
}.

(** The augmentation settings: a dictionary, which
    [get_training_transforms] reads with [.get(key, default)]. *)
Definition augmentation_config : Type := gmap string pyval.

Record dataset_config : Type := mk_dataset_config {
  train_files : list string;
  val_files : list string;
  train_labels : gmap string Z;
  val_labels : gmap string Z;
  augmentation : augmentation_config
}.

(** [int(len(file_ids) * 0.8)]: the double nearest to 0.8 lies just
    above 4/5 and the product is rounded to the nearest double, so for
    every length a list can have the truncated product is the integer
    quotient of [4 * n] by [5]. *)
Definition split_index (n : nat) : nat := (n * 4) `div` 5.

(** [{fid: labels[fid] for fid in files if fid in labels}] *)
Definition label_comprehension (files : list string) (lbl : gmap string Z)
    : gmap string Z :=
  foldl (fun acc fid =>
           match lbl !! fid with
           | Some c => <[fid := c]> acc
           | None => acc
           end) ∅ files.

(** The augmentation entry of the configuration, a literal. *)
Definition default_augmentation : augmentation_config :=
  <["cad_augmentation_probability" := VFloat (Fin (3 # 10))]> (
  <["flip_probability" := VFloat (Fin (5 # 10))]> (
  <["rotation_degrees" := VInt 15]> (
  <["enable_cad_augmentation" := VBool true]> (
  <["enable_flip" := VBool true]> (
  <["enable_rotation" := VBool true]> ∅))))).

Definition _prepare_dataset_config (dataset : Dataset) : outcome dataset_config :=
  let fids := file_ids dataset in
  let lbl := default ∅ (labels dataset) in
  let split := split_index (length fids) in
  let train := take split fids in
  let val := drop split fids in
  Returns {| train_files := train;
             val_files := val;
             train_labels := label_comprehension train lbl;
             val_labels := label_comprehension val lbl;
             augmentation := default_augmentation |}.

(** What [CADDataset] keeps of a split: the files that have a label. *)
Definition valid_files (files : list string) (lbl : gmap string Z) : list string :=
  filter (fun fid => is_Some (lbl !! fid)) files.

(** The distinct classes among the labels present on the stored files. *)
Definition classes_present (dataset : Dataset) : gset Z :=
  let lbl := default ∅ (labels dataset) in
  list_to_set (omap (fun fid => lbl !! fid) (file_ids dataset)).

(** The labels restricted to the files of one split. *)
Definition restrict_labels (files : list string) (lbl : gmap string Z)
    : gmap string Z :=
  filter (fun kv => kv.1 ∈ files) lbl.

End DatasetPrep.

(** ** The training transforms ([src/ml/data/transforms.py]) *)

Module Transforms.
Import Py.

(** Truthiness of a value. *)
Definition truthy (v : pyval) : bool :=
  match v with
  | VNone => false
  | VBool b => b
  | VInt z => negb (z =? 0)%Z
  | VFloat (Fin q) => negb (Qeq_bool q 0)
  | VFloat _ => true
  | VStr s => negb (String.eqb s EmptyString)
  | VTime _ => true
  | VDict d => negb (bool_decide (d = []))
  end.

Definition type_name (v : pyval) : string :=
  match v with
  | VNone => "NoneType"
  | VBool _ => "bool"
  | VInt _ => "int"
  | VFloat _ => "float"
  | VStr _ => "str"
  | VTime _ => "datetime.datetime"
  | VDict _ => "dict"
  end.

(** The exception of [x * 0.5], if any: a number is multiplied, an
    integer being converted to a float first, which fails beyond the
    range of floats; anything else is not an operand. *)
Definition times_half_error (x : pyval) : option pyexn :=
  match x with
  | VBool _ | VFloat _ => None
  | VInt z =>
      if (Z.abs z <? 2 ^ 1024 - 2 ^ 970)%Z then None
      else Some (mk_exn "OverflowError" "int too large to convert to float")
  | VStr _ =>
      Some (mk_exn "TypeError" "can't multiply sequence by non-int of type 'float'")
  | _ =>
      Some (mk_exn "TypeError"
              ("unsupported operand type(s) for *: '" ++ type_name x
               ++ "' and 'float'")%string)
  end.

Section Torchvision.
(** What [transforms.RandomRotation(degrees=x, fill=255)] answers to
    its argument: the exception it raises, if any. *)
Variable random_rotation_error : pyval -> option pyexn.

(** [get_training_transforms], for what it raises: the transforms are
    built in the order of the source, and building one may fail.
    [RandomRotation] checks its degrees; the vertical flip is given
    [flip_prob * 0.5]; [transforms.RandomAffine] is called with a
    keyword [p] that its constructor does not have, which is a
    [TypeError] whatever the value (its text is that of Python 3.10
    and later).  The other constructors
    ([AdaptiveResize], the horizontal flip, [RandomPerspective],
    [CADSpecificAugmentation], [RandomApply] of a [ColorJitter] with
    literal arguments, [ToTensor], [Normalize]) take what they are
    given. *)
Definition get_training_transforms (augmentation_config : gmap string pyval)
    : outcome unit :=
  let get (key : string) (dflt : pyval) : pyval :=
    default dflt (augmentation_config !! key) in
  let rotation :=
    if truthy (get "enable_rotation" (VBool true))
    then random_rotation_error (get "rotation_degrees" (VInt 15))
    else None in
  match rotation with
  | Some e => Raises e
  | None =>
      let flip :=
        if truthy (get "enable_flip" (VBool true))
        then times_half_error (get "flip_probability" (VFloat (Fin (5 # 10))))
        else None in
      match flip with
      | Some e => Raises e
      | None =>
          if truthy (get "enable_affine" (VBool true)) then
            Raises (mk_exn "TypeError"
              "RandomAffine.__init__() got an unexpected keyword argument 'p'")
          else Returns tt
      end
  end.

End Torchvision.

End Transforms.

(** ** The cache ([src/core/redis_client.py]) *)

Module Cache.
Import Json.

(** The Redis keyspace: under each key, the stored text and the
    instant at which it expires.  The calls are those of a client that
    reaches its server, with the positive expiry the callers pass (1,
    60, 300 and the default 3600) and text that has a UTF-8 encoding. *)
Abbreviation redis := (gmap string (string * Z)).

(** [client.setex(key, expire, value)] at time [now]. *)
Definition setex (now : Z) (key : string) (expire : Z) (value : string)
    (r : redis) : redis :=
  <[key := (value, now + expire)]> r.

(** [client.get(key)] at time [now]. *)
Definition get (now : Z) (key : string) (r : redis) : option string :=
  match r !! key with
  | Some (value, deadline) => if (now <? deadline)%Z then Some value else None
  | None => None
  end.

Definition cache_set (now : Z) (key : string) (value : json) (expire : Z)
    (r : redis) : redis :=
  let serialized_value :=
    match value with
    | JStr s => s
    | _ => json_dumps value
    end in
  setex now key expire serialized_value r.

(** The Python function returns [None] on a miss: [JNull] here. *)
Definition cache_get (now : Z) (key : string) (r : redis) : json :=
  match get now key r with
  | None => JNull
  | Some value =>
      match json_loads value with
      | Some v => v
      | None => JStr value
      end
  end.

(** [bool(await client.delete(key))]: Redis answers with the number of
    keys it removed, and a key past its deadline is no longer there. *)
Definition cache_delete (now : Z) (key : string) (r : redis) : bool * redis :=
  (bool_decide (is_Some (get now key r)), delete key r).

Definition default_expire : Z := 3600.

End Cache.

(** ** The epoch trainer ([src/ml/training/trainer.py]) *)

Module CADModelTrainer.
Import Py DatasetPrep Transforms.

(** *** What the embedding takes from PyTorch

    Tensor contents live in storages, addressed by number.  A module
    holds one tensor per named parameter.  [Module.state_dict()] returns
    a dictionary from parameter names to tensors that read the same
    storages as the parameters (detached views, no copy of the data);
    [dict.copy()] is a shallow copy, so its entries are those same
    tensors; [optimizer.step()] writes the parameters in place;
    [load_state_dict] copies the contents of each entry into the
    parameter of that name. *)

Section Torch.
Context {tensor : Type}.

Definition state_dict (parameters : list (string * nat)) : list (string * nat) :=
  parameters.

Definition dict_copy (sd : list (string * nat)) : list (string * nat) := sd.

Fixpoint sd_lookup (name : string) (sd : list (string * nat)) : option nat :=
  match sd with
  | [] => None
  | (n, loc) :: sd' => if String.eqb name n then Some loc else sd_lookup name sd'
  end.

(** [param.copy_(input_param)] for each parameter, in order. *)
Definition load_state_dict (parameters : list (string * nat))
    (sd : list (string * nat)) (heap : gmap nat tensor) : gmap nat tensor :=
  foldl (fun h p =>
           match sd_lookup p.1 sd with
           | Some src =>
               match h !! src with
               | Some t => <[p.2 := t]> h
               | None => h
               end
           | None => h
           end) heap parameters.

(** The values of the parameters, read through their storages. *)
Definition weights (parameters : list (string * nat)) (heap : gmap nat tensor)
    : list (string * option tensor) :=
  map (fun p => (p.1, heap !! p.2)) parameters.

(** The numeric work of an epoch, which the embedding does not
    interpret: the in-place effect of the optimisation pass of an epoch
    on the storages, the loss of a batch, the averaged loss and accuracy
    of the training pass, the result of a validation pass (a function
    of the weights: no shuffling, no gradient), and the learning rate
    after the plateau scheduler has seen the validation losses so far;
    and the check torchvision makes of the degrees of a rotation. *)
Record backend : Type := mk_backend {
  fit : Z -> gmap nat tensor -> gmap nat tensor;
  batch_loss : Z -> Z -> pyfloat;
  train_metrics : Z -> gmap nat tensor -> pyfloat * pyfloat;
  validate : gmap nat tensor -> pyfloat * pyfloat * list (string * pyfloat);
  lr_schedule : list pyfloat -> pyfloat;
  empty_loader_error : pyexn;
  random_rotation_error : pyval -> option pyexn
}.

End Torch.
Arguments backend tensor : clear implicits.

(** *** Hyper-parameters read by [__init__] *)

Record hyper : Type := mk_hyper {
  epochs : pyval;
  batch_size : pyval;
  learning_rate : pyval;
  weight_decay : pyval;
  patience : pyval
}.

(** [training_config.get(key, dflt)] *)
Definition config_get (training_config : gmap string pyval) (key : string)
    (dflt : pyval) : pyval :=
  default dflt (training_config !! key).

(** The training parameters of [CADModelTrainer.__init__]. *)
Definition init_hyper (training_config : gmap string pyval) : hyper :=
  {| epochs := config_get training_config "epochs" (VInt 100);
     batch_size := config_get training_config "batch_size" (VInt 32);
     learning_rate := config_get training_config "learning_rate" (VFloat (Fin (1 # 1000)));
     weight_decay := config_get training_config "weight_decay" (VFloat (Fin (1 # 10000)));
     patience := config_get training_config "patience" (VInt 10) |}.

(** *** The mutable state of a trainer *)

Record history : Type := mk_history {
  h_train_loss : list pyfloat;
  h_val_loss : list pyfloat;
  h_train_acc : list pyfloat;
  h_val_acc : list pyfloat;
  h_learning_rate : list pyfloat
}.

Record trainer {tensor : Type} : Type := mk_trainer {
  heap : gmap nat tensor;
  current_epoch : Z;
  best_val_loss : pyfloat;
  best_model_state : option (list (string * nat));
  training_history : history;
  early_stopping_counter : Z;
  (** calls of [progress_callback], oldest first *)
  emitted : list (list (string * pyval));
  (** calls of [save_checkpoint]: epoch and [is_best], oldest first *)
  checkpoints : list (Z * bool)
}.
Arguments trainer tensor : clear implicits.

Record training_results : Type := mk_results {
  final_train_loss : pyfloat;
  final_val_loss : pyfloat;
  final_train_acc : pyfloat;
  final_val_acc : pyfloat;
  res_best_val_loss : pyfloat;
  epochs_trained : Z;
  model_path : string;
  detailed_metrics : list (string * pyfloat);
  res_training_history : history
}.

Section Train.
Context {tensor : Type}.
Variable B : backend tensor.
(** [self.model]: parameter names and their storages. *)
Variable parameters : list (string * nat).
(** [self.progress_callback is not None] *)
Variable has_callback : bool.
Variable hp : hyper.

Definition init_state (heap0 : gmap nat tensor) : trainer tensor :=
  {| heap := heap0;
     current_epoch := 0;
     best_val_loss := PosInf;
     best_model_state := None;
     training_history := mk_history [] [] [] [] [];
     early_stopping_counter := 0;
     emitted := [];
     checkpoints := [] |}.

Definition set_heap (h : gmap nat tensor) (st : trainer tensor) : trainer tensor :=
  {| heap := h;
     current_epoch := current_epoch st;
     best_val_loss := best_val_loss st;
     best_model_state := best_model_state st;
     training_history := training_history st;
     early_stopping_counter := early_stopping_counter st;
     emitted := emitted st;
     checkpoints := checkpoints st |}.

Definition set_current_epoch (e : Z) (st : trainer tensor) : trainer tensor :=
  {| heap := heap st;
     current_epoch := e;
     best_val_loss := best_val_loss st;
     best_model_state := best_model_state st;
     training_history := training_history st;
     early_stopping_counter := early_stopping_counter st;
     emitted := emitted st;
     checkpoints := checkpoints st |}.

Definition emit_progress (note : list (string * pyval)) (st : trainer tensor)
    : trainer tensor :=
  {| heap := heap st;
     current_epoch := current_epoch st;
     best_val_loss := best_val_loss st;
     best_model_state := best_model_state st;
     training_history := training_history st;
     early_stopping_counter := early_stopping_counter st;
     emitted := emitted st ++ [note];
     checkpoints := checkpoints st |}.

Definition append_history (tl vl ta va lr : pyfloat) (st : trainer tensor)
    : trainer tensor :=
  let h := training_history st in
  {| heap := heap st;
     current_epoch := current_epoch st;
     best_val_loss := best_val_loss st;
     best_model_state := best_model_state st;
     training_history :=
       {| h_train_loss := h_train_loss h ++ [tl];
          h_val_loss := h_val_loss h ++ [vl];
          h_train_acc := h_train_acc h ++ [ta];
          h_val_acc := h_val_acc h ++ [va];
          h_learning_rate := h_learning_rate h ++ [lr] |};
     early_stopping_counter := early_stopping_counter st;
     emitted := emitted st;
     checkpoints := checkpoints st |}.

(** The branch on [is_best] in the epoch loop. *)
Definition record_best (val_loss : pyfloat) (is_best : bool) (st : trainer tensor)
    : trainer tensor :=
  if is_best then
    {| heap := heap st;
       current_epoch := current_epoch st;
       best_val_loss := val_loss;
       best_model_state := Some (dict_copy (state_dict parameters));
       training_history := training_history st;
       early_stopping_counter := 0;
       emitted := emitted st;
       checkpoints := checkpoints st |}
  else
    {| heap := heap st;
       current_epoch := current_epoch st;
       best_val_loss := best_val_loss st;
       best_model_state := best_model_state st;
       training_history := training_history st;
       early_stopping_counter := early_stopping_counter st + 1;
       emitted := emitted st;
       checkpoints := checkpoints st |}.

Definition save_checkpoint (is_best : bool) (st : trainer tensor) : trainer tensor :=
  {| heap := heap st;
     current_epoch := current_epoch st;
     best_val_loss := best_val_loss st;
     best_model_state := best_model_state st;
     training_history := training_history st;
     early_stopping_counter := early_stopping_counter st;
     emitted := emitted st;
     checkpoints := checkpoints st ++ [(current_epoch st, is_best)] |}.

(** [len(loader)] for [n] samples in batches of size [bs]. *)
Definition loader_len (n : nat) (bs : Z) : Z := (Z.of_nat n + bs - 1) / bs.

(** [DataLoader(dataset, batch_size=self.batch_size, ...)] on a
    dataset of [n] samples, for its length.  A batch size that is
    neither [None] nor a positive integer is refused; [None] turns
    batching off. *)
Definition data_loader (n : nat) : outcome Z :=
  match batch_size hp with
  | VNone => Returns (Z.of_nat n)
  | VInt bs =>
      if (0 <? bs)%Z then Returns (loader_len n bs)
      else Raises (mk_exn "ValueError"
             "batch_size should be a positive integer value")
  | _ => Raises (mk_exn "ValueError"
             "batch_size should be a positive integer value")
  end.

(** [prepare_data]: the lengths of the two loaders.  The training
    transforms are built first.  The training loader shuffles, and the
    sampler that does so refuses a dataset without samples, before the
    batch size is looked at; the validation loader does not shuffle. *)
Definition prepare_data (cfg : dataset_config) : outcome (Z * Z) :=
  match get_training_transforms (random_rotation_error B) (augmentation cfg) with
  | Raises e => Raises e
  | Returns _ =>
      let train_dataset := valid_files (train_files cfg) (train_labels cfg) in
      let val_dataset := valid_files (val_files cfg) (val_labels cfg) in
      if bool_decide (train_dataset = []) then
        Raises (mk_exn "ValueError"
          "num_samples should be a positive integer value, but got num_samples=0")
      else
        match data_loader (length train_dataset) with
        | Raises e => Raises e
        | Returns n_train =>
            match data_loader (length val_dataset) with
            | Raises e => Raises e
            | Returns n_val => Returns (n_train, n_val)
            end
        end
  end.

(** The batch-level notification of [train_epoch]. *)
Definition batch_note (epoch batch_idx n_batches : Z) : list (string * pyval) :=
  [("epoch", VInt epoch);
   ("batch", VInt batch_idx);
   ("batch_progress", VFloat (Fin (inject_Z batch_idx / inject_Z n_batches * 100)));
   ("loss", VFloat (batch_loss B epoch batch_idx))].

(** The batches of an epoch that notify: [batch_idx % 10 == 0]. *)
Definition notifying_batches (n_batches : Z) : list Z :=
  filter (fun i => (i mod 10 =? 0)%Z) (map Z.of_nat (seq 0 (Z.to_nat n_batches))).

Definition train_epoch (n_batches : Z) : M (trainer tensor) (pyfloat * pyfloat) :=
  fun st =>
    let epoch := current_epoch st in
    let st1 := set_heap (fit B epoch (heap st)) st in
    let st2 :=
      if has_callback then
        foldl (fun s i => emit_progress (batch_note epoch i n_batches) s)
              st1 (notifying_batches n_batches)
      else st1 in
    if (n_batches =? 0)%Z then (Raises (empty_loader_error B), st2)
    else (Returns (train_metrics B epoch (heap st2)), st2).

Definition validate_epoch (n_batches : Z)
    : M (trainer tensor) (pyfloat * pyfloat * list (string * pyfloat)) :=
  fun st =>
    if (n_batches =? 0)%Z then (Raises (empty_loader_error B), st)
    else (Returns (validate B (heap st)), st).

(** The epoch-level notification of [train]. *)
Definition epoch_note (epoch total : Z) (tl vl ta va lr : pyfloat)
    (metrics : list (string * pyfloat)) : list (string * pyval) :=
  [("epoch", VInt epoch);
   ("total_epochs", VInt total);
   ("progress", VFloat (Fin (inject_Z (epoch + 1) / inject_Z total * 100)));
   ("train_loss", VFloat tl);
   ("val_loss", VFloat vl);
   ("train_acc", VFloat ta);
   ("val_acc", VFloat va);
   ("learning_rate", VFloat lr);
   ("detailed_metrics", VDict metrics)].

(** [self.early_stopping_counter >= self.patience] *)
Definition counter_ge_patience (counter : Z) : outcome bool :=
  match patience hp with
  | VInt p => Returns (p <=? counter)%Z
  | VBool b => Returns ((if b then 1 else 0) <=? counter)%Z
  | VFloat x => Returns (negb (float_lt (Fin (inject_Z counter)) x)
                         && negb (match x with NaN => true | _ => false end))
  | _ => Raises (mk_exn "TypeError"
           "'>=' not supported between instances of 'int' and this type")
  end.

(** One pass of the body of [for epoch in range(self.epochs)], up to
    the early-stopping test; the result tells whether the loop breaks. *)
Definition epoch_body (total n_train n_val epoch : Z) : M (trainer tensor) bool :=
  (_ <- modify (set_current_epoch epoch) ;;
   tr <- train_epoch n_train ;;
   va <- validate_epoch n_val ;;
   hist <- gets (fun st => h_val_loss (training_history st)) ;;
   let '(train_loss, train_acc) := tr in
   let '(val_loss, val_acc, metrics) := va in
   let current_lr := lr_schedule B (hist ++ [val_loss]) in
   _ <- modify (append_history train_loss val_loss train_acc val_acc current_lr) ;;
   best <- gets best_val_loss ;;
   let is_best := float_lt val_loss best in
   _ <- modify (record_best val_loss is_best) ;;
   _ <- modify (save_checkpoint is_best) ;;
   _ <- modify (fun st =>
          if has_callback then
            emit_progress (epoch_note epoch total train_loss val_loss
                             train_acc val_acc current_lr metrics) st
          else st) ;;
   counter <- gets early_stopping_counter ;;
   lift (counter_ge_patience counter))%py.

(** The loop over the epochs still to run. *)
Fixpoint epoch_loop (total n_train n_val : Z) (todo : list Z)
    : M (trainer tensor) unit :=
  match todo with
  | [] => ret tt
  | epoch :: todo' =>
      (stop <- epoch_body total n_train n_val epoch ;;
       if stop : bool then ret tt else epoch_loop total n_train n_val todo')%py
  end.

(** [range(self.epochs)] *)
Definition epoch_range : outcome (Z * list Z) :=
  match epochs hp with
  | VInt n => Returns (n, map Z.of_nat (seq 0 (Z.to_nat n)))
  | VBool b => Returns (if b then (1, [0]) else (0, []))
  | _ => Raises (mk_exn "TypeError"
           "object cannot be interpreted as an integer")
  end.

(** [seq[-1]] *)
Definition last_item (l : list pyfloat) : outcome pyfloat :=
  match last l with
  | Some x => Returns x
  | None => Raises (mk_exn "IndexError" "list index out of range")
  end.

Definition train (cfg : dataset_config) (save_dir : string)
    : M (trainer tensor) training_results :=
  (loaders <- lift (prepare_data cfg) ;;
   let '(n_train, n_val) := loaders in
   rng <- lift epoch_range ;;
   let '(total, todo) := rng in
   _ <- epoch_loop total n_train n_val todo ;;
   _ <- modify (fun st =>
          match best_model_state st with
          | Some sd => set_heap (load_state_dict parameters sd (heap st)) st
          | None => st
          end) ;;
   final <- validate_epoch n_val ;;
   let '(final_val_loss, final_val_acc, final_metrics) := final in
   h <- gets training_history ;;
   ftl <- lift (last_item (h_train_loss h)) ;;
   fta <- lift (last_item (h_train_acc h)) ;;
   best <- gets best_val_loss ;;
   cur <- gets current_epoch ;;
   ret {| final_train_loss := ftl;
          final_val_loss := final_val_loss;
          final_train_acc := fta;
          final_val_acc := final_val_acc;
          res_best_val_loss := best;
          epochs_trained := cur + 1;
          model_path := (save_dir ++ "/final_model.pth")%string;
          detailed_metrics := final_metrics;
          res_training_history := h |})%py.

End Train.

End CADModelTrainer.

(** ** The background tasks ([src/tasks/training_tasks.py]) *)

Module Tasks.
Import Py Json Cache DatasetPrep CADModelTrainer.

(** The state the tasks act on: the clock, the [training_jobs] table
    (job id to row, a row being column name to value), the datasets,
    the [ai_models] table in creation order, the Redis keyspace, and
    the [training_jobs] table as each commit left it (oldest first),
    which is what a reader of the database can observe over time. *)
Record world : Type := mk_world {
  now : Z;
  training_jobs : gmap string (gmap string pyval);
  datasets : gmap string Dataset;
  ai_models : list (gmap string pyval);
  redis_store : gmap string (string * Z);
  commits : list (gmap string (gmap string pyval))
}.

Definition set_training_jobs (t : gmap string (gmap string pyval)) (w : world) : world :=
  {| now := now w;
     training_jobs := t;
     datasets := datasets w;
     ai_models := ai_models w;
     redis_store := redis_store w;
     commits := commits w |}.

Definition set_redis_store (r : gmap string (string * Z)) (w : world) : world :=
  {| now := now w;
     training_jobs := training_jobs w;
     datasets := datasets w;
     ai_models := ai_models w;
     redis_store := r;
     commits := commits w |}.

Definition add_ai_model (m : gmap string pyval) (w : world) : world :=
  {| now := now w;
     training_jobs := training_jobs w;
     datasets := datasets w;
     ai_models := ai_models w ++ [m];
     redis_store := redis_store w;
     commits := commits w |}.

Definition advance_clock (seconds : Z) (w : world) : world :=
  {| now := now w + seconds;
     training_jobs := training_jobs w;
     datasets := datasets w;
     ai_models := ai_models w;
     redis_store := redis_store w;
     commits := commits w |}.

(** [await db.commit()] *)
Definition commit (w : world) : world :=
  {| now := now w;
     training_jobs := training_jobs w;
     datasets := datasets w;
     ai_models := ai_models w;
     redis_store := redis_store w;
     commits := commits w ++ [training_jobs w] |}.

(** The SQL [UPDATE training_jobs SET update_data WHERE id = job_id]:
    the listed columns are overwritten, the others kept; no row, no effect. *)
Definition sql_update (job_id : string) (update_data : gmap string pyval)
    (t : gmap string (gmap string pyval)) : gmap string (gmap string pyval) :=
  match t !! job_id with
  | Some r => <[job_id := update_data ∪ r]> t
  | None => t
  end.

(** A column of a row; an absent column reads as NULL. *)
Definition col (r : gmap string pyval) (c : string) : pyval :=
  default VNone (r !! c).

Definition job_col (w : world) (job_id c : string) : option pyval :=
  (fun r => col r c) <$> training_jobs w !! job_id.

(** The [update_data] of [_update_training_job_status]; the clock
    readings of one call are taken as one instant, in seconds. *)
Definition status_update_data (t : Z) (status : string)
    (celery_task_id error_message : option string) : gmap string pyval :=
  let d0 : gmap string pyval :=
    <["updated_at" := VTime t]> (<["status" := VStr status]> ∅) in
  let d1 :=
    if truthy_str celery_task_id
    then <["celery_task_id" := VStr (default EmptyString celery_task_id)]> d0
    else d0 in
  let d2 :=
    if String.eqb status "running" then
      <["estimated_completion" := VTime (t + 3600)]> (<["started_at" := VTime t]> d1)
    else if bool_decide (status ∈ ["completed"; "failed"; "cancelled"]) then
      <["completed_at" := VTime t]> d1
    else d1 in
  if truthy_str error_message
  then <["error_message" := VStr (default EmptyString error_message)]> d2
  else d2.

Definition _update_training_job_status (training_job_id status : string)
    (celery_task_id error_message : option string) : M world unit :=
  modify (fun w =>
    commit (set_training_jobs
      (sql_update training_job_id
         (status_update_data (now w) status celery_task_id error_message)
         (training_jobs w)) w)).

Definition opt_float (o : option pyfloat) : pyval :=
  match o with
  | Some x => VFloat x
  | None => VNone
  end.

Fixpoint metric_get (k : string) (d : list (string * pyfloat)) : option pyfloat :=
  match d with
  | [] => None
  | (k', x) :: d' => if String.eqb k k' then Some x else metric_get k d'
  end.

(** The [update_data] of [_update_training_progress]. *)
Definition progress_update_data (t : Z) (progress_data : list (string * pyval))
    : outcome (gmap string pyval) :=
  let d0 : gmap string pyval :=
    <["updated_at" := VTime t]> (
    <["accuracy" := dict_get_default "val_acc" VNone progress_data]> (
    <["validation_loss" := dict_get_default "val_loss" VNone progress_data]> (
    <["training_loss" := dict_get_default "train_loss" VNone progress_data]> (
    <["progress_percentage" := dict_get_default "progress" (VInt 0) progress_data]> (
    <["current_epoch" := dict_get_default "epoch" (VInt 0) progress_data]> ∅))))) in
  match dict_get "detailed_metrics" progress_data with
  | None => Returns d0
  | Some (VDict metrics) =>
      Returns (
        <["f1_score" := opt_float (metric_get "f1_score" metrics)]> (
        <["recall" := opt_float (metric_get "recall" metrics)]> (
        <["precision" := opt_float (metric_get "precision" metrics)]> d0)))
  | Some _ =>
      Raises (mk_exn "AttributeError" "object has no attribute 'get'")
  end.

(** The database block of [_update_training_progress]. *)
Definition store_progress (training_job_id : string)
    (progress_data : list (string * pyval)) : M world unit :=
  (update_data <- (fun w => (progress_update_data (now w) progress_data, w)) ;;
   modify (fun w =>
     commit (set_training_jobs
       (sql_update training_job_id update_data (training_jobs w)) w)))%py.

Definition progress_key (training_job_id : string) : string :=
  ("training_progress:" ++ training_job_id)%string.

(** The write to the progress channel: [cache_set(cache_key, payload, expire=300)]. *)
Definition publish_progress (training_job_id : string) (payload : json)
    : M world unit :=
  modify (fun w =>
    set_redis_store
      (cache_set (now w) (progress_key training_job_id) payload 300 (redis_store w)) w).

Section Progress.
(** [repr] of a float, as [json.dumps] writes it. *)
Variable float_repr : pyfloat -> string.

(** A notification as the value [json.dumps] receives; a datetime
    would make it raise [TypeError], and none occurs in a notification. *)
Definition to_json (v : pyval) : option json :=
  match v with
  | VNone => Some JNull
  | VBool b => Some (JBool b)
  | VInt z => Some (JInt z)
  | VFloat x => Some (JFloat (float_repr x))
  | VStr s => Some (JStr s)
  | VTime _ => None
  | VDict d => Some (JDict (map (fun kx => (kx.1, JFloat (float_repr kx.2))) d))
  end.

Fixpoint payload_json (d : list (string * pyval)) : option (list (string * json)) :=
  match d with
  | [] => Some []
  | (k, v) :: d' =>
      match to_json v, payload_json d' with
      | Some j, Some js => Some ((k, j) :: js)
      | _, _ => None
      end
  end.

Definition _update_training_progress (training_job_id : string)
    (progress_data : list (string * pyval)) : M world unit :=
  (_ <- store_progress training_job_id progress_data ;;
   match payload_json progress_data with
   | Some js => publish_progress training_job_id (JDict js)
   | None => raise (mk_exn "TypeError" "Object is not JSON serializable")
   end)%py.

End Progress.

Definition _update_training_job_completion (training_job_id : string)
    (training_results : training_results) (model_id : string) : M world unit :=
  modify (fun w =>
    let t := now w in
    let metrics := detailed_metrics training_results in
    let update_data : gmap string pyval :=
      <["updated_at" := VTime t]> (
      <["progress_percentage" := VFloat (Fin 100)]> (
      <["f1_score" := opt_float (metric_get "f1_score" metrics)]> (
      <["recall" := opt_float (metric_get "recall" metrics)]> (
      <["precision" := opt_float (metric_get "precision" metrics)]> (
      <["accuracy" := VFloat (final_val_acc training_results)]> (
      <["validation_loss" := VFloat (final_val_loss training_results)]> (
      <["training_loss" := VFloat (final_train_loss training_results)]> (
      <["model_path" := VStr (model_path training_results)]> (
      <["completed_at" := VTime t]> (
      <["status" := VStr "completed"]> ∅)))))))))) in
    commit (set_training_jobs
      (sql_update training_job_id update_data (training_jobs w)) w)).

(** What a task returns to its caller. *)
Inductive task_result : Type :=
| TaskSuccess (training_job_id : string) (model_id : option string)
| TaskFailure (training_job_id : string) (error : string).

Section TrainTask.
(** The collaborators of the training task that the embedding takes as
    given: the run of the trainer on a dataset configuration
    (construction of [CADModelTrainer], creation of the save directory
    and [trainer.train]) with the seconds it took, the identifiers
    [uuid4()] hands out, and the text of a time stamp. *)
Variable run_trainer :
  gmap string pyval -> gmap string pyval -> dataset_config -> string ->
  outcome training_results * Z.
Variable uuid4 : nat -> string.
Variable strftime : Z -> string.
Variable model_storage_path : string.

(** [ModelService.create_model]; the model configuration is kept by
    its [model_type], the one entry the task reads. *)
Definition create_model (name description version model_type training_job_id
    training_dataset_id model_path : string)
    (performance_metrics : list (string * pyfloat)) (created_by : string)
    : M world string :=
  fun w =>
    let id := uuid4 (length (ai_models w)) in
    let ai_model : gmap string pyval :=
      <["created_by" := VStr created_by]> (
      <["f1_score" := opt_float (metric_get "f1_score" performance_metrics)]> (
      <["recall" := opt_float (metric_get "recall" performance_metrics)]> (
      <["precision" := opt_float (metric_get "precision" performance_metrics)]> (
      <["accuracy" := opt_float (metric_get "accuracy" performance_metrics)]> (
      <["model_path" := VStr model_path]> (
      <["training_dataset_id" := VStr training_dataset_id]> (
      <["training_job_id" := VStr training_job_id]> (
      <["model_type" := VStr model_type]> (
      <["version" := VStr version]> (
      <["description" := VStr description]> (
      <["name" := VStr name]> (
      <["id" := VStr id]> ∅)))))))))))) in
    (Returns id, commit (add_ai_model ai_model w)).

Definition model_type_of (model_config : gmap string pyval) : string :=
  match default (VStr "cnn") (model_config !! "model_type") with
  | VStr s => s
  | _ => "cnn"
  end.

(** The body of [_train_model] inside [try]. *)
Definition train_body (task_id : option string) (training_job_id dataset_id : string)
    (model_config training_config : gmap string pyval) (user_id : string)
    : M world task_result :=
  (_ <- _update_training_job_status training_job_id "running" task_id None ;;
   dataset <- gets (fun w => datasets w !! dataset_id) ;;
   match dataset with
   | None =>
       raise (mk_exn "ValueError" ("Dataset " ++ dataset_id ++ " not found")%string)
   | Some dataset =>
       if negb (String.eqb (ds_status dataset) "ready") then
         raise (mk_exn "ValueError"
                  ("Dataset " ++ dataset_id ++ " is not ready for training")%string)
       else
         dataset_config <- lift (_prepare_dataset_config dataset) ;;
         let model_save_dir := (model_storage_path ++ "/" ++ training_job_id)%string in
         training_results <-
           (fun w =>
              let '(res, seconds) :=
                run_trainer model_config training_config dataset_config model_save_dir in
              (res, advance_clock seconds w)) ;;
         stamp <- gets (fun w => strftime (now w)) ;;
         model_id <-
           create_model ("CAD Model - " ++ stamp)%string
             ("Trained on dataset " ++ ds_name dataset)%string
             "1.0.0" (model_type_of model_config) training_job_id dataset_id
             (model_path training_results) (detailed_metrics training_results)
             user_id ;;
         _ <- _update_training_job_completion training_job_id training_results model_id ;;
         ret (TaskSuccess training_job_id (Some model_id))
   end)%py.

Definition train_cad_model_task (task_id : option string)
    (training_job_id dataset_id : string)
    (model_config training_config : gmap string pyval) (user_id : string)
    : M world task_result :=
  try_except
    (train_body task_id training_job_id dataset_id model_config training_config user_id)
    (fun e =>
       (_ <- _update_training_job_status training_job_id "failed" task_id
               (Some (exn_str e)) ;;
        ret (TaskFailure training_job_id (exn_str e)))%py).

End TrainTask.



(** The values a column of the job took, commit after commit. *)
Definition column_history (w : world) (job_id c : string) : list pyval :=
  omap (fun t => (fun r => col r c) <$> t !! job_id) (commits w).

End Tasks.

(** ** The HTTP routes ([src/api/routes/training.py]) and the service *)

Module Routes.
Import Py Tasks.





(** The defaults [create_training_job] puts under the request's
    [training_config]. *)
Definition default_training_config : gmap string pyval :=
  <["patience" := VInt 10]> (
  <["weight_decay" := VFloat (Fin (1 # 10000))]> (
  <["learning_rate" := VFloat (Fin (1 # 1000))]> (
  <["batch_size" := VInt 32]> (
  <["epochs" := VInt 50]> ∅)))).

(** The dictionary display that spreads the defaults and then the
    request: the entries of the request win. *)
Definition route_training_config (requested : gmap string pyval)
    : gmap string pyval :=
  requested ∪ default_training_config.

(** [total_epochs] of the row [TrainingService.create_training_job] inserts. *)
Definition total_epochs (training_config : gmap string pyval) : pyval :=
  default (VInt 50) (training_config !! "epochs").

End Routes.

(** ** The dataset class ([src/ml/data/dataset.py]) *)

Module CADDataset.
Import Py DatasetPrep.

(** The attributes of a [CADDataset] that the labels depend on; the
    transform and the base URL only bear on the image. *)
Record cad_dataset : Type := mk_cad_dataset {
  self_file_ids : list string;
  self_labels : gmap string Z;
  self_valid_files : list string
}.

(** [CADDataset.__init__]: the files without a label are filtered out. *)
Definition __init__ (file_ids : list string) (labels : gmap string Z) : cad_dataset :=
  {| self_file_ids := file_ids;
     self_labels := labels;
     self_valid_files := valid_files file_ids labels |}.

Definition __len__ (self : cad_dataset) : nat := length (self_valid_files self).

(** [seq[idx]] on a Python list: a negative index counts from the end;
    [None] stands for the [IndexError]. *)
Definition list_getitem {A} (l : list A) (idx : Z) : option A :=
  if (0 <=? idx)%Z then l !! Z.to_nat idx
  else if (0 <=? Z.of_nat (length l) + idx)%Z then l !! Z.to_nat (Z.of_nat (length l) + idx)
  else None.

(** The first two statements of [__getitem__], which pick the file and
    its label; [None] stands for the [IndexError] or the [KeyError].
    What follows them loads the image and does not change the label. *)
Definition getitem_label (self : cad_dataset) (idx : Z) : option (string * Z) :=
  match list_getitem (self_valid_files self) idx with
  | None => None
  | Some file_id =>
      match self_labels self !! file_id with
      | None => None
      | Some label => Some (file_id, label)
      end
  end.

(** [get_class_distribution]; [None] stands for the [KeyError] of
    [self.labels[file_id]]. *)
Definition get_class_distribution (self : cad_dataset) : option (gmap Z Z) :=
  foldl (fun distribution file_id =>
           match distribution with
           | None => None
           | Some d =>
               match self_labels self !! file_id with
               | None => None
               | Some label => Some (<[label := default 0 (d !! label) + 1]> d)
               end
           end)
        (Some ∅) (self_valid_files self).

(** [sum(distribution.values())] *)
Definition sum_values (d : gmap Z Z) : Z :=
  map_fold (fun _ n acc => n + acc) 0 d.

End CADDataset.

(** * Properties *)

(** ** Dataset preparation *)

Section DatasetPrepFacts.
Import Py DatasetPrep.

Lemma split_index_floor (n : nat) :
  (5 * split_index n <= 4 * n < 5 * split_index n + 5)%nat.
Proof.
  unfold split_index.
  pose proof (Nat.div_mod_eq (n * 4) 5) as E.
  pose proof (Nat.mod_upper_bound (n * 4) 5) as B.
  change (n * 4 `div` 5)%nat with (Nat.div (n * 4) 5).
  lia.
Qed.

Lemma split_index_le (n : nat) : (split_index n <= n)%nat.
Proof. pose proof (split_index_floor n). lia. Qed.

Lemma label_comprehension_acc (lbl : gmap string Z) (files : list string) :
  forall (acc : gmap string Z) (k : string),
    foldl (fun a fid =>
             match lbl !! fid with
             | Some c => <[fid := c]> a
             | None => a
             end) acc files !! k
    = match (if decide (k ∈ files) then lbl !! k else None) with
      | Some c => Some c
      | None => acc !! k
      end.
Proof.
  induction files as [|f files IH]; intros acc k; simpl.
  - destruct (decide (k ∈ [])) as [Hin|_]; [by apply elem_of_nil in Hin|done].
  - rewrite IH. clear IH.
    destruct (decide (k ∈ files)) as [Hin|Hnin].
    + rewrite decide_True by (by right).
      destruct (lbl !! k) as [c|] eqn:Hk; [done|].
      destruct (lbl !! f) as [c'|] eqn:Hf; [|done].
      rewrite lookup_insert_ne; [done|congruence].
    + destruct (decide (k = f)) as [->|Hne].
      * rewrite decide_True by (by left).
        destruct (lbl !! f) as [c|]; [by rewrite lookup_insert_eq|done].
      * rewrite decide_False by (intros [?|?]%elem_of_cons; done).
        destruct (lbl !! f) as [c|]; [by rewrite lookup_insert_ne|done].
Qed.

Lemma label_comprehension_lookup (files : list string) (lbl : gmap string Z) (k : string) :
  label_comprehension files lbl !! k
  = if decide (k ∈ files) then lbl !! k else None.
Proof.
  unfold label_comprehension. rewrite label_comprehension_acc.
  rewrite lookup_empty. by destruct (if decide (k ∈ files) then lbl !! k else None).
Qed.

Lemma label_comprehension_restrict (files : list string) (lbl : gmap string Z) :
  label_comprehension files lbl = restrict_labels files lbl.
Proof.
  apply map_eq; intros k. rewrite label_comprehension_lookup.
  unfold restrict_labels. rewrite map_lookup_filter.
  destruct (lbl !! k) as [c|] eqn:Hk; simpl.
  - destruct (decide (k ∈ files)) as [Hin|Hnin].
    + by rewrite option_guard_True.
    + by rewrite option_guard_False.
  - by destruct (decide (k ∈ files)).
Qed.

(** The ten-file dataset of scenario A: every file labelled, two
    classes with five files each. *)
Definition scenario_A : Dataset :=
  {| ds_name := "scenario-A";
     ds_status := "ready";
     file_ids := ["f1"; "f2"; "f3"; "f4"; "f5"; "f6"; "f7"; "f8"; "f9"; "f10"];
     labels := Some (list_to_map
       [("f1", 0); ("f2", 0); ("f3", 0); ("f4", 0); ("f5", 0);
        ("f6", 1); ("f7", 1); ("f8", 1); ("f9", 1); ("f10", 1)]) |}.

(** C7. For every Dataset with n file_ids, [_prepare_dataset_config]
    puts the first floor(0.8 * n) file_ids, in stored order, in the
    training split and the remaining ones in the validation split, and
    the label mapping of each split is the stored labels restricted to
    the files of that split (a file without label has no entry).  For
    file_ids f1..f10, all labelled, the training split is f1..f8 and the
    validation split is f9..f10. *)
Theorem prepare_dataset_config_split :
  (forall d : Dataset,
     exists cfg, _prepare_dataset_config d = Returns cfg /\
       (5 * length (train_files cfg) <= 4 * length (file_ids d)
          < 5 * length (train_files cfg) + 5)%nat /\
       train_files cfg = take (length (train_files cfg)) (file_ids d) /\
       val_files cfg = drop (length (train_files cfg)) (file_ids d) /\
       train_labels cfg = restrict_labels (train_files cfg) (default ∅ (labels d)) /\
       val_labels cfg = restrict_labels (val_files cfg) (default ∅ (labels d)) /\
       (forall fid, train_labels cfg !! fid
                    = if decide (fid ∈ train_files cfg)
                      then default ∅ (labels d) !! fid else None) /\
       (forall fid, val_labels cfg !! fid
                    = if decide (fid ∈ val_files cfg)
                      then default ∅ (labels d) !! fid else None))
  /\ (exists cfg, _prepare_dataset_config scenario_A = Returns cfg /\
        train_files cfg = ["f1"; "f2"; "f3"; "f4"; "f5"; "f6"; "f7"; "f8"] /\
        val_files cfg = ["f9"; "f10"] /\
        dom (train_labels cfg) = list_to_set (train_files cfg) /\
        dom (val_labels cfg) = list_to_set (val_files cfg)).
Proof.
  split.
  - intros d. eexists. split; [reflexivity|]. simpl.
    pose proof (split_index_le (length (file_ids d))) as Hle.
    pose proof (split_index_floor (length (file_ids d))) as Hfl.
    rewrite length_take, Nat.min_l by exact Hle.
    repeat split; try lia; try done.
    + apply label_comprehension_restrict.
    + apply label_comprehension_restrict.
    + intros fid. apply label_comprehension_lookup.
    + intros fid. apply label_comprehension_lookup.
  - eexists. split; [reflexivity|].
    repeat split; vm_compute; reflexivity.
Qed.

(** A dataset with a single labelled file: the training split is empty
    and one class is present. *)
Definition single_file_dataset : Dataset :=
  {| ds_name := "tiny";
     ds_status := "ready";
     file_ids := ["f1"];
     labels := Some {[ "f1" := 0 ]} |}.

(** The design document's error kind. *)
Definition is_ConfigurationError {A} (r : outcome A) : Prop :=
  exists msg, r = Raises (mk_exn "ConfigurationError" msg).

(** C8, refuted as stated: on a dataset whose training split holds no
    record and whose labels show one class, preparation returns a
    configuration and raises nothing. *)
Lemma prepare_dataset_config_no_ConfigurationError :
  valid_files (take (split_index (length (file_ids single_file_dataset)))
                    (file_ids single_file_dataset))
              (default ∅ (labels single_file_dataset)) = []
  /\ size (classes_present single_file_dataset) = 1%nat
  /\ ~ is_ConfigurationError (_prepare_dataset_config single_file_dataset).
Proof.
  split; [reflexivity|]. split; [vm_compute; reflexivity|].
  intros [msg H]. discriminate H.
Qed.

(** C8, as the code has it: [_prepare_dataset_config] validates nothing.
    For every Dataset, whatever the size of its training split and the
    number of classes among its labels, it returns the 80/20 split
    configuration and raises no exception. *)
Theorem prepare_dataset_config_total (d : Dataset) :
  exists cfg, _prepare_dataset_config d = Returns cfg /\
    train_files cfg ++ val_files cfg = file_ids d /\
    ~ is_ConfigurationError (_prepare_dataset_config d).
Proof.
  eexists. split; [reflexivity|]. split.
  - simpl. apply take_drop.
  - intros [msg H]. discriminate H.
Qed.

End DatasetPrepFacts.

(** ** Job rows and status updates *)

Section JobRowFacts.
Import Py Tasks.

Lemma sql_update_lookup (id : string) (d : gmap string pyval)
    (t : gmap string (gmap string pyval)) :
  sql_update id d t !! id = (fun r => d ∪ r) <$> t !! id.
Proof.
  unfold sql_update. destruct (t !! id) as [r|] eqn:E.
  - by rewrite lookup_insert_eq.
  - by rewrite E.
Qed.

Lemma sql_update_lookup_ne (id id' : string) (d : gmap string pyval)
    (t : gmap string (gmap string pyval)) :
  id <> id' -> sql_update id d t !! id' = t !! id'.
Proof.
  intros Hne. unfold sql_update. destruct (t !! id) as [r|]; [|done].
  by rewrite lookup_insert_ne.
Qed.

Lemma sql_update_missing (id : string) (d : gmap string pyval)
    (t : gmap string (gmap string pyval)) :
  t !! id = None -> sql_update id d t = t.
Proof. intros E. unfold sql_update. by rewrite E. Qed.

(** A column that [update_data] sets reads as set; one it leaves out
    keeps its value. *)
Lemma col_union_set (d r : gmap string pyval) (c : string) (v : pyval) :
  d !! c = Some v -> col (d ∪ r) c = v.
Proof. intros E. unfold col. by rewrite (lookup_union_Some_l _ _ _ _ E). Qed.

Lemma col_union_kept (d r : gmap string pyval) (c : string) :
  d !! c = None -> col (d ∪ r) c = col r c.
Proof. intros E. unfold col. by rewrite lookup_union_r. Qed.

Lemma status_update_data_status (t : Z) (status : string) (tid err : option string) :
  status_update_data t status tid err !! "status" = Some (VStr status).
Proof.
  unfold status_update_data.
  repeat match goal with
         | |- context [if ?b then _ else _] => destruct b
         end; by simplify_map_eq.
Qed.

Lemma status_update_data_error (t : Z) (status : string) (tid err : option string) :
  status_update_data t status tid err !! "error_message"
  = if truthy_str err then Some (VStr (default EmptyString err)) else None.
Proof.
  unfold status_update_data.
  repeat match goal with
         | |- context [if ?b then _ else _] => destruct b
         end; by simplify_map_eq.
Qed.

End JobRowFacts.

(** ** The job lifecycle as the tasks and the cancel route write it *)

Section LifecycleFacts.
Import Py Tasks Routes.

Lemma update_status_writes (w : world) (job_id status : string)
    (tid err : option string) (job : gmap string pyval) :
  training_jobs w !! job_id = Some job ->
  exists w',
    _update_training_job_status job_id status tid err w = (Returns tt, w') /\
    training_jobs w' !! job_id
      = Some (status_update_data (now w) status tid err ∪ job) /\
    ai_models w' = ai_models w /\
    now w' = now w /\
    datasets w' = datasets w /\
    commits w' = commits w ++ [training_jobs w'].
Proof.
  intros Hjob. eexists. split; [reflexivity|]. simpl.
  rewrite sql_update_lookup, Hjob. done.
Qed.


Definition world_of_job (job : gmap string pyval) : world :=
  {| now := 200;
     training_jobs := {[ "J1" := job ]};
     datasets := ∅;
     ai_models := [];
     redis_store := ∅;
     commits := [] |}.




End LifecycleFacts.

(** ** The training task *)

Section TrainTaskFacts.
Import Py DatasetPrep CADModelTrainer Tasks.

Variable run_trainer :
  gmap string pyval -> gmap string pyval -> dataset_config -> string ->
  outcome training_results * Z.
Variable uuid4 : nat -> string.
Variable strftime : Z -> string.
Variable model_storage_path : string.

(** The status of a job in a snapshot of the table. *)
Definition status_in (t : gmap string (gmap string pyval)) (job_id : string)
    : option pyval :=
  (fun r => col r "status") <$> t !! job_id.

(** The text of the exception the task raises for a dataset that is
    missing or not ready. *)
Definition dataset_error (w : world) (dataset_id : string) : option string :=
  match datasets w !! dataset_id with
  | None => Some ("Dataset " ++ dataset_id ++ " not found")%string
  | Some d =>
      if String.eqb (ds_status d) "ready" then None
      else Some ("Dataset " ++ dataset_id ++ " is not ready for training")%string
  end.

Lemma running_then_failed (w : world) (job_id : string) (tid : option string)
    (msg : string) (job : gmap string pyval) :
  training_jobs w !! job_id = Some job ->
  exists w1 w2,
    _update_training_job_status job_id "running" tid None w = (Returns tt, w1) /\
    _update_training_job_status job_id "failed" tid (Some msg) w1 = (Returns tt, w2) /\
    commits w2 = commits w ++ [training_jobs w1; training_jobs w2] /\
    status_in (training_jobs w1) job_id = Some (VStr "running") /\
    status_in (training_jobs w2) job_id = Some (VStr "failed") /\
    job_col w2 job_id "error_message"
      = Some (if truthy_str (Some msg) then VStr msg else col job "error_message") /\
    ai_models w2 = ai_models w /\
    now w2 = now w.
Proof.
  intros Hjob.
  destruct (update_status_writes w job_id "running" tid None job Hjob)
    as (w1 & H1 & Hrow1 & Hm1 & Hn1 & _ & Hc1).
  destruct (update_status_writes w1 job_id "failed" tid (Some msg) _ Hrow1)
    as (w2 & H2 & Hrow2 & Hm2 & Hn2 & _ & Hc2).
  exists w1, w2. repeat split; try done.
  - rewrite Hc2, Hc1. by rewrite <- (assoc_L (++)).
  - unfold status_in. rewrite Hrow1. simpl.
    by rewrite (col_union_set _ _ _ _ (status_update_data_status _ _ _ _)).
  - unfold status_in. rewrite Hrow2. simpl.
    by rewrite (col_union_set _ _ _ _ (status_update_data_status _ _ _ _)).
  - pose proof (status_update_data_error (now w1) "failed" tid (Some msg)) as E.
    destruct (truthy_str (Some msg)); simpl in E;
      unfold job_col; rewrite Hrow2; simpl; f_equal.
    + by rewrite (col_union_set _ _ _ _ E).
    + rewrite (col_union_kept _ _ _ E).
      apply col_union_kept.
      by rewrite status_update_data_error.
  - congruence.
  - congruence.
Qed.

(** The task on a dataset that is missing or not ready: the job is
    stored as running, then as failed with the text of the ValueError;
    the trainer is not run and no model row is added. *)
Lemma train_task_dataset_unavailable (w : world) (tid : option string)
    (job_id dataset_id : string) (mc tc : gmap string pyval) (user msg : string)
    (job : gmap string pyval) :
  training_jobs w !! job_id = Some job ->
  dataset_error w dataset_id = Some msg ->
  exists t1 w',
    train_cad_model_task run_trainer uuid4 strftime model_storage_path
      tid job_id dataset_id mc tc user w = (Returns (TaskFailure job_id msg), w') /\
    (train_body run_trainer uuid4 strftime model_storage_path
       tid job_id dataset_id mc tc user w).1 = Raises (mk_exn "ValueError" msg) /\
    commits w' = commits w ++ [t1; training_jobs w'] /\
    status_in t1 job_id = Some (VStr "running") /\
    status_in (training_jobs w') job_id = Some (VStr "failed") /\
    job_col w' job_id "error_message" = Some (VStr msg) /\
    ai_models w' = ai_models w.
Proof.
  intros Hjob Hmsg.
  destruct (running_then_failed w job_id tid msg job Hjob)
    as (w1 & w2 & H1 & H2 & Hc & Hs1 & Hs2 & He & Hm & _).
  assert (Hds : datasets w1 !! dataset_id = datasets w !! dataset_id).
  { unfold _update_training_job_status, modify in H1.
    injection H1 as <-. reflexivity. }
  assert (Htruthy : truthy_str (Some msg) = true).
  { unfold dataset_error in Hmsg.
    destruct (datasets w !! dataset_id) as [d|];
      [destruct (String.eqb (ds_status d) "ready"); [discriminate|]|];
      injection Hmsg as <-; reflexivity. }
  rewrite Htruthy in He.
  exists (training_jobs w1), w2.
  assert (Hbody : train_body run_trainer uuid4 strftime model_storage_path
                    tid job_id dataset_id mc tc user w
                  = (Raises (mk_exn "ValueError" msg), w1)).
  { unfold train_body, bind. rewrite H1. unfold gets. rewrite Hds.
    unfold dataset_error in Hmsg.
    destruct (datasets w !! dataset_id) as [d|].
    - destruct (String.eqb (ds_status d) "ready"); [discriminate|].
      injection Hmsg as <-. reflexivity.
    - injection Hmsg as <-. reflexivity. }
  split; [|split; [by rewrite Hbody|done]].
  unfold train_cad_model_task, try_except. rewrite Hbody.
  unfold bind. simpl exn_str. rewrite H2. reflexivity.
Qed.

(** The task when the trainer raises: the job is stored as failed and
    no model row is added.  The text of the exception reaches
    [error_message] when it is not empty. *)
Lemma train_task_trainer_raises (w : world) (tid : option string)
    (job_id dataset_id : string) (mc tc : gmap string pyval) (user : string)
    (job : gmap string pyval) (d : Dataset) (cfg : dataset_config)
    (e : pyexn) (seconds : Z) :
  training_jobs w !! job_id = Some job ->
  datasets w !! dataset_id = Some d ->
  ds_status d = "ready" ->
  _prepare_dataset_config d = Returns cfg ->
  run_trainer mc tc cfg (model_storage_path ++ "/" ++ job_id)%string
    = (Raises e, seconds) ->
  exists w',
    train_cad_model_task run_trainer uuid4 strftime model_storage_path
      tid job_id dataset_id mc tc user w
      = (Returns (TaskFailure job_id (exn_str e)), w') /\
    status_in (training_jobs w') job_id = Some (VStr "failed") /\
    job_col w' job_id "error_message"
      = Some (if truthy_str (Some (exn_str e)) then VStr (exn_str e)
              else col job "error_message") /\
    ai_models w' = ai_models w.
Proof.
  intros Hjob Hd Hready Hcfg Hrun.
  destruct (update_status_writes w job_id "running" tid None job Hjob)
    as (w1 & H1 & Hrow1 & Hm1 & Hn1 & Hd1 & Hc1).
  set (w1' := advance_clock seconds w1).
  assert (Hrow1' : training_jobs w1' !! job_id
                   = Some (status_update_data (now w) "running" tid None ∪ job))
    by exact Hrow1.
  destruct (update_status_writes w1' job_id "failed" tid (Some (exn_str e)) _ Hrow1')
    as (w2 & H2 & Hrow2 & Hm2 & _).
  exists w2. split.
  - unfold train_cad_model_task, try_except, train_body, bind.
    rewrite H1. unfold gets. rewrite Hd1, Hd, Hready. simpl.
    unfold bind, lift.
    unfold _prepare_dataset_config in Hcfg. injection Hcfg as <-.
    simpl in Hrun. rewrite Hrun. fold w1'.
    simpl in H2. injection H2 as <-. reflexivity.
  - split; [|split].
    + unfold status_in. rewrite Hrow2. simpl.
      by rewrite (col_union_set _ _ _ _ (status_update_data_status _ _ _ _)).
    + pose proof (status_update_data_error (now w1') "failed" tid
                    (Some (exn_str e))) as E.
      destruct (truthy_str (Some (exn_str e))); simpl in E;
        unfold job_col; rewrite Hrow2; simpl; f_equal.
      * by rewrite (col_union_set _ _ _ _ E).
      * rewrite (col_union_kept _ _ _ E).
        apply col_union_kept. by rewrite status_update_data_error.
    + rewrite Hm2. unfold w1'. simpl. exact Hm1.
Qed.

(** The task when the trainer returns: one model row is added, which
    refers to the job, and the job is stored as completed. *)
Lemma train_task_success (w : world) (tid : option string)
    (job_id dataset_id : string) (mc tc : gmap string pyval) (user : string)
    (job : gmap string pyval) (d : Dataset) (cfg : dataset_config)
    (res : training_results) (seconds : Z) :
  training_jobs w !! job_id = Some job ->
  datasets w !! dataset_id = Some d ->
  ds_status d = "ready" ->
  _prepare_dataset_config d = Returns cfg ->
  run_trainer mc tc cfg (model_storage_path ++ "/" ++ job_id)%string
    = (Returns res, seconds) ->
  exists w' m,
    train_cad_model_task run_trainer uuid4 strftime model_storage_path
      tid job_id dataset_id mc tc user w
      = (Returns (TaskSuccess job_id (Some (uuid4 (length (ai_models w))))), w') /\
    ai_models w' = ai_models w ++ [m] /\
    col m "training_job_id" = VStr job_id /\
    status_in (training_jobs w') job_id = Some (VStr "completed") /\
    job_col w' job_id "model_path" = Some (VStr (model_path res)).
Proof.
  intros Hjob Hd Hready Hcfg Hrun.
  destruct (update_status_writes w job_id "running" tid None job Hjob)
    as (w1 & H1 & Hrow1 & Hm1 & Hn1 & Hd1 & Hc1).
  eexists. eexists. split.
  - unfold train_cad_model_task, try_except, train_body, bind.
    rewrite H1. unfold gets. rewrite Hd1, Hd, Hready. simpl.
    unfold bind, lift.
    unfold _prepare_dataset_config in Hcfg. injection Hcfg as <-.
    simpl in Hrun. rewrite Hrun. simpl. rewrite Hm1. reflexivity.
  - simpl. split; [by rewrite Hm1|]. split; [reflexivity|].
    unfold status_in, job_col. simpl.
    rewrite !sql_update_lookup.
    assert (Hr : training_jobs w1 !! job_id
                 = Some (status_update_data (now w) "running" tid None ∪ job))
      by exact Hrow1.
    rewrite Hr. simpl.
    split; f_equal; apply col_union_set; by simplify_map_eq.
Qed.

End TrainTaskFacts.

(** ** The training task on concrete runs *)

Section TrainTaskRuns.
Import Py DatasetPrep CADModelTrainer Tasks.

(** A trainer run that raises [e] after a minute. *)
Definition trainer_raising (e : pyexn)
    : gmap string pyval -> gmap string pyval -> dataset_config -> string ->
      outcome training_results * Z :=
  fun _ _ _ _ => (Raises e, 60).

Definition one_uuid (n : nat) : string := "0b0e7c1e-model".
Definition one_stamp (t : Z) : string := "19700101_000320".

(** A job as [TrainingService.create_training_job] inserts it. *)
Definition queued_job : gmap string pyval :=
  list_to_map
    [("id", VStr "J1"); ("status", VStr "queued"); ("created_by", VStr "u1");
     ("total_epochs", VInt 50); ("current_epoch", VInt 0);
     ("progress_percentage", VFloat (Fin 0))].

(** The task on the queued job, for a dataset that does not exist. *)
Definition missing_dataset_run : outcome task_result * world :=
  train_cad_model_task (trainer_raising (mk_exn "RuntimeError" "unused"))
    one_uuid one_stamp "/models" (Some "celery-1") "J1" "D1" ∅ ∅ "u1"
    (world_of_job queued_job).

(** C2, refuted as stated: for a dataset that does not exist, the
    first of the two snapshots of the job table that the task commits
    shows the job with status running. *)
Lemma missing_dataset_job_stored_running :
  datasets (world_of_job queued_job) !! "D1" = None
  /\ map (fun t => status_in t "J1") (commits missing_dataset_run.2)
     = [Some (VStr "running"); Some (VStr "failed")].
Proof.
  split; [reflexivity|]. vm_compute. reflexivity.
Qed.

(** C2, as the code has it.  When the dataset does not exist or its
    status is not ready, the task first commits the job with status
    running, then raises a ValueError (there is no DatasetNotReadyError)
    and commits the job with status failed and the text of the error;
    these are the only two commits, the trainer does not run and no
    AIModel row is created. *)
Theorem dataset_unavailable_running_then_failed
    (run_trainer : gmap string pyval -> gmap string pyval -> dataset_config ->
                   string -> outcome training_results * Z)
    (uuid4 : nat -> string) (strftime : Z -> string) (model_storage_path : string)
    (w : world) (tid : option string) (job_id dataset_id : string)
    (mc tc : gmap string pyval) (user : string) (job : gmap string pyval)
    (Hjob : training_jobs w !! job_id = Some job)
    (Hds : datasets w !! dataset_id = None
           \/ exists d, datasets w !! dataset_id = Some d /\ ds_status d <> "ready") :
  exists msg t1 w',
    train_cad_model_task run_trainer uuid4 strftime model_storage_path
      tid job_id dataset_id mc tc user w = (Returns (TaskFailure job_id msg), w') /\
    (train_body run_trainer uuid4 strftime model_storage_path
       tid job_id dataset_id mc tc user w).1 = Raises (mk_exn "ValueError" msg) /\
    commits w' = commits w ++ [t1; training_jobs w'] /\
    status_in t1 job_id = Some (VStr "running") /\
    status_in (training_jobs w') job_id = Some (VStr "failed") /\
    job_col w' job_id "error_message" = Some (VStr msg) /\
    ai_models w' = ai_models w.
Proof.
  assert (Hmsg : exists msg, dataset_error w dataset_id = Some msg).
  { unfold dataset_error. destruct Hds as [->|(d & -> & Hst)]; [eauto|].
    destruct (String.eqb_spec (ds_status d) "ready") as [E|_]; [done|eauto]. }
  destruct Hmsg as [msg Hmsg]. exists msg.
  exact (train_task_dataset_unavailable run_trainer uuid4 strftime
           model_storage_path w tid job_id dataset_id mc tc user msg job Hjob Hmsg).
Qed.

Lemma dataset_unavailable_running_then_failed_witness :
  exists msg t1 w',
    train_cad_model_task (trainer_raising (mk_exn "RuntimeError" "unused"))
      one_uuid one_stamp "/models" (Some "celery-1") "J1" "D1" ∅ ∅ "u1"
      (world_of_job queued_job) = (Returns (TaskFailure "J1" msg), w') /\
    (train_body (trainer_raising (mk_exn "RuntimeError" "unused"))
       one_uuid one_stamp "/models" (Some "celery-1") "J1" "D1" ∅ ∅ "u1"
       (world_of_job queued_job)).1 = Raises (mk_exn "ValueError" msg) /\
    commits w' = commits (world_of_job queued_job) ++ [t1; training_jobs w'] /\
    status_in t1 "J1" = Some (VStr "running") /\
    status_in (training_jobs w') "J1" = Some (VStr "failed") /\
    job_col w' "J1" "error_message" = Some (VStr msg) /\
    ai_models w' = ai_models (world_of_job queued_job).
Proof.
  apply (dataset_unavailable_running_then_failed
           (trainer_raising (mk_exn "RuntimeError" "unused"))
           one_uuid one_stamp "/models" (world_of_job queued_job)
           (Some "celery-1") "J1" "D1" ∅ ∅ "u1" queued_job).
  - reflexivity.
  - left. reflexivity.
Defined.

(** A state with the queued job and a ready dataset of two files. *)
Definition ready_world : world :=
  {| now := 200;
     training_jobs := {[ "J1" := queued_job ]};
     datasets := {[ "D1" := {| ds_name := "drawings";
                               ds_status := "ready";
                               file_ids := ["a"; "b"; "c"; "d"; "e"];
                               labels := Some (list_to_map
                                 [("a", 0); ("b", 1); ("c", 0); ("d", 1); ("e", 0)]) |} ]};
     ai_models := [];
     redis_store := ∅;
     commits := [] |}.

(** The task on the queued job when the trainer raises an exception
    whose text is empty, as [AssertionError()] has. *)
Definition empty_message_run : outcome task_result * world :=
  train_cad_model_task (trainer_raising (mk_exn "AssertionError" EmptyString))
    one_uuid one_stamp "/models" (Some "celery-1") "J1" "D1" ∅ ∅ "u1" ready_world.

(** C3 on the code: when the exception raised during training has an
    empty text, the job ends with status failed while its
    error_message is still NULL; no AIModel row exists.  The claim
    asks for a non-null error_message. *)
Lemma failed_job_without_error_message :
  empty_message_run.1 = Returns (TaskFailure "J1" EmptyString)
  /\ job_col empty_message_run.2 "J1" "status" = Some (VStr "failed")
  /\ job_col empty_message_run.2 "J1" "error_message" = Some VNone
  /\ ai_models empty_message_run.2 = [].
Proof.
  repeat split; vm_compute; reflexivity.
Qed.

End TrainTaskRuns.

(** ** Hyper-parameter defaults *)

Section DefaultsFacts.
Import Py CADModelTrainer Routes.

Lemma init_hyper_default_epochs (tc : gmap string pyval) :
  tc !! "epochs" = None -> epochs (init_hyper tc) = VInt 100.
Proof. intros E. unfold init_hyper, config_get. simpl. by rewrite E. Qed.

Lemma init_hyper_other_defaults (tc : gmap string pyval) :
  (tc !! "batch_size" = None -> batch_size (init_hyper tc) = VInt 32) /\
  (tc !! "learning_rate" = None ->
     learning_rate (init_hyper tc) = VFloat (Fin (1 # 1000))) /\
  (tc !! "weight_decay" = None ->
     weight_decay (init_hyper tc) = VFloat (Fin (1 # 10000))) /\
  (tc !! "patience" = None -> patience (init_hyper tc) = VInt 10).
Proof.
  unfold init_hyper, config_get. simpl.
  repeat split; intros E; by rewrite E.
Qed.

(** Behind the route, the key is always present: a request without
    [epochs] reaches the trainer with 50. *)
Lemma route_config_epochs (requested : gmap string pyval) :
  requested !! "epochs" = None ->
  epochs (init_hyper (route_training_config requested)) = VInt 50 /\
  total_epochs (route_training_config requested) = VInt 50.
Proof.
  intros E. unfold init_hyper, config_get, total_epochs, route_training_config.
  simpl. rewrite lookup_union_r by exact E. done.
Qed.

(** The row of a job created from a configuration without [epochs]
    announces 50 epochs. *)
Lemma service_total_epochs_default (tc : gmap string pyval) :
  tc !! "epochs" = None -> total_epochs tc = VInt 50.
Proof. intros E. unfold total_epochs. by rewrite E. Qed.

(** C9 on the code: a trainer built from a training_config without the
    key epochs runs 100 epochs, not the documented 50 that the route
    and the service use; the defaults of batch_size, learning_rate,
    weight_decay and patience are the documented ones. *)
Lemma trainer_default_epochs_is_100 :
  (∅ : gmap string pyval) !! "epochs" = None
  /\ epochs (init_hyper ∅) = VInt 100
  /\ epochs (init_hyper ∅) <> VInt 50
  /\ (exists todo, epoch_range (init_hyper ∅) = Returns (100, todo)
                   /\ length todo = 100%nat)
  /\ total_epochs ∅ = VInt 50
  /\ batch_size (init_hyper ∅) = VInt 32
  /\ learning_rate (init_hyper ∅) = VFloat (Fin (1 # 1000))
  /\ weight_decay (init_hyper ∅) = VFloat (Fin (1 # 10000))
  /\ patience (init_hyper ∅) = VInt 10.
Proof.
  split; [reflexivity|]. split; [reflexivity|]. split; [discriminate|].
  split; [eexists; split; [reflexivity|reflexivity]|].
  repeat split.
Qed.

End DefaultsFacts.

(** ** The epoch loop and the weights it leaves *)

Section RestoreFacts.
Import Py DatasetPrep CADModelTrainer.
Context {tensor : Type}.
Variable B : backend tensor.
Variable parameters : list (string * nat).
Variable has_callback : bool.
Variable hp : hyper.
Hypothesis names_distinct : NoDup (map fst parameters).

Lemma sd_lookup_own (ps : list (string * nat)) (p : string * nat) :
  NoDup (map fst ps) -> p ∈ ps -> sd_lookup p.1 ps = Some p.2.
Proof.
  induction ps as [|[n loc] ps IH]; intros Hnd Hin.
  - by apply elem_of_nil in Hin.
  - simpl in *. apply NoDup_cons in Hnd as [Hnotin Hnd].
    apply elem_of_cons in Hin as [->|Hin].
    + simpl. by rewrite String.eqb_refl.
    + destruct (String.eqb_spec p.1 n) as [E|_].
      * exfalso. apply Hnotin. rewrite <- E.
        apply list_elem_of_fmap. by exists p.
      * by apply IH.
Qed.

Lemma load_state_dict_fixpoint (sd ps : list (string * nat)) (h : gmap nat tensor) :
  (forall p, p ∈ ps -> sd_lookup p.1 sd = Some p.2) ->
  load_state_dict ps sd h = h.
Proof.
  unfold load_state_dict. revert h.
  induction ps as [|p ps IH]; intros h Hall; [reflexivity|].
  simpl. rewrite (Hall p) by left.
  assert (Hrest : forall q, q ∈ ps -> sd_lookup q.1 sd = Some q.2)
    by (intros q Hq; apply Hall; by right).
  destruct (h !! p.2) as [t|] eqn:E.
  - rewrite insert_id by exact E. by apply IH.
  - by apply IH.
Qed.

(** Loading a state dictionary whose tensors are the parameters
    themselves copies every storage onto itself. *)
Lemma load_own_state_dict (h : gmap nat tensor) :
  load_state_dict parameters (dict_copy (state_dict parameters)) h = h.
Proof.
  apply load_state_dict_fixpoint. intros p Hp.
  unfold dict_copy, state_dict. by apply sd_lookup_own.
Qed.

(** The storages after the optimisation passes of epochs [0 .. k-1]. *)
Definition fit_through (k : nat) (h0 : gmap nat tensor) : gmap nat tensor :=
  foldl (fun h e => fit B e h) h0 (map Z.of_nat (seq 0 k)).

Lemma fit_through_S (k : nat) (h0 : gmap nat tensor) :
  fit_through (S k) h0 = fit B (Z.of_nat k) (fit_through k h0).
Proof.
  unfold fit_through. rewrite seq_S, map_app, foldl_app. reflexivity.
Qed.

(** What the loop maintains: the snapshot, when there is one, is the
    dictionary of the live parameters. *)
Definition snapshot_is_live (st : trainer tensor) : Prop :=
  best_model_state st = None \/ best_model_state st = Some parameters.

(** The fields of the trainer that notifications leave alone. *)
Definition same_training_state (a b : trainer tensor) : Prop :=
  heap a = heap b /\
  current_epoch a = current_epoch b /\
  best_val_loss a = best_val_loss b /\
  best_model_state a = best_model_state b /\
  training_history a = training_history b /\
  early_stopping_counter a = early_stopping_counter b.

Lemma emit_all_same (notes : list (list (string * pyval))) (st : trainer tensor) :
  same_training_state (foldl (fun s n => emit_progress n s) st notes) st.
Proof.
  unfold same_training_state.
  revert st. induction notes as [|n notes IH]; intros st; [by repeat split|].
  simpl. destruct (IH (emit_progress n st)) as (-> & -> & -> & -> & -> & ->).
  by repeat split.
Qed.

Lemma bind_returns {S A C} (m : M S A) (f : A -> M S C) (s s' : S) (c : C) :
  bind m f s = (Returns c, s') ->
  exists a s1, m s = (Returns a, s1) /\ f a s1 = (Returns c, s').
Proof.
  unfold bind. destruct (m s) as [[a|e] s1]; [eauto|discriminate].
Qed.

Lemma train_epoch_effect (n : Z) (st st' : trainer tensor) (r : pyfloat * pyfloat) :
  train_epoch B has_callback n st = (Returns r, st') ->
  n <> 0 /\
  heap st' = fit B (current_epoch st) (heap st) /\
  current_epoch st' = current_epoch st /\
  best_val_loss st' = best_val_loss st /\
  best_model_state st' = best_model_state st /\
  training_history st' = training_history st /\
  early_stopping_counter st' = early_stopping_counter st.
Proof.
  unfold train_epoch. destruct (Z.eqb_spec n 0) as [|Hn]; [discriminate|].
  intros H. injection H as _ <-. split; [exact Hn|].
  destruct has_callback; [|by repeat split].
  rewrite <- (foldl_fmap (fun s n => emit_progress n s) _ _
                (fun i => batch_note B (current_epoch st) i n)).
  pose proof (emit_all_same
              ((fun i => batch_note B (current_epoch st) i n) <$> notifying_batches n)
              (set_heap (fit B (current_epoch st) (heap st)) st)) as Hsame.
  unfold same_training_state in Hsame.
  destruct Hsame as (-> & -> & -> & -> & -> & ->).
  by repeat split.
Qed.

Lemma validate_epoch_effect (n : Z) (st st' : trainer tensor)
    (r : pyfloat * pyfloat * list (string * pyfloat)) :
  validate_epoch B n st = (Returns r, st') ->
  n <> 0 /\ st' = st /\ r = validate B (heap st).
Proof.
  unfold validate_epoch. destruct (Z.eqb_spec n 0) as [|Hn]; [discriminate|].
  intros H. injection H as <- <-. done.
Qed.

(** One pass of the loop body that returns: the storages have gone
    through the optimisation pass of the epoch, one record has been
    added to the history, and the snapshot is still the live one. *)
Lemma epoch_body_effect (total n_train n_val epoch : Z) (st st' : trainer tensor)
    (stop : bool) :
  epoch_body B parameters has_callback hp total n_train n_val epoch st
    = (Returns stop, st') ->
  snapshot_is_live st ->
  heap st' = fit B epoch (heap st) /\
  current_epoch st' = epoch /\
  length (h_train_loss (training_history st'))
    = S (length (h_train_loss (training_history st))) /\
  snapshot_is_live st' /\
  n_train <> 0 /\ n_val <> 0.
Proof.
  unfold epoch_body. intros Hrun Hlive.
  apply bind_returns in Hrun as (? & s1 & H1 & Hrun).
  injection H1 as _ <-.
  apply bind_returns in Hrun as ([tl ta] & s2 & H2 & Hrun).
  apply train_epoch_effect in H2 as (Hnt & Hh2 & Hc2 & Hbv2 & Hbm2 & Hth2 & Hes2).
  apply bind_returns in Hrun as ([[vl va] metrics] & s3 & H3 & Hrun).
  apply validate_epoch_effect in H3 as (Hnv & -> & _).
  apply bind_returns in Hrun as (hist & s4 & H4 & Hrun).
  injection H4 as _ <-.
  apply bind_returns in Hrun as (? & s5 & H5 & Hrun).
  injection H5 as _ <-.
  apply bind_returns in Hrun as (best & s6 & H6 & Hrun).
  injection H6 as _ <-.
  apply bind_returns in Hrun as (? & s7 & H7 & Hrun).
  injection H7 as _ <-.
  apply bind_returns in Hrun as (? & s8 & H8 & Hrun).
  injection H8 as _ <-.
  apply bind_returns in Hrun as (? & s9 & H9 & Hrun).
  injection H9 as _ <-.
  apply bind_returns in Hrun as (counter & s10 & H10 & Hrun).
  injection H10 as _ <-.
  unfold lift in Hrun. injection Hrun as _ <-.
  simpl in Hh2, Hc2, Hbm2, Hth2.
  unfold snapshot_is_live in *.
  destruct has_callback; simpl;
    destruct (float_lt vl _); simpl;
    rewrite ?Hh2, ?Hc2, ?Hbm2, ?Hth2, ?length_app; simpl;
    repeat split; try done; try lia; try (by right).
Qed.

Lemma epoch_loop_effect (total n_train n_val : Z) (n : nat) :
  forall (a : nat) (st st' : trainer tensor),
    epoch_loop B parameters has_callback hp total n_train n_val
      (map Z.of_nat (seq a n)) st = (Returns tt, st') ->
    snapshot_is_live st ->
    exists k : nat,
      (k <= n)%nat /\
      heap st' = foldl (fun h e => fit B e h) (heap st) (map Z.of_nat (seq a k)) /\
      length (h_train_loss (training_history st'))
        = (length (h_train_loss (training_history st)) + k)%nat /\
      ((0 < k)%nat -> current_epoch st' = Z.of_nat (a + k - 1)) /\
      (k = 0%nat -> st' = st) /\
      snapshot_is_live st'.
Proof.
  induction n as [|n IH]; intros a st st' Hrun Hlive.
  - injection Hrun as <-. exists 0%nat. simpl.
    repeat split; try done; try lia.
  - simpl in Hrun.
    apply bind_returns in Hrun as (stop & s1 & Hbody & Hrun).
    apply epoch_body_effect in Hbody as (Hh & Hc & Hlen & Hlive1 & _); [|exact Hlive].
    destruct stop.
    + injection Hrun as <-. exists 1%nat. simpl.
      repeat split; try done; lia.
    + apply IH in Hrun as (k & Hk & Hh' & Hlen' & Hc' & Hk0 & Hlive'); [|exact Hlive1].
      exists (S k). simpl. rewrite Hh', Hh, Hlen', Hlen.
      repeat split; try done; try lia.
      intros _. destruct k as [|k].
      * rewrite (Hk0 eq_refl), Hc. f_equal. lia.
      * rewrite Hc' by lia. f_equal. lia.
Qed.

(** Whenever [train] returns, the live weights are those that the
    optimisation passes of all the epochs run have produced: the
    restore step has changed nothing. *)
Theorem train_leaves_last_epoch_weights (cfg : dataset_config) (save_dir : string)
    (h0 : gmap nat tensor) (res : training_results) (st' : trainer tensor) :
  train B parameters has_callback hp cfg save_dir (init_state h0) = (Returns res, st') ->
  exists k : nat,
    (0 < k)%nat /\
    epochs_trained res = Z.of_nat k /\
    current_epoch st' = Z.of_nat k - 1 /\
    heap st' = fit_through k h0.
Proof.
  unfold train. intros Hrun.
  apply bind_returns in Hrun as ([n_train n_val] & s1 & H1 & Hrun).
  unfold lift in H1. injection H1 as _ <-.
  apply bind_returns in Hrun as ([total todo] & s2 & H2 & Hrun).
  unfold lift in H2. injection H2 as Hrange <-.
  apply bind_returns in Hrun as ([] & s3 & Hloop & Hrun).
  assert (Htodo : exists n, todo = map Z.of_nat (seq 0 n)).
  { unfold epoch_range in Hrange. destruct (epochs hp) as [| [] | z | | | |];
      try discriminate; injection Hrange as _ <-.
    - by exists 1%nat.
    - by exists 0%nat.
    - by eexists. }
  destruct Htodo as [n ->].
  apply epoch_loop_effect in Hloop as (k & Hk & Hh & Hlen & Hc & _ & Hlive);
    [|by left].
  apply bind_returns in Hrun as (? & s4 & H4 & Hrun).
  injection H4 as _ <-.
  apply bind_returns in Hrun as ([[fvl fva] fm] & s5 & H5 & Hrun).
  apply validate_epoch_effect in H5 as (_ & -> & _).
  apply bind_returns in Hrun as (h & s6 & H6 & Hrun).
  injection H6 as <- <-.
  apply bind_returns in Hrun as (ftl & s7 & H7 & Hrun).
  unfold lift in H7. injection H7 as Hlast <-.
  apply bind_returns in Hrun as (fta & s8 & H8 & Hrun).
  unfold lift in H8. injection H8 as _ <-.
  apply bind_returns in Hrun as (best & s9 & H9 & Hrun).
  injection H9 as _ <-.
  apply bind_returns in Hrun as (cur & s10 & H10 & Hrun).
  injection H10 as <- <-.
  injection Hrun as <- <-.
  assert (Hrestored :
    forall s : trainer tensor, snapshot_is_live s ->
      heap (match best_model_state s with
            | Some sd => set_heap (load_state_dict parameters sd (heap s)) s
            | None => s
            end) = heap s
      /\ current_epoch (match best_model_state s with
            | Some sd => set_heap (load_state_dict parameters sd (heap s)) s
            | None => s
            end) = current_epoch s
      /\ training_history (match best_model_state s with
            | Some sd => set_heap (load_state_dict parameters sd (heap s)) s
            | None => s
            end) = training_history s).
  { intros s [E|E]; rewrite E; [done|]. simpl.
    split; [|done]. apply load_own_state_dict. }
  destruct (Hrestored s3 Hlive) as (Hrh & Hrc & Hrt).
  rewrite Hrt in Hlast.
  assert (Hkpos : (0 < k)%nat).
  { destruct k; [|lia]. simpl in Hlen.
    unfold last_item in Hlast.
    destruct (h_train_loss (training_history s3)); [discriminate|discriminate]. }
  exists k. simpl. rewrite Hrh, Hrc, Hh, (Hc Hkpos).
  repeat split; try done; lia.
Qed.

(** *** One epoch, in closed form *)

(** The state in which the training pass of an epoch leaves the trainer. *)
Definition after_training_pass (n_train epoch : Z) (st : trainer tensor)
    : trainer tensor :=
  let st1 := set_heap (fit B epoch (heap st)) (set_current_epoch epoch st) in
  if has_callback then
    foldl (fun s i => emit_progress (batch_note B epoch i n_train) s)
          st1 (notifying_batches n_train)
  else st1.

(** The state at the end of the body of the loop for an epoch. *)
Definition after_epoch (total n_train epoch : Z) (st : trainer tensor)
    : trainer tensor :=
  let st2 := after_training_pass n_train epoch st in
  let tr := train_metrics B epoch (heap st2) in
  let va := validate B (heap st2) in
  let val_loss := va.1.1 in
  let current_lr := lr_schedule B (h_val_loss (training_history st2) ++ [val_loss]) in
  let st3 := append_history tr.1 val_loss tr.2 va.1.2 current_lr st2 in
  let is_best := float_lt val_loss (best_val_loss st3) in
  let st4 := save_checkpoint is_best (record_best parameters val_loss is_best st3) in
  if has_callback then
    emit_progress (epoch_note epoch total tr.1 val_loss tr.2 va.1.2 current_lr va.2) st4
  else st4.

Lemma epoch_body_closed_form (total n_train n_val epoch : Z) (st : trainer tensor) :
  n_train <> 0 -> n_val <> 0 ->
  epoch_body B parameters has_callback hp total n_train n_val epoch st
  = (counter_ge_patience hp
       (early_stopping_counter (after_epoch total n_train epoch st)),
     after_epoch total n_train epoch st).
Proof.
  intros Hnt Hnv.
  unfold epoch_body, after_epoch, after_training_pass, bind, modify, gets, lift,
    train_epoch, validate_epoch.
  cbn [current_epoch set_current_epoch heap].
  destruct (Z.eqb_spec n_train 0) as [|_]; [done|].
  destruct (Z.eqb_spec n_val 0) as [|_]; [done|].
  destruct (train_metrics B epoch _) as [tl ta].
  destruct (validate B _) as [[vl va] metrics].
  reflexivity.
Qed.

Lemma emitted_emit_all (notes : list (list (string * pyval))) (st : trainer tensor) :
  emitted (foldl (fun s n => emit_progress n s) st notes) = emitted st ++ notes.
Proof.
  revert st. induction notes as [|n notes IH]; intros st; simpl.
  - by rewrite app_nil_r.
  - rewrite IH. simpl. by rewrite <- (assoc_L (++)).
Qed.

(** The notifications of the batches of an epoch. *)
Definition batch_notes (n_train epoch : Z) : list (list (string * pyval)) :=
  if has_callback
  then (fun i => batch_note B epoch i n_train) <$> notifying_batches n_train
  else [].

Lemma after_training_pass_fields (n_train epoch : Z) (st : trainer tensor) :
  heap (after_training_pass n_train epoch st) = fit B epoch (heap st)
  /\ current_epoch (after_training_pass n_train epoch st) = epoch
  /\ best_val_loss (after_training_pass n_train epoch st) = best_val_loss st
  /\ best_model_state (after_training_pass n_train epoch st) = best_model_state st
  /\ training_history (after_training_pass n_train epoch st) = training_history st
  /\ early_stopping_counter (after_training_pass n_train epoch st)
     = early_stopping_counter st
  /\ emitted (after_training_pass n_train epoch st)
     = emitted st ++ batch_notes n_train epoch.
Proof.
  unfold after_training_pass, batch_notes. destruct has_callback.
  - rewrite <- (foldl_fmap (fun s n => emit_progress n s) _ _
                  (fun i => batch_note B epoch i n_train)).
    pose proof (emit_all_same
                  ((fun i => batch_note B epoch i n_train) <$> notifying_batches n_train)
                  (set_heap (fit B epoch (heap st)) (set_current_epoch epoch st)))
      as Hsame.
    unfold same_training_state in Hsame.
    destruct Hsame as (-> & -> & -> & -> & -> & ->).
    rewrite emitted_emit_all. by repeat split.
  - simpl. rewrite app_nil_r. by repeat split.
Qed.

(** The validation loss the loop sees at an epoch, from the storages
    with which the epoch starts. *)
Definition val_loss_at (epoch : Z) (h : gmap nat tensor) : pyfloat :=
  (validate B (fit B epoch h)).1.1.

(** The notification at the end of an epoch. *)
Definition epoch_notes (total n_train epoch : Z) (st : trainer tensor)
    : list (list (string * pyval)) :=
  if has_callback then
    let st2 := after_training_pass n_train epoch st in
    let tr := train_metrics B epoch (heap st2) in
    let va := validate B (heap st2) in
    [epoch_note epoch total tr.1 va.1.1 tr.2 va.1.2
       (lr_schedule B (h_val_loss (training_history st2) ++ [va.1.1])) va.2]
  else [].

Lemma after_epoch_fields (total n_train epoch : Z) (st : trainer tensor) :
  let st' := after_epoch total n_train epoch st in
  heap st' = fit B epoch (heap st)
  /\ current_epoch st' = epoch
  /\ (if float_lt (val_loss_at epoch (heap st)) (best_val_loss st)
      then early_stopping_counter st' = 0
           /\ best_val_loss st' = val_loss_at epoch (heap st)
           /\ best_model_state st' = Some parameters
      else early_stopping_counter st' = early_stopping_counter st + 1
           /\ best_val_loss st' = best_val_loss st
           /\ best_model_state st' = best_model_state st)
  /\ emitted st'
     = emitted st ++ batch_notes n_train epoch ++ epoch_notes total n_train epoch st.
Proof.
  destruct (after_training_pass_fields n_train epoch st)
    as (Hh & Hc & Hbv & Hbm & Hth & Hes & Hem).
  unfold after_epoch, epoch_notes, val_loss_at. rewrite <- Hh.
  set (st2 := after_training_pass n_train epoch st) in *.
  cbn zeta.
  change (best_val_loss (append_history ?a ?b ?c ?d ?e st2)) with (best_val_loss st2).
  rewrite Hbv.
  destruct has_callback;
    destruct (float_lt (validate B (heap st2)).1.1 (best_val_loss st));
    simpl; rewrite ?Hc, ?Hes, ?Hbv, ?Hbm, ?Hem, ?app_nil_r, <- ?(assoc_L (++));
    by repeat split.
Qed.

(** *** When the loop stops *)

(** The storages after the optimisation passes of [k] epochs from
    epoch [a] on. *)
Definition fit_from (a k : nat) (h : gmap nat tensor) : gmap nat tensor :=
  foldl (fun h e => fit B e h) h (map Z.of_nat (seq a k)).

(** With [r] epochs to go before the counter reaches the patience, and
    no improvement in those epochs, the loop runs exactly [r] more
    epochs. *)
Lemma epoch_loop_counts_down (p total n_train n_val : Z) :
  patience hp = VInt p -> n_train <> 0 -> n_val <> 0 ->
  forall (r a n : nat) (st : trainer tensor),
    (1 <= r <= n)%nat ->
    early_stopping_counter st = p - Z.of_nat r ->
    (forall j : nat, (j < r)%nat ->
       float_lt (val_loss_at (Z.of_nat (a + j)) (fit_from a j (heap st)))
                (best_val_loss st) = false) ->
    exists st',
      epoch_loop B parameters has_callback hp total n_train n_val
        (map Z.of_nat (seq a n)) st = (Returns tt, st')
      /\ current_epoch st' = Z.of_nat (a + r) - 1
      /\ early_stopping_counter st' = p
      /\ best_val_loss st' = best_val_loss st
      /\ best_model_state st' = best_model_state st
      /\ heap st' = fit_from a r (heap st).
Proof.
  intros Hp Hnt Hnv. induction r as [|r IH]; intros a n st Hr Hc Hflat; [lia|].
  destruct n as [|n]; [lia|]. simpl.
  unfold bind. rewrite epoch_body_closed_form by assumption.
  destruct (after_epoch_fields total n_train (Z.of_nat a) st)
    as (Hh & Hcur & Hbest & _).
  pose proof (Hflat 0%nat ltac:(lia)) as H0.
  rewrite Nat.add_0_r in H0. unfold fit_from in H0. simpl in H0.
  rewrite H0 in Hbest. destruct Hbest as (Hes & Hbv & Hbm).
  unfold counter_ge_patience. rewrite Hp, Hes, Hc.
  destruct r as [|r].
  - replace (p <=? p - Z.of_nat 1 + 1)%Z with true by (symmetry; apply Z.leb_le; lia).
    eexists. split; [reflexivity|].
    unfold fit_from. simpl. repeat split; try done; lia.
  - replace (p <=? p - Z.of_nat (S (S r)) + 1)%Z with false
      by (symmetry; apply Z.leb_gt; lia).
    destruct (IH (S a) n (after_epoch total n_train (Z.of_nat a) st))
      as (st' & Hrun & Hcur' & Hes' & Hbv' & Hbm' & Hh');
      [lia|rewrite Hes, Hc; lia|..].
    + intros j Hj. rewrite Hbv, Hh.
      pose proof (Hflat (S j) ltac:(lia)) as HSj.
      unfold fit_from in *. simpl in HSj.
      replace (a + S j)%nat with (S a + j)%nat in HSj by lia. exact HSj.
    + exists st'. split; [exact Hrun|].
      rewrite Hcur', Hes', Hbv', Hbm', Hh', Hbv, Hbm, Hh.
      unfold fit_from. simpl. repeat split; try done; lia.
Qed.

(** Early stopping.  Take the trainer right after an epoch [b] at which
    the validation loss improved, so that the counter is 0 and the best
    loss is that of [b].  If none of the next [p] epochs improves on it,
    [p] being the patience, and at least [p] epochs remain, the loop
    ends at epoch [b + p]. *)
Theorem early_stop_at_best_plus_patience (p b n : nat) (total n_train n_val : Z)
    (st : trainer tensor) :
  patience hp = VInt (Z.of_nat p) -> n_train <> 0 -> n_val <> 0 ->
  (1 <= p <= n)%nat ->
  current_epoch st = Z.of_nat b ->
  early_stopping_counter st = 0 ->
  (forall j : nat, (j < p)%nat ->
     float_lt (val_loss_at (Z.of_nat (S b + j)) (fit_from (S b) j (heap st)))
              (best_val_loss st) = false) ->
  exists st',
    epoch_loop B parameters has_callback hp total n_train n_val
      (map Z.of_nat (seq (S b) n)) st = (Returns tt, st')
    /\ current_epoch st' = Z.of_nat b + Z.of_nat p
    /\ best_val_loss st' = best_val_loss st
    /\ best_model_state st' = best_model_state st
    /\ heap st' = fit_from (S b) p (heap st).
Proof.
  intros Hp Hnt Hnv Hpn Hcur Hes Hflat.
  destruct (epoch_loop_counts_down (Z.of_nat p) total n_train n_val Hp Hnt Hnv
              p (S b) n st Hpn ltac:(lia) Hflat)
    as (st' & Hrun & Hcur' & _ & Hbv & Hbm & Hh).
  exists st'. repeat split; try done. lia.
Qed.

(** *** The notifications of a run *)

(** A notification of epoch [e]: that of a batch, or that of the end
    of the epoch. *)
Definition note_of_epoch (e : Z) (note : list (string * pyval)) : Prop :=
  (exists i n, note = batch_note B e i n)
  \/ (exists total tl vl ta va lr metrics,
        note = epoch_note e total tl vl ta va lr metrics).

(** The epoch a notification announces, as the progress handler
    reads it: [progress_data.get("epoch", 0)]. *)
Definition note_epoch (note : list (string * pyval)) : pyval :=
  dict_get_default "epoch" (VInt 0) note.

Lemma note_of_epoch_read (e : Z) (note : list (string * pyval)) :
  note_of_epoch e note -> note_epoch note = VInt e.
Proof.
  intros [(i & n & ->)|(total & tl & vl & ta & va & lr & m & ->)]; reflexivity.
Qed.

Lemma batch_notes_of_epoch (n_train e : Z) :
  Forall (note_of_epoch e) (batch_notes n_train e).
Proof.
  unfold batch_notes. destruct has_callback; [|constructor].
  apply Forall_fmap, Forall_forall. intros i _. left. by exists i, n_train.
Qed.

Lemma epoch_notes_of_epoch (total n_train e : Z) (st : trainer tensor) :
  Forall (note_of_epoch e) (epoch_notes total n_train e st).
Proof.
  unfold epoch_notes. destruct has_callback; [|constructor].
  constructor; [|constructor]. right. by eexists _, _, _, _, _, _, _.
Qed.

(** Whatever its outcome, the body of the loop for epoch [e] emits
    notifications of epoch [e] only. *)
Lemma epoch_body_emits (total n_train n_val e : Z) (st st' : trainer tensor)
    (o : outcome bool) :
  epoch_body B parameters has_callback hp total n_train n_val e st = (o, st') ->
  exists notes,
    emitted st' = emitted st ++ notes /\ Forall (note_of_epoch e) notes.
Proof.
  destruct (Z.eq_dec n_train 0) as [Hnt|Hnt];
    [|destruct (Z.eq_dec n_val 0) as [Hnv|Hnv]].
  - unfold epoch_body, bind, modify, train_epoch.
    cbn [current_epoch set_current_epoch heap]. rewrite Hnt. simpl (0 =? 0)%Z.
    cbv iota. intros H. injection H as _ <-.
    destruct (after_training_pass_fields 0 e st) as (_ & _ & _ & _ & _ & _ & Hem).
    exists (batch_notes 0 e). split; [exact Hem|apply batch_notes_of_epoch].
  - unfold epoch_body, bind, modify, train_epoch, validate_epoch.
    cbn [current_epoch set_current_epoch heap].
    destruct (Z.eqb_spec n_train 0) as [|_]; [done|].
    rewrite Hnv. simpl (0 =? 0)%Z. cbv iota. intros H. injection H as _ <-.
    destruct (after_training_pass_fields n_train e st)
      as (_ & _ & _ & _ & _ & _ & Hem).
    exists (batch_notes n_train e). split; [exact Hem|apply batch_notes_of_epoch].
  - rewrite epoch_body_closed_form by assumption. intros H. injection H as _ <-.
    destruct (after_epoch_fields total n_train e st) as (_ & _ & _ & Hem).
    exists (batch_notes n_train e ++ epoch_notes total n_train e st).
    split; [exact Hem|].
    apply Forall_app. split; [apply batch_notes_of_epoch|apply epoch_notes_of_epoch].
Qed.

(** Notifications in the order of their epochs, none before epoch [a]. *)
Inductive in_epoch_order : Z -> list (list (string * pyval)) -> Prop :=
| order_nil a : in_epoch_order a []
| order_cons a e note notes :
    a <= e -> note_of_epoch e note -> in_epoch_order e notes ->
    in_epoch_order a (note :: notes).

Lemma in_epoch_order_weaken (a a' : Z) (notes : list (list (string * pyval))) :
  a' <= a -> in_epoch_order a notes -> in_epoch_order a' notes.
Proof.
  intros Hle H. destruct H as [|a e note notes Hae Hn Hrest]; [constructor|].
  apply (order_cons a' e); [lia|done|done].
Qed.

Lemma in_epoch_order_same (e : Z) (l : list (list (string * pyval))) :
  Forall (note_of_epoch e) l -> in_epoch_order e l.
Proof.
  induction l as [|n l IH]; intros H; [constructor|].
  apply Forall_cons in H as [Hn Hl].
  apply (order_cons e e); [lia|exact Hn|by apply IH].
Qed.

Lemma in_epoch_order_app (a e : Z) (l1 l2 : list (list (string * pyval))) :
  a <= e -> Forall (note_of_epoch e) l1 -> in_epoch_order e l2 ->
  in_epoch_order a (l1 ++ l2).
Proof.
  intros Hae H1 H2. apply (in_epoch_order_weaken e a); [exact Hae|].
  induction l1 as [|n l1 IH]; simpl; [exact H2|].
  apply Forall_cons in H1 as [Hn Hl].
  apply (order_cons e e); [lia|exact Hn|by apply IH].
Qed.

Lemma epoch_loop_emits (total n_train n_val : Z) (n : nat) :
  forall (a : nat) (st st' : trainer tensor) (o : outcome unit),
    epoch_loop B parameters has_callback hp total n_train n_val
      (map Z.of_nat (seq a n)) st = (o, st') ->
    exists notes,
      emitted st' = emitted st ++ notes /\ in_epoch_order (Z.of_nat a) notes.
Proof.
  induction n as [|n IH]; intros a st st' o Hrun.
  - injection Hrun as _ <-. exists []. split; [by rewrite app_nil_r|constructor].
  - simpl in Hrun. unfold bind in Hrun.
    destruct (epoch_body B parameters has_callback hp total n_train n_val
                (Z.of_nat a) st) as [ob s1] eqn:Hbody.
    apply epoch_body_emits in Hbody as (l1 & Hem1 & Hl1).
    destruct ob as [[|]|e].
    + injection Hrun as _ <-. exists l1. split; [exact Hem1|].
      by apply in_epoch_order_same.
    + apply IH in Hrun as (l2 & Hem2 & Hl2).
      exists (l1 ++ l2). split.
      * by rewrite Hem2, Hem1, <- (assoc_L (++)).
      * apply (in_epoch_order_app _ (Z.of_nat a)); [lia|exact Hl1|].
        apply (in_epoch_order_weaken (Z.of_nat (S a))); [lia|exact Hl2].
    + injection Hrun as _ <-. exists l1. split; [exact Hem1|].
      by apply in_epoch_order_same.
Qed.

(** Whatever its outcome, a run of [train] emits its notifications
    in the order of their epochs. *)
Theorem train_emits_in_epoch_order (cfg : dataset_config) (save_dir : string)
    (h0 : gmap nat tensor) (o : outcome training_results) (st' : trainer tensor) :
  train B parameters has_callback hp cfg save_dir (init_state h0) = (o, st') ->
  in_epoch_order 0 (emitted st').
Proof.
  unfold train, bind, lift. intros Hrun.
  destruct (prepare_data B hp cfg) as [[n_train n_val]|e];
    [|injection Hrun as _ <-; constructor].
  destruct (epoch_range hp) as [[total todo]|e] eqn:Hrange;
    [|injection Hrun as _ <-; constructor].
  assert (Htodo : exists n, todo = map Z.of_nat (seq 0 n)).
  { unfold epoch_range in Hrange. destruct (epochs hp) as [| [] | z | | | |];
      try discriminate; injection Hrange as _ <-.
    - by exists 1%nat.
    - by exists 0%nat.
    - by eexists. }
  destruct Htodo as [n ->].
  destruct (epoch_loop B parameters has_callback hp total n_train n_val
              (map Z.of_nat (seq 0 n)) (init_state h0)) as [ol s3] eqn:Hloop.
  apply epoch_loop_emits in Hloop as (notes & Hem & Hord).
  simpl in Hem.
  assert (Hs3 : in_epoch_order 0 (emitted s3)) by (by rewrite Hem).
  destruct ol as [[]|e]; [|by injection Hrun as _ <-].
  unfold modify, validate_epoch, gets, ret in Hrun.
  set (s4 := match best_model_state s3 with
             | Some sd => set_heap (load_state_dict parameters sd (heap s3)) s3
             | None => s3
             end) in *.
  assert (Hs4 : emitted s4 = emitted s3)
    by (unfold s4; by destruct (best_model_state s3)).
  rewrite <- Hs4 in Hs3.
  destruct (n_val =? 0)%Z; [by injection Hrun as _ <-|].
  destruct (validate B (heap s4)) as [[fvl fva] fm].
  destruct (last_item (h_train_loss (training_history s4)));
    [|by injection Hrun as _ <-].
  destruct (last_item (h_train_acc (training_history s4)));
    by injection Hrun as _ <-.
Qed.

End RestoreFacts.

(** ** Progress notifications applied to the job record *)

Section StoredProgressFacts.
Import Py Json DatasetPrep CADModelTrainer Tasks.
Context {tensor : Type}.
Variable B : backend tensor.
Variable float_repr : pyfloat -> string.

Lemma column_history_commit (w : world) (job_id c : string) (r : gmap string pyval) :
  training_jobs w !! job_id = Some r ->
  column_history (commit w) job_id c = column_history w job_id c ++ [col r c].
Proof.
  intros Hr. unfold column_history, commit. simpl.
  rewrite omap_app. simpl. by rewrite Hr.
Qed.

(** The handler on the batch-level notification of [train_epoch]:
    the notification has no entry [progress] and none for the losses,
    so the row gets [progress_percentage] 0 and NULL losses. *)
Lemma update_progress_batch_note (job_id : string) (row : gmap string pyval)
    (w : world) (epoch i n : Z) :
  training_jobs w !! job_id = Some row ->
  exists w',
    _update_training_progress float_repr job_id (batch_note B epoch i n) w
    = (Returns tt, w')
    /\ job_col w' job_id "progress_percentage" = Some (VInt 0)
    /\ job_col w' job_id "current_epoch" = Some (VInt epoch)
    /\ job_col w' job_id "training_loss" = Some VNone
    /\ job_col w' job_id "validation_loss" = Some VNone
    /\ job_col w' job_id "status" = Some (col row "status")
    /\ commits w' = commits w ++ [training_jobs w'].
Proof.
  intros Hrow. eexists. split; [reflexivity|].
  unfold job_col. simpl. rewrite sql_update_lookup, Hrow. simpl.
  repeat split; try reflexivity; f_equal;
    first [apply col_union_set; by simplify_map_eq
          |apply col_union_kept; by simplify_map_eq].
Qed.

(** The handler on the epoch-level notification of [train]. *)
Lemma update_progress_epoch_note (job_id : string) (row : gmap string pyval)
    (w : world) (epoch total : Z) (tl vl ta va lr : pyfloat)
    (metrics : list (string * pyfloat)) :
  training_jobs w !! job_id = Some row ->
  exists w',
    _update_training_progress float_repr job_id
      (epoch_note epoch total tl vl ta va lr metrics) w
    = (Returns tt, w')
    /\ job_col w' job_id "progress_percentage"
       = Some (VFloat (Fin (inject_Z (epoch + 1) / inject_Z total * 100)))
    /\ job_col w' job_id "current_epoch" = Some (VInt epoch)
    /\ job_col w' job_id "status" = Some (col row "status")
    /\ commits w' = commits w ++ [training_jobs w'].
Proof.
  intros Hrow. eexists. split; [reflexivity|].
  unfold job_col. simpl. rewrite sql_update_lookup, Hrow. simpl.
  repeat split; try reflexivity; f_equal;
    first [apply col_union_set; by simplify_map_eq
          |apply col_union_kept; by simplify_map_eq].
Qed.

End StoredProgressFacts.

(** ** A run with one parameter tensor

    The model has one parameter, [fc.weight], in storage 0; every
    optimisation pass adds one to it, and the validation loss is the
    value of the weight, so that the first epoch is the best one.
    [RandomRotation] accepts the degrees it is given. *)

Section ToyRun.
Import Py Json DatasetPrep Transforms CADModelTrainer Tasks.

Definition toy_backend : backend Z :=
  {| fit := fun _ h => Z.succ <$> h;
     batch_loss := fun _ _ => Fin (7 # 10);
     train_metrics := fun _ _ => (Fin (7 # 10), Fin (1 # 2));
     validate := fun h =>
       (Fin (inject_Z (default 0 (h !! 0%nat))), Fin (1 # 2),
        [("precision", Fin (1 # 2)); ("recall", Fin (1 # 2));
         ("f1_score", Fin (1 # 2))]);
     lr_schedule := fun _ => Fin (1 # 1000);
     empty_loader_error := mk_exn "ZeroDivisionError" "float division by zero";
     random_rotation_error := fun _ => None |}.

Definition toy_parameters : list (string * nat) := [("fc.weight", 0%nat)].

Definition toy_heap : gmap nat Z := {[ 0%nat := 0 ]}.

(** The configuration the task prepares for the ten files of scenario A. *)
Definition prepared_config : dataset_config :=
  match _prepare_dataset_config scenario_A with
  | Returns cfg => cfg
  | Raises _ => mk_dataset_config [] [] ∅ ∅ ∅
  end.

(** A configuration with the affine transform switched off, the
    setting under which [prepare_data] gets to build the loaders. *)
Definition without_affine (cfg : dataset_config) : dataset_config :=
  {| train_files := train_files cfg;
     val_files := val_files cfg;
     train_labels := train_labels cfg;
     val_labels := val_labels cfg;
     augmentation := <["enable_affine" := VBool false]> (augmentation cfg) |}.

Definition toy_config : dataset_config := without_affine prepared_config.

(** Three epochs at most, patience one, batches of two. *)
Definition patience_one : hyper :=
  init_hyper (list_to_map
    [("epochs", VInt 3); ("patience", VInt 1); ("batch_size", VInt 2)]).

Definition early_stop_run : outcome training_results * trainer Z :=
  train toy_backend toy_parameters true patience_one toy_config "/models/J1"
    (init_state toy_heap).

(** C4 on the code.  The run is [train] on the split of scenario A
    with the affine transform switched off, for which [prepare_data]
    builds loaders of four and one batches.  The validation losses are
    1 at epoch 0 and 2 at epoch 1; with patience 1 the loop ends at
    epoch 1, which is the best epoch plus the patience.  When epoch 0
    was recorded as best the weight was 1; after the loop and the
    restore step it is 2, the value the last epoch left, and the final
    validation pass reports loss 2 although the best loss is 1. *)
Lemma early_stop_leaves_last_epoch_weights :
  prepare_data toy_backend patience_one toy_config = Returns (4, 1)
  /\ (exists res, early_stop_run.1 = Returns res
        /\ h_val_loss (res_training_history res) = [Fin (1 # 1); Fin (2 # 1)]
        /\ res_best_val_loss res = Fin (1 # 1)
        /\ epochs_trained res = 2
        /\ final_val_loss res = Fin (2 # 1))
  /\ checkpoints early_stop_run.2 = [(0, true); (1, false)]
  /\ current_epoch early_stop_run.2 = 0 + 1
  /\ best_model_state early_stop_run.2 = Some toy_parameters
  /\ weights toy_parameters (fit toy_backend 0 toy_heap) = [("fc.weight", Some 1)]
  /\ weights toy_parameters (heap early_stop_run.2) = [("fc.weight", Some 2)].
Proof.
  split; [vm_compute; reflexivity|]. split.
  - eexists. split; [vm_compute; reflexivity|].
    repeat split; vm_compute; reflexivity.
  - repeat split; vm_compute; reflexivity.
Qed.

(** Two epochs, batches of two: four batches an epoch, of which the
    first notifies. *)
Definition two_epochs : hyper :=
  init_hyper (list_to_map [("epochs", VInt 2); ("batch_size", VInt 2)]).

Definition running_job : gmap string pyval :=
  list_to_map
    [("id", VStr "J1"); ("status", VStr "running"); ("created_by", VStr "u1");
     ("total_epochs", VInt 2); ("current_epoch", VInt 0);
     ("progress_percentage", VFloat (Fin 0))].

Definition number_of (v : pyval) : option Q :=
  match v with
  | VInt z => Some (inject_Z z)
  | VFloat (Fin q) => Some (Qred q)
  | _ => None
  end.

Fixpoint strictly_increasing (l : list Q) : bool :=
  match l with
  | x :: ((y :: _) as l') => negb (Qle_bool y x) && strictly_increasing l'
  | _ => true
  end.

(** A decimal writing of a float, for the examples: the integer part,
    a point, and the digits of the fraction, seventeen at most. *)
Fixpoint fraction_digits (fuel : nat) (r d : Z) : string :=
  match fuel with
  | O => EmptyString
  | S fuel =>
      emit_int (r * 10 / d)
        (if (r * 10 mod d =? 0)%Z then EmptyString
         else fraction_digits fuel (r * 10 mod d) d)
  end.

Definition decimal_repr (x : pyfloat) : string :=
  match x with
  | NaN => "NaN"
  | PosInf => "Infinity"
  | NegInf => "-Infinity"
  | Fin q =>
      let n := Z.abs (Qnum q) in
      let d := Z.pos (Qden q) in
      ((if (Qnum q <? 0)%Z then "-" else "")
       ++ emit_int (n / d) (String "." (fraction_digits 17 (n mod d) d)))%string
  end.

(** Epoch 0 of a run of two epochs with four training batches and one
    validation batch, and then the training pass of epoch 1. *)
Definition first_epoch : outcome bool * trainer Z :=
  epoch_body toy_backend toy_parameters true two_epochs 2 4 1 0 (init_state toy_heap).

Definition second_training_pass : outcome (pyfloat * pyfloat) * trainer Z :=
  train_epoch toy_backend true 4 (set_current_epoch 1 first_epoch.2).

Definition epoch0_note : list (string * pyval) :=
  epoch_note 0 2 (Fin (7 # 10)) (Fin (inject_Z 1)) (Fin (1 # 2)) (Fin (1 # 2))
    (Fin (1 # 1000))
    [("precision", Fin (1 # 2)); ("recall", Fin (1 # 2)); ("f1_score", Fin (1 # 2))].

(** The job record once the handler has stored the notification of
    the end of epoch 0, and then once it has stored the first batch
    notification of epoch 1. *)
Definition epoch0_stored : world :=
  (_update_training_progress decimal_repr "J1" epoch0_note
     (world_of_job running_job)).2.

Definition then_batch_stored : world :=
  (_update_training_progress decimal_repr "J1" (batch_note toy_backend 1 0 4)
     epoch0_stored).2.

(** C6 on the code.  With a callback, the training pass of an epoch
    notifies at batch 0 with the entries epoch, batch, batch_progress
    and loss.  Whenever the handler runs on such a notification, on
    any job record, it stores [progress_percentage] 0, because it reads
    the entry [progress], which the batch notification does not have.
    On the record of a running job where the notification of the end
    of epoch 0 of 2 has been stored, the column goes from 50 to 0. *)
Lemma batch_notification_resets_progress :
  emitted first_epoch.2 = [batch_note toy_backend 0 0 4; epoch0_note]
  /\ emitted second_training_pass.2
     = emitted first_epoch.2 ++ [batch_note toy_backend 1 0 4]
  /\ dict_get "progress" (batch_note toy_backend 1 0 4) = None
  /\ (forall (tensor : Type) (B : backend tensor) (float_repr : pyfloat -> string)
        (job_id : string) (row : gmap string pyval) (w : world) (epoch i n : Z),
        let stored :=
          (_update_training_progress float_repr job_id (batch_note B epoch i n)
             (set_training_jobs (<[job_id := row]> (training_jobs w)) w)).2 in
        job_col stored job_id "progress_percentage" = Some (VInt 0)
        /\ job_col stored job_id "current_epoch" = Some (VInt epoch)
        /\ job_col stored job_id "status" = Some (col row "status"))
  /\ job_col epoch0_stored "J1" "status" = Some (VStr "running")
  /\ job_col then_batch_stored "J1" "status" = Some (VStr "running")
  /\ column_history then_batch_stored "J1" "current_epoch" = [VInt 0; VInt 1]
  /\ omap number_of (column_history then_batch_stored "J1" "progress_percentage")
     = [50 # 1; 0 # 1]
  /\ strictly_increasing
       (omap number_of (column_history then_batch_stored "J1" "progress_percentage"))
     = false.
Proof.
  split; [vm_compute; reflexivity|].
  split; [vm_compute; reflexivity|].
  split; [reflexivity|].
  split.
  { intros tensor B float_repr job_id row w epoch i n stored.
    destruct (update_progress_batch_note B float_repr job_id row
                (set_training_jobs (<[job_id := row]> (training_jobs w)) w)
                epoch i n) as (w' & Hrun & Hp & He & _ & _ & Hs & _).
    { simpl. apply lookup_insert_eq. }
    subst stored. rewrite Hrun. simpl. by rewrite Hp, He, Hs. }
  repeat split; vm_compute; reflexivity.
Qed.

End ToyRun.

(** ** The JSON text: decoding what was encoded *)

Section JsonFacts.
Import Json.

(** Induction over values, with the induction hypothesis on every
    item of a list and every value of a dictionary. *)
Lemma json_nested_ind (P : json -> Prop)
    (Hnull : P JNull) (Hbool : forall b, P (JBool b)) (Hint : forall z, P (JInt z))
    (Hfloat : forall lit, P (JFloat lit)) (Hstr : forall s, P (JStr s))
    (Hlist : forall l, Forall P l -> P (JList l))
    (Hdict : forall d, Forall (fun kv => P kv.2) d -> P (JDict d)) :
  forall v, P v.
Proof.
  fix IH 1. intros [| b | z | lit | s | l | d].
  - exact Hnull.
  - apply Hbool.
  - apply Hint.
  - apply Hfloat.
  - apply Hstr.
  - apply Hlist. induction l as [|v l IHl]; constructor; [apply IH|exact IHl].
  - apply Hdict. induction d as [|[k v] d IHd]; constructor; [apply IH|exact IHd].
Qed.

(** Arithmetic on character codes, with quotients and remainders by
    constants. *)
Ltac codes := zify; Z.to_euclidean_division_equations; lia.

Lemma code_lt_256 (c : ascii) : (code c < 256)%N.
Proof. apply N_ascii_bounded. Qed.

Lemma ascii_of_code (c : ascii) (n : N) : n = code c -> ascii_of_N n = c.
Proof. intros ->. apply ascii_N_embedding. Qed.

(** *** Strings *)

Lemma hex_val_hex_digit (d : N) : (d < 16)%N -> hex_val (hex_digit d) = Some d.
Proof.
  intros Hd.
  assert (H : In d [0; 1; 2; 3; 4; 5; 6; 7; 8; 9; 10; 11; 12; 13; 14; 15]%N).
  { simpl. lia. }
  simpl in H.
  repeat (destruct H as [<-|H]; [reflexivity|]). destruct H.
Qed.

Lemma hex4_digits (n : N) :
  (n < 65536)%N ->
  hex4 (hex_digit (n / 4096)) (hex_digit (n / 256 mod 16))
       (hex_digit (n / 16 mod 16)) (hex_digit (n mod 16)) = Some n.
Proof.
  intros Hn. unfold hex4.
  rewrite !hex_val_hex_digit by codes.
  f_equal. codes.
Qed.

Lemma hex_digit_not_special (d : N) :
  (d < 16)%N ->
  Ascii.eqb (hex_digit d) quote = false /\ Ascii.eqb (hex_digit d) backslash = false.
Proof.
  intros Hd.
  assert (H : In d [0; 1; 2; 3; 4; 5; 6; 7; 8; 9; 10; 11; 12; 13; 14; 15]%N).
  { simpl. lia. }
  simpl in H.
  repeat (destruct H as [<-|H]; [split; reflexivity|]). destruct H.
Qed.

(** The scanner on an escape [\uXXXX]. *)
Lemma parse_chars_escape (h3 h2 h1 h0 : ascii) (r2 : string) :
  parse_chars (String backslash (String "u"
                 (String h3 (String h2 (String h1 (String h0 r2))))))
  = match hex4 h3 h2 h1 h0 with
    | Some n =>
        let single :=
          match parse_chars r2 with
          | Some (t, r') => Some (utf8 n t, r')
          | None => None
          end in
        if is_high_surrogate n then
          match r2 with
          | String b (String u (String g3 (String g2 (String g1 (String g0 r3))))) =>
              if Ascii.eqb b backslash && Ascii.eqb u "u" then
                match hex4 g3 g2 g1 g0 with
                | Some m =>
                    if is_low_surrogate m then
                      match parse_chars r3 with
                      | Some (t, r') => Some (utf8 (join_surrogates n m) t, r')
                      | None => None
                      end
                    else single
                | None => None
                end
              else single
          | _ => single
          end
        else single
    | None => None
    end.
Proof. reflexivity. Qed.

Lemma parse_chars_emit_u4 (n : N) (k : string) :
  (n < 65536)%N -> is_high_surrogate n = false ->
  parse_chars (emit_u4 n k)
  = match parse_chars k with
    | Some (t, r) => Some (utf8 n t, r)
    | None => None
    end.
Proof.
  intros Hn Hhigh. unfold emit_u4.
  rewrite parse_chars_escape, hex4_digits by exact Hn.
  cbv zeta. by rewrite Hhigh.
Qed.

Lemma parse_chars_emit_pair (hi lo : N) (k : string) :
  is_high_surrogate hi = true -> is_low_surrogate lo = true ->
  parse_chars (emit_u4 hi (emit_u4 lo k))
  = match parse_chars k with
    | Some (t, r) => Some (utf8 (join_surrogates hi lo) t, r)
    | None => None
    end.
Proof.
  intros Hhi Hlo.
  assert (Hhi' : (hi < 65536)%N).
  { unfold is_high_surrogate in Hhi. apply andb_true_iff in Hhi as [_ H].
    apply N.leb_le in H. lia. }
  assert (Hlo' : (lo < 65536)%N).
  { unfold is_low_surrogate in Hlo. apply andb_true_iff in Hlo as [_ H].
    apply N.leb_le in H. lia. }
  unfold emit_u4 at 1.
  rewrite parse_chars_escape, hex4_digits by exact Hhi'.
  cbv zeta. rewrite Hhi. unfold emit_u4.
  change (Ascii.eqb backslash backslash && Ascii.eqb "u" "u") with true.
  cbv iota.
  rewrite hex4_digits by exact Hlo'. by rewrite Hlo.
Qed.

(** A code point that is a character of its own: not a surrogate, and
    within the range of Unicode. *)
Definition scalar (n : N) : Prop :=
  (n < 1114112)%N /\ ~ (55296 <= n <= 57343)%N.

Lemma parse_chars_emit_code (n : N) (k : string) :
  scalar n ->
  parse_chars (emit_code n k)
  = match parse_chars k with
    | Some (t, r) => Some (utf8 n t, r)
    | None => None
    end.
Proof.
  intros [Hmax Hsur]. unfold emit_code.
  destruct (N.ltb_spec n 65536) as [Hlt|Hge].
  - apply parse_chars_emit_u4; [exact Hlt|].
    unfold is_high_surrogate. apply andb_false_iff.
    destruct (N.leb_spec 55296 n); [right|by left].
    apply N.leb_gt. lia.
  - rewrite parse_chars_emit_pair.
    + replace (join_surrogates (55296 + (n - 65536) / 1024)
                 (56320 + (n - 65536) mod 1024)) with n; [done|].
      unfold join_surrogates. codes.
    + unfold is_high_surrogate. apply andb_true_iff.
      split; apply N.leb_le; codes.
    + unfold is_low_surrogate. apply andb_true_iff.
      split; apply N.leb_le; codes.
Qed.

Lemma parse_chars_emit_char (c : ascii) (k : string) :
  (code c < 128)%N ->
  parse_chars (emit_char c k)
  = match parse_chars k with
    | Some (t, r) => Some (String c t, r)
    | None => None
    end.
Proof.
  destruct c as [[] [] [] [] [] [] [] []]; intros Hc;
    try (exfalso; vm_compute in Hc; discriminate Hc); reflexivity.
Qed.

Lemma is_cont_range (c : ascii) : is_cont c = true -> (128 <= code c < 192)%N.
Proof.
  unfold is_cont. intros H. apply andb_true_iff in H as [H1 H2].
  apply N.leb_le in H1. apply N.ltb_lt in H2. lia.
Qed.

Lemma utf8_two (c0 c1 : ascii) (t : string) :
  (194 <= code c0 < 224)%N -> (128 <= code c1 < 192)%N ->
  utf8 ((code c0 - 192) * 64 + (code c1 - 128)) t = String c0 (String c1 t).
Proof.
  intros H0 H1. unfold utf8.
  destruct (N.ltb_spec ((code c0 - 192) * 64 + (code c1 - 128)) 128); [codes|].
  destruct (N.ltb_spec ((code c0 - 192) * 64 + (code c1 - 128)) 2048); [|codes].
  f_equal; [|f_equal]; apply ascii_of_code; codes.
Qed.

Lemma utf8_three (c0 c1 c2 : ascii) (t : string) :
  (224 <= code c0 < 240)%N -> (128 <= code c1 < 192)%N -> (128 <= code c2 < 192)%N ->
  (2048 <= ((code c0 - 224) * 64 + (code c1 - 128)) * 64 + (code c2 - 128))%N ->
  utf8 (((code c0 - 224) * 64 + (code c1 - 128)) * 64 + (code c2 - 128)) t
  = String c0 (String c1 (String c2 t)).
Proof.
  intros H0 H1 H2 Hmin. unfold utf8.
  destruct (N.ltb_spec (((code c0 - 224) * 64 + (code c1 - 128)) * 64
                        + (code c2 - 128)) 128); [codes|].
  destruct (N.ltb_spec (((code c0 - 224) * 64 + (code c1 - 128)) * 64
                        + (code c2 - 128)) 2048); [codes|].
  destruct (N.ltb_spec (((code c0 - 224) * 64 + (code c1 - 128)) * 64
                        + (code c2 - 128)) 65536); [|codes].
  f_equal; [|f_equal; [|f_equal]]; apply ascii_of_code; codes.
Qed.

Lemma utf8_four (c0 c1 c2 c3 : ascii) (t : string) :
  (240 <= code c0 < 248)%N -> (128 <= code c1 < 192)%N ->
  (128 <= code c2 < 192)%N -> (128 <= code c3 < 192)%N ->
  (65536 <= (((code c0 - 240) * 64 + (code c1 - 128)) * 64 + (code c2 - 128)) * 64
            + (code c3 - 128))%N ->
  utf8 ((((code c0 - 240) * 64 + (code c1 - 128)) * 64 + (code c2 - 128)) * 64
        + (code c3 - 128)) t
  = String c0 (String c1 (String c2 (String c3 t))).
Proof.
  intros H0 H1 H2 H3 Hmin. unfold utf8.
  destruct (N.ltb_spec ((((code c0 - 240) * 64 + (code c1 - 128)) * 64
                         + (code c2 - 128)) * 64 + (code c3 - 128)) 128); [codes|].
  destruct (N.ltb_spec ((((code c0 - 240) * 64 + (code c1 - 128)) * 64
                         + (code c2 - 128)) * 64 + (code c3 - 128)) 2048); [codes|].
  destruct (N.ltb_spec ((((code c0 - 240) * 64 + (code c1 - 128)) * 64
                         + (code c2 - 128)) * 64 + (code c3 - 128)) 65536); [codes|].
  f_equal; [|f_equal; [|f_equal; [|f_equal]]]; apply ascii_of_code; codes.
Qed.

(** The scanner reads back the text of a string. *)
Lemma parse_chars_emit_chars_bounded (m : nat) :
  forall s k : string,
    (String.length s <= m)%nat -> utf8_text s = true ->
    parse_chars (emit_chars s k) = Some (s, k).
Proof.
  induction m as [|m IH]; intros s k Hlen Hwf.
  { destruct s; [reflexivity|simpl in Hlen; lia]. }
  destruct s as [|c0 s0]; [reflexivity|].
  unfold emit_chars. simpl in Hlen. cbn [emit_from utf8_text] in *.
  destruct (N.ltb_spec (code c0) 128) as [Hascii|Hhigh].
  { rewrite parse_chars_emit_char by exact Hascii.
    change (emit_from 0 0 s0 k) with (emit_chars s0 k).
    rewrite IH; [reflexivity|lia|exact Hwf]. }
  destruct (N.ltb_spec (code c0) 194) as [|Hlead]; [discriminate Hwf|].
  destruct s0 as [|c1 s1]; [discriminate Hwf|]. simpl in Hlen.
  destruct (N.ltb_spec (code c0) 224) as [Htwo|Hmore].
  { apply andb_true_iff in Hwf as [Hc1 Hwf]. apply is_cont_range in Hc1.
    cbn [emit_from].
    rewrite parse_chars_emit_code by (split; codes).
    change (emit_from 0 0 s1 k) with (emit_chars s1 k).
    rewrite IH; [|lia|exact Hwf].
    by rewrite utf8_two. }
  destruct s1 as [|c2 s2]; [discriminate Hwf|]. simpl in Hlen.
  destruct (N.ltb_spec (code c0) 240) as [Hthree|Hfour].
  { cbv zeta in Hwf.
    apply andb_true_iff in Hwf as [Hwf Hrest].
    apply andb_true_iff in Hwf as [Hwf Hsur].
    apply andb_true_iff in Hwf as [Hwf Hmin].
    apply andb_true_iff in Hwf as [Hc1 Hc2].
    apply is_cont_range in Hc1. apply is_cont_range in Hc2.
    apply N.leb_le in Hmin.
    apply negb_true_iff, andb_false_iff in Hsur.
    cbn [emit_from].
    rewrite parse_chars_emit_code.
    - change (emit_from 0 0 s2 k) with (emit_chars s2 k).
      rewrite IH; [|lia|exact Hrest].
      by rewrite utf8_three.
    - split; [codes|].
      destruct Hsur as [Hs|Hs]; [apply N.leb_gt in Hs|apply N.leb_gt in Hs]; lia. }
  destruct s2 as [|c3 s3]; [discriminate Hwf|]. simpl in Hlen.
  cbv zeta in Hwf.
  apply andb_true_iff in Hwf as [Hwf Hrest].
  apply andb_true_iff in Hwf as [Hwf Hmax].
  apply andb_true_iff in Hwf as [Hwf Hmin].
  apply andb_true_iff in Hwf as [Hwf Hc3].
  apply andb_true_iff in Hwf as [Hwf Hc2].
  apply andb_true_iff in Hwf as [Hc0 Hc1].
  apply is_cont_range in Hc1. apply is_cont_range in Hc2. apply is_cont_range in Hc3.
  apply N.leb_le in Hmin. apply N.ltb_lt in Hmax. apply N.ltb_lt in Hc0.
  cbn [emit_from].
  rewrite parse_chars_emit_code by (split; lia).
  change (emit_from 0 0 s3 k) with (emit_chars s3 k).
  rewrite IH; [|lia|exact Hrest].
  by rewrite utf8_four.
Qed.

Lemma parse_chars_emit_chars (s k : string) :
  utf8_text s = true -> parse_chars (emit_chars s k) = Some (s, k).
Proof. by apply (parse_chars_emit_chars_bounded (String.length s)). Qed.

(** *** Numbers *)

Lemma read_digits_emit_uint (u : Decimal.uint) (k : string) :
  read_digits k = (Decimal.Nil, k) ->
  read_digits (emit_uint u k) = (u, k).
Proof.
  intros Hk. induction u; simpl; rewrite ?IHu; done.
Qed.

Lemma closes_cases (k : string) :
  closes k = true ->
  k = EmptyString
  \/ exists k', k = String "," k' \/ k = String "]" k' \/ k = String "}" k'.
Proof.
  destruct k as [|c k]; [by left|]. simpl. intros H. right. exists k.
  destruct (Ascii.eqb_spec c ",") as [->|_]; [by left|].
  destruct (Ascii.eqb_spec c "]") as [->|_]; [by right; left|].
  destruct (Ascii.eqb_spec c "}") as [->|_]; [by right; right|].
  discriminate H.
Qed.

Lemma closes_no_digit (k : string) :
  closes k = true ->
  read_digits k = (Decimal.Nil, k) /\ read_frac k = None /\ read_exp k = None.
Proof.
  intros H. destruct (closes_cases k H) as [->|(k' & [->|[->| ->]])]; done.
Qed.

Lemma closes_no_number (k : string) :
  closes k = true ->
  read_int k = None /\ read_sign k = (EmptyString, k) /\ parse_number k = None.
Proof.
  intros H. destruct (closes_cases k H) as [->|(k' & [->|[->| ->]])]; done.
Qed.

(** The decimal writing of a positive number starts with a digit
    other than zero. *)
Lemma to_uint_head (p : positive) :
  match Pos.to_uint p with
  | Decimal.Nil | Decimal.D0 _ => False
  | _ => True
  end.
Proof.
  pose proof (DecimalPos.Unsigned.to_of (Pos.to_uint p)) as E.
  rewrite DecimalPos.Unsigned.of_to in E. simpl in E.
  pose proof (DecimalPos.Unsigned.to_uint_nonnil p) as Hnil.
  destruct (Pos.to_uint p) as [|u|u|u|u|u|u|u|u|u|u] eqn:Ep; try exact I.
  - by apply Hnil.
  - unfold Decimal.unorm in E. simpl in E.
    destruct (Decimal.nzhead u) eqn:En; try discriminate E.
    + injection E as ->. by apply (DecimalPos.Unsigned.to_uint_nonzero p).
    + by apply (DecimalFacts.nzhead_nonzero _ _ En).
Qed.

Lemma read_number_emit_pos (neg : bool) (p : positive) (k : string) :
  closes k = true ->
  read_number neg (emit_uint (Pos.to_uint p) k)
  = Some (JInt (if neg then Zneg p else Zpos p), k).
Proof.
  intros Hk. destruct (closes_no_digit k Hk) as (Hd & Hf & He).
  pose proof (to_uint_head p) as Hhead.
  assert (Hval : N.of_uint (Pos.to_uint p) = Npos p)
    by apply DecimalPos.Unsigned.of_to.
  destruct (Pos.to_uint p) as [|u|u|u|u|u|u|u|u|u|u] eqn:Ep; try done;
    destruct neg; unfold read_number, read_int; simpl;
    rewrite (read_digits_emit_uint u k Hd); simpl; rewrite Hf, He; simpl;
    unfold N.of_uint in Hval; simpl in Hval; injection Hval as ->; reflexivity.
Qed.

Lemma parse_number_emit_int (z : Z) (k : string) :
  closes k = true ->
  parse_number (emit_int z k) = Some (JInt z, k).
Proof.
  intros Hk. destruct z as [|p|p].
  - destruct (closes_no_digit k Hk) as (Hd & Hf & He).
    unfold parse_number, read_number. simpl. rewrite Hf, He. reflexivity.
  - pose proof (read_number_emit_pos false p k Hk) as E.
    pose proof (to_uint_head p) as Hhead.
    unfold emit_int, parse_number. simpl.
    destruct (Pos.to_uint p); try done; exact E.
  - exact (read_number_emit_pos true p k Hk).
Qed.

(** *** Floats: reading a number that is followed by more text *)

Lemma append_nil (k : string) : String.append EmptyString k = k.
Proof. reflexivity. Qed.

Lemma append_cons (c : ascii) (s k : string) :
  String.append (String c s) k = String c (String.append s k).
Proof. reflexivity. Qed.

Lemma read_digits_app (s k : string) :
  closes k = true ->
  read_digits (String.append s k)
  = ((read_digits s).1, String.append (read_digits s).2 k).
Proof.
  intros Hk. induction s as [|c s IH].
  - destruct (closes_no_digit k Hk) as [E _]. exact E.
  - rewrite append_cons. cbn [read_digits]. destruct (digit_of c); [|reflexivity].
    rewrite IH. by destruct (read_digits s).
Qed.

Lemma read_frac_cons (c : ascii) (r : string) :
  read_frac (String c r)
  = if Ascii.eqb c "." then
      match read_digits r with
      | (Decimal.Nil, _) => None
      | (u, r') => Some (String "." (emit_uint u EmptyString), r')
      end
    else None.
Proof. destruct c as [[] [] [] [] [] [] [] []]; reflexivity. Qed.

Lemma read_frac_app (s k : string) :
  closes k = true ->
  read_frac (String.append s k)
  = match read_frac s with
    | Some (f, r) => Some (f, String.append r k)
    | None => None
    end.
Proof.
  intros Hk. destruct s as [|c s]; rewrite ?append_nil, ?append_cons.
  - by destruct (closes_no_digit k Hk) as (_ & -> & _).
  - rewrite !read_frac_cons. destruct (Ascii.eqb c "."); [|reflexivity].
    rewrite read_digits_app by exact Hk.
    destruct (read_digits s) as [u r]. simpl. by destruct u.
Qed.

Lemma read_sign_cons (c : ascii) (r : string) :
  read_sign (String c r)
  = if Ascii.eqb c "+" then (String "+" EmptyString, r)
    else if Ascii.eqb c "-" then (String "-" EmptyString, r)
    else (EmptyString, String c r).
Proof. destruct c as [[] [] [] [] [] [] [] []]; reflexivity. Qed.

Lemma read_sign_app (s k : string) :
  closes k = true ->
  read_sign (String.append s k)
  = ((read_sign s).1, String.append (read_sign s).2 k).
Proof.
  intros Hk. destruct s as [|c s]; rewrite ?append_nil, ?append_cons.
  - by destruct (closes_no_number k Hk) as (_ & -> & _).
  - rewrite !read_sign_cons.
    destruct (Ascii.eqb c "+"); [reflexivity|].
    by destruct (Ascii.eqb c "-").
Qed.

Lemma read_exp_app (s k : string) :
  closes k = true ->
  read_exp (String.append s k)
  = match read_exp s with
    | Some (e, r) => Some (e, String.append r k)
    | None => None
    end.
Proof.
  intros Hk. destruct s as [|c s]; rewrite ?append_nil, ?append_cons.
  - by destruct (closes_no_digit k Hk) as (_ & _ & ->).
  - unfold read_exp. destruct (Ascii.eqb c "e" || Ascii.eqb c "E"); [|reflexivity].
    rewrite read_sign_app by exact Hk.
    destruct (read_sign s) as [sg r0]. simpl.
    rewrite read_digits_app by exact Hk.
    destruct (read_digits r0) as [u r]. simpl. by destruct u.
Qed.

Lemma read_int_cons (c : ascii) (r : string) :
  read_int (String c r)
  = if Ascii.eqb c "0" then Some (Decimal.D0 Decimal.Nil, r)
    else if is_digit c then Some (read_digits (String c r)) else None.
Proof. destruct c as [[] [] [] [] [] [] [] []]; reflexivity. Qed.

Lemma read_int_app (s k : string) :
  closes k = true ->
  read_int (String.append s k)
  = match read_int s with
    | Some (u, r) => Some (u, String.append r k)
    | None => None
    end.
Proof.
  intros Hk. destruct s as [|c s]; rewrite ?append_nil, ?append_cons.
  - by destruct (closes_no_number k Hk) as (-> & _).
  - rewrite !read_int_cons. destruct (Ascii.eqb c "0"); [reflexivity|].
    destruct (is_digit c); [|reflexivity].
    rewrite <- append_cons.
    rewrite read_digits_app by exact Hk.
    by destruct (read_digits (String c s)).
Qed.

Lemma read_number_app (neg : bool) (s k : string) :
  closes k = true ->
  read_number neg (String.append s k)
  = match read_number neg s with
    | Some (v, r) => Some (v, String.append r k)
    | None => None
    end.
Proof.
  intros Hk. unfold read_number.
  rewrite read_int_app by exact Hk.
  destruct (read_int s) as [[u r]|]; [|reflexivity].
  rewrite read_frac_app by exact Hk.
  destruct (read_frac r) as [[f r1]|].
  - rewrite read_exp_app by exact Hk.
    destruct (read_exp r1) as [[e r2]|]; destruct f; try destruct e; reflexivity.
  - rewrite read_exp_app by exact Hk.
    destruct (read_exp r) as [[e r2]|]; try destruct e; reflexivity.
Qed.

Lemma parse_number_cons (c : ascii) (r : string) :
  parse_number (String c r)
  = if Ascii.eqb c "-" then read_number true r else read_number false (String c r).
Proof. destruct c as [[] [] [] [] [] [] [] []]; reflexivity. Qed.

Lemma parse_number_app (s k : string) :
  closes k = true ->
  parse_number (String.append s k)
  = match parse_number s with
    | Some (v, r) => Some (v, String.append r k)
    | None => None
    end.
Proof.
  intros Hk. destruct s as [|c s]; rewrite ?append_nil, ?append_cons.
  - by destruct (closes_no_number k Hk) as (_ & _ & ->).
  - rewrite !parse_number_cons. destruct (Ascii.eqb c "-").
    + by apply read_number_app.
    + rewrite <- append_cons.
      by apply read_number_app.
Qed.

Lemma parse_number_head (s : string) (res : json * string) :
  parse_number s = Some res ->
  exists c r, s = String c r /\ is_digit c || Ascii.eqb c "-" = true.
Proof.
  destruct s as [|c r]; [discriminate|]. intros H. exists c, r. split; [done|].
  rewrite parse_number_cons in H.
  destruct (Ascii.eqb c "-"); [by rewrite orb_true_r|].
  unfold read_number in H. rewrite read_int_cons in H.
  destruct (Ascii.eqb_spec c "0") as [->|_]; [reflexivity|].
  destruct (is_digit c); [reflexivity|discriminate H].
Qed.

(** The three shapes of the text of a float. *)
Lemma float_literal_cases (lit : string) :
  float_literal lit = true ->
  parse_number lit = Some (JFloat lit, EmptyString)
  \/ lit = "NaN" \/ lit = "Infinity" \/ lit = "-Infinity".
Proof.
  unfold float_literal. intros H.
  apply orb_true_iff in H as [H|H]; [|right; right; right; by apply String.eqb_eq].
  apply orb_true_iff in H as [H|H]; [|right; right; left; by apply String.eqb_eq].
  apply orb_true_iff in H as [H|H]; [|right; left; by apply String.eqb_eq].
  left. destruct (parse_number lit) as [[[] [|]]|]; try discriminate H.
  apply String.eqb_eq in H. by subst.
Qed.

Lemma float_literal_head (lit k : string) :
  float_literal lit = true ->
  exists c r, String.append lit k = String c r /\ opens_value c = true.
Proof.
  intros H. destruct (float_literal_cases lit H) as [Hnum|[->|[->| ->]]];
    try (by eexists _, _).
  destruct (parse_number_head lit _ Hnum) as (c & r & -> & Hc).
  exists c, (String.append r k). split; [reflexivity|].
  unfold opens_value. apply orb_true_iff in Hc as [Hc|Hc]; rewrite Hc;
    by rewrite ?orb_true_r.
Qed.

(** *** The first character of a value, and the size of its text *)

Lemma emit_list_unfold (v0 : json) (l0 : list json) (k : string) :
  emit (JList (v0 :: l0)) k = String "[" (emit v0 (emit_items l0 k)).
Proof.
  simpl. do 2 f_equal. induction l0 as [|v1 l1 IH]; simpl; [done|]. by rewrite IH.
Qed.

Lemma emit_dict_unfold (k0 : string) (v0 : json) (d0 : list (string * json))
    (k : string) :
  emit (JDict ((k0, v0) :: d0)) k
  = String "{" (emit_string k0 (String ":" (String " " (emit v0 (emit_pairs d0 k))))).
Proof.
  simpl. do 5 f_equal. induction d0 as [|[k1 v1] d1 IH]; simpl; [done|]. by rewrite IH.
Qed.

Lemma opens_value_skip_ws (c : ascii) (r : string) :
  opens_value c = true -> skip_ws (String c r) = String c r.
Proof.
  destruct c as [[] [] [] [] [] [] [] []]; try discriminate; reflexivity.
Qed.

Lemma emit_head (v : json) (k : string) :
  storable v = true ->
  exists c r, emit v k = String c r /\ opens_value c = true.
Proof.
  destruct v as [| [] | z | lit | s | l | d]; intros Hv;
    try (by eexists _, _).
  - destruct z as [|p|p]; try (by eexists _, _).
    pose proof (to_uint_head p) as Hhead. simpl.
    destruct (Pos.to_uint p); try done; by eexists _, _.
  - by apply float_literal_head.
Qed.

Lemma length_emit_char (c : ascii) (k : string) :
  (String.length k < String.length (emit_char c k))%nat.
Proof.
  unfold emit_char, emit_u4. repeat case_match; simpl; lia.
Qed.

Lemma length_emit_code (n : N) (k : string) :
  (String.length k < String.length (emit_code n k))%nat.
Proof.
  unfold emit_code, emit_u4. case_match; simpl; lia.
Qed.

Lemma length_emit_from (s k : string) :
  forall (need : nat) (acc : N),
    (String.length k < String.length (emit_from need acc s k))%nat.
Proof.
  induction s as [|c s IH]; intros need acc; cbn [emit_from]; [simpl; lia|].
  destruct need as [|[|need]].
  - repeat case_match; try apply IH.
    pose proof (length_emit_char c (emit_from 0 0 s k)).
    pose proof (IH 0%nat 0%N). lia.
  - pose proof (length_emit_code (acc * 64 + (code c - 128)) (emit_from 0 0 s k)).
    pose proof (IH 0%nat 0%N). lia.
  - apply IH.
Qed.

Lemma length_emit_chars (s k : string) :
  (String.length k < String.length (emit_chars s k))%nat.
Proof. apply length_emit_from. Qed.

Lemma length_emit_uint (u : Decimal.uint) (k : string) :
  (String.length k <= String.length (emit_uint u k))%nat.
Proof. induction u; simpl; lia. Qed.

Lemma length_append (s k : string) :
  String.length (String.append s k) = (String.length s + String.length k)%nat.
Proof.
  induction s as [|c s IH]; [reflexivity|].
  rewrite append_cons. simpl. by rewrite IH.
Qed.

(** The text of a value is at least as long as the value is deep. *)
Definition measured (v : json) : Prop :=
  storable v = true ->
  forall k, (depth v + String.length k <= String.length (emit v k))%nat.

Lemma emit_items_measure (l : list json) (k : string) :
  Forall measured l -> forallb storable l = true ->
  (foldr (fun v n => Nat.max (depth v) n) O l + String.length k + 1
     <= String.length (emit_items l k))%nat
  /\ (length l + String.length k + 1 <= String.length (emit_items l k))%nat.
Proof.
  induction l as [|v l IH]; intros Hall Hst; simpl; [lia|].
  apply Forall_cons in Hall as [Hv Hall].
  apply andb_true_iff in Hst as [Hsv Hsl].
  destruct (IH Hall Hsl) as [IH1 IH2].
  pose proof (Hv Hsv (emit_items l k)) as Hm.
  assert (1 <= depth v)%nat by (destruct v; simpl; lia).
  lia.
Qed.

Lemma emit_pairs_measure (d : list (string * json)) (k : string) :
  Forall (fun kv => measured kv.2) d ->
  forallb (fun kv => utf8_text kv.1 && storable kv.2) d = true ->
  (foldr (fun kv n => Nat.max (depth kv.2) n) O d + String.length k + 1
     <= String.length (emit_pairs d k))%nat
  /\ (length d + String.length k + 1 <= String.length (emit_pairs d k))%nat.
Proof.
  induction d as [|[k1 v] d IH]; intros Hall Hst; simpl; [lia|].
  apply Forall_cons in Hall as [Hv Hall].
  apply andb_true_iff in Hst as [Hsv Hsl].
  apply andb_true_iff in Hsv as [_ Hsv].
  destruct (IH Hall Hsl) as [IH1 IH2].
  pose proof (Hv Hsv (emit_pairs d k)) as Hm. simpl in Hm.
  pose proof (length_emit_chars k1
                (String ":" (String " " (emit v (emit_pairs d k))))) as Hk.
  simpl in Hk.
  assert (1 <= depth v)%nat by (destruct v; simpl; lia).
  lia.
Qed.

Lemma emit_measure (v : json) : measured v.
Proof.
  induction v as [| b | z | lit | s | l IHl | d IHd] using json_nested_ind;
    intros Hst k.
  - simpl. lia.
  - destruct b; simpl; lia.
  - destruct z as [|p|p]; simpl.
    + lia.
    + pose proof (to_uint_head p) as Hhead.
      destruct (Pos.to_uint p) as [|u|u|u|u|u|u|u|u|u|u]; try done; simpl;
        pose proof (length_emit_uint u k); lia.
    + pose proof (length_emit_uint (Pos.to_uint p) k). lia.
  - change (emit (JFloat lit) k) with (String.append lit k).
    rewrite length_append.
    destruct lit as [|c lit]; [discriminate Hst|simpl; lia].
  - pose proof (length_emit_chars s k). simpl. lia.
  - destruct l as [|v0 l0]; [simpl; lia|].
    rewrite emit_list_unfold.
    apply Forall_cons in IHl as [Hv0 Hl0].
    simpl in Hst. apply andb_true_iff in Hst as [Hs0 Hsl].
    destruct (emit_items_measure l0 k Hl0 Hsl) as [H1 _].
    pose proof (Hv0 Hs0 (emit_items l0 k)) as Hm.
    simpl. lia.
  - destruct d as [|[k0 v0] d0]; [simpl; lia|].
    rewrite emit_dict_unfold.
    apply Forall_cons in IHd as [Hv0 Hd0].
    simpl in Hst. apply andb_true_iff in Hst as [_ Hst].
    apply andb_true_iff in Hst as [Hs0 Hsd].
    apply andb_true_iff in Hs0 as [_ Hs0].
    destruct (emit_pairs_measure d0 k Hd0 Hsd) as [H1 _].
    pose proof (Hv0 Hs0 (emit_pairs d0 k)) as Hm. simpl in Hm.
    pose proof (length_emit_chars k0
                  (String ":" (String " " (emit v0 (emit_pairs d0 k))))) as Hk.
    simpl in Hk. simpl. lia.
Qed.

(** *** Unfolding the scanner on the first character *)

Lemma parse_value_string (n : nat) (r : string) :
  parse_value (S n) (String quote r)
  = match parse_chars r with
    | Some (t, r') => Some (JStr t, r')
    | None => None
    end.
Proof. reflexivity. Qed.

Lemma parse_value_array (n : nat) (r : string) :
  parse_value (S n) (String "[" r) = parse_array (parse_value n) r.
Proof. reflexivity. Qed.

Lemma parse_value_object (n : nat) (r : string) :
  parse_value (S n) (String "{" r) = parse_object (parse_value n) r.
Proof. reflexivity. Qed.

Lemma parse_value_number (n : nat) (c : ascii) (r : string) (res : json * string) :
  is_digit c || Ascii.eqb c "-" = true ->
  parse_number (String c r) = Some res ->
  parse_value (S n) (String c r) = Some res.
Proof.
  intros Hc Hnum.
  assert (E : parse_value (S n) (String c r)
              = match parse_number (String c r) with
                | Some res => Some res
                | None =>
                    match starts_with "NaN" (String c r),
                          starts_with "Infinity" (String c r),
                          starts_with "-Infinity" (String c r) with
                    | Some r', _, _ => Some (JFloat "NaN", r')
                    | _, Some r', _ => Some (JFloat "Infinity", r')
                    | _, _, Some r' => Some (JFloat "-Infinity", r')
                    | None, None, None => None
                    end
                end).
  { destruct c as [[] [] [] [] [] [] [] []]; try discriminate Hc; reflexivity. }
  by rewrite E, Hnum.
Qed.

Lemma parse_value_float (n : nat) (lit k : string) :
  float_literal lit = true -> closes k = true ->
  parse_value (S n) (String.append lit k) = Some (JFloat lit, k).
Proof.
  intros Hlit Hk.
  destruct (float_literal_cases lit Hlit) as [Hnum|[->|[->| ->]]];
    try reflexivity.
  destruct (parse_number_head lit _ Hnum) as (c & r & -> & Hc).
  rewrite append_cons. apply parse_value_number; [exact Hc|].
  rewrite <- append_cons, parse_number_app, Hnum by exact Hk.
  by rewrite append_nil.
Qed.

Lemma parse_array_nonempty (pv : string -> option (json * string))
    (c : ascii) (r : string) :
  opens_value c = true ->
  parse_array pv (String c r)
  = match parse_items pv (String.length (String c r)) (String c r) with
    | Some (vs, r') => Some (JList vs, r')
    | None => None
    end.
Proof.
  intros Hc. unfold parse_array. rewrite (opens_value_skip_ws c r Hc).
  destruct c as [[] [] [] [] [] [] [] []]; try discriminate Hc; reflexivity.
Qed.

Lemma parse_object_nonempty (pv : string -> option (json * string)) (r : string) :
  parse_object pv (String quote r)
  = match parse_pairs pv (String.length (String quote r)) (String quote r) with
    | Some (ps, r') => Some (JDict (dict_of_pairs ps), r')
    | None => None
    end.
Proof. reflexivity. Qed.

(** *** Dictionaries with distinct keys *)

Lemma dict_set_fresh (k : string) (v : json) (d : list (string * json)) :
  k ∉ map fst d -> dict_set k v d = d ++ [(k, v)].
Proof.
  induction d as [|[k' v'] d IH]; intros Hk; simpl; [done|].
  simpl in Hk. apply not_elem_of_cons in Hk as [Hne Hk].
  destruct (String.eqb_spec k k') as [E|_]; [done|].
  by rewrite IH.
Qed.

Lemma dict_of_pairs_acc (ps acc : list (string * json)) :
  NoDup (map fst (acc ++ ps)) ->
  foldl (fun d kv => dict_set kv.1 kv.2 d) acc ps = acc ++ ps.
Proof.
  revert acc. induction ps as [|[k v] ps IH]; intros acc Hnd; simpl.
  - by rewrite app_nil_r.
  - rewrite dict_set_fresh.
    + rewrite IH; rewrite <- (assoc_L (++)); [done|exact Hnd].
    + rewrite map_app in Hnd. apply NoDup_app in Hnd as (_ & Hdisj & _).
      intros Hin. apply (Hdisj k Hin). simpl. left.
Qed.

Lemma dict_of_pairs_distinct (ps : list (string * json)) :
  NoDup (map fst ps) -> dict_of_pairs ps = ps.
Proof. intros Hnd. unfold dict_of_pairs. by rewrite dict_of_pairs_acc. Qed.

(** *** Lists and dictionaries *)

(** A scanner reads back a value written before text that may follow
    a value. *)
Definition reads_back (pv : string -> option (json * string)) (v : json) : Prop :=
  storable v = true /\
  forall k, closes k = true -> pv (emit v k) = Some (v, k).

Lemma skip_ws_emit (v : json) (k : string) :
  storable v = true -> skip_ws (emit v k) = emit v k.
Proof.
  intros Hv. destruct (emit_head v k Hv) as (c & r & -> & Hc).
  by apply opens_value_skip_ws.
Qed.

Lemma closes_emit_items (l : list json) (k : string) :
  closes (emit_items l k) = true.
Proof. by destruct l. Qed.

Lemma closes_emit_pairs (d : list (string * json)) (k : string) :
  closes (emit_pairs d k) = true.
Proof. by destruct d as [|[]]. Qed.

Lemma parse_items_emit (pv : string -> option (json * string)) (l0 : list json) :
  forall (v0 : json) (fuel : nat) (k : string),
    Forall (reads_back pv) (v0 :: l0) ->
    (length l0 < fuel)%nat ->
    parse_items pv fuel (emit v0 (emit_items l0 k)) = Some (v0 :: l0, k).
Proof.
  induction l0 as [|v1 l1 IH]; intros v0 fuel k Hall Hfuel;
    apply Forall_cons in Hall as [[Hs0 Hv0] Hall];
    (destruct fuel as [|fuel]; [simpl in Hfuel; lia|]); simpl.
  - rewrite Hv0 by reflexivity. reflexivity.
  - rewrite Hv0 by reflexivity. simpl.
    pose proof Hall as Hall'. apply Forall_cons in Hall' as [[Hs1 _] _].
    rewrite (skip_ws_emit v1 _ Hs1).
    rewrite (IH v1 fuel k Hall) by (simpl in Hfuel; lia).
    reflexivity.
Qed.

Lemma parse_pairs_emit (pv : string -> option (json * string))
    (d0 : list (string * json)) :
  forall (k0 : string) (v0 : json) (fuel : nat) (k : string),
    Forall (fun kv => utf8_text kv.1 = true /\ reads_back pv kv.2) ((k0, v0) :: d0) ->
    (length d0 < fuel)%nat ->
    parse_pairs pv fuel
      (emit_string k0 (String ":" (String " " (emit v0 (emit_pairs d0 k)))))
    = Some ((k0, v0) :: d0, k).
Proof.
  induction d0 as [|[k1 v1] d1 IH]; intros k0 v0 fuel k Hall Hfuel;
    apply Forall_cons in Hall as [(Hk0 & Hs0 & Hv0) Hall]; simpl in Hk0, Hs0, Hv0;
    (destruct fuel as [|fuel]; [simpl in Hfuel; lia|]);
    unfold emit_string; cbn [parse_pairs];
    rewrite (parse_chars_emit_chars _ _ Hk0); simpl;
    rewrite (skip_ws_emit v0 _ Hs0).
  - rewrite Hv0 by reflexivity. reflexivity.
  - rewrite Hv0 by reflexivity. simpl.
    change (String quote (emit_chars k1 ?x)) with (emit_string k1 x).
    rewrite (IH k1 v1 fuel k Hall) by (simpl in Hfuel; lia).
    reflexivity.
Qed.

Lemma depth_item (l : list json) (v : json) (n : nat) :
  v ∈ l -> (foldr (fun v n => Nat.max (depth v) n) O l <= n)%nat ->
  (depth v <= n)%nat.
Proof.
  induction l as [|w l IH]; intros Hin Hmax; [by apply elem_of_nil in Hin|].
  simpl in Hmax. apply elem_of_cons in Hin as [->|Hin]; [lia|].
  apply IH; [exact Hin|lia].
Qed.

Lemma depth_pair (d : list (string * json)) (kv : string * json) (n : nat) :
  kv ∈ d -> (foldr (fun kv n => Nat.max (depth kv.2) n) O d <= n)%nat ->
  (depth kv.2 <= n)%nat.
Proof.
  induction d as [|w d IH]; intros Hin Hmax; [by apply elem_of_nil in Hin|].
  simpl in Hmax. apply elem_of_cons in Hin as [->|Hin]; [lia|].
  apply IH; [exact Hin|lia].
Qed.

(** *** The scanner reads back what the encoder wrote *)

Theorem parse_value_emit (v : json) :
  storable v = true ->
  forall (n : nat) (k : string),
    (depth v <= n)%nat -> closes k = true ->
    parse_value n (emit v k) = Some (v, k).
Proof.
  induction v as [| b | z | lit | s | l IHl | d IHd] using json_nested_ind;
    intros Hst n k Hn Hk;
    (destruct n as [|n]; [destruct l || destruct d || idtac; simpl in Hn; lia|]).
  - reflexivity.
  - destruct b; reflexivity.
  - pose proof (parse_number_emit_int z k Hk) as Hnum.
    destruct (emit_head (JInt z) k eq_refl) as (c & r & E & Hc).
    change (emit (JInt z) k) with (emit_int z k) in *. rewrite E in *.
    apply parse_value_number; [|exact Hnum].
    destruct z as [|p|p]; simpl in E.
    + by injection E as <- _.
    + pose proof (to_uint_head p) as Hhead.
      destruct (Pos.to_uint p); try done; by injection E as <- _.
    + by injection E as <- _.
  - by apply parse_value_float.
  - simpl emit. unfold emit_string.
    by rewrite parse_value_string, parse_chars_emit_chars.
  - destruct l as [|v0 l0]; [reflexivity|].
    rewrite emit_list_unfold, parse_value_array.
    assert (Hitems : forallb storable (v0 :: l0) = true) by exact Hst.
    simpl in Hn.
    assert (Hall : Forall (reads_back (parse_value n)) (v0 :: l0)).
    { apply Forall_forall. intros v Hv.
      assert (Hsv : storable v = true).
      { rewrite forallb_forall in Hitems. apply Hitems. by apply list_elem_of_In. }
      split; [exact Hsv|].
      intros k' Hk'. rewrite Forall_forall in IHl.
      apply (IHl v Hv); [exact Hsv| |exact Hk'].
      apply (depth_item (v0 :: l0) v n Hv). simpl. lia. }
    simpl in Hitems. apply andb_true_iff in Hitems as [Hs0 Hsl].
    destruct (emit_head v0 (emit_items l0 k) Hs0) as (c & r & E & Hc).
    rewrite E, (parse_array_nonempty _ c r Hc), <- E.
    rewrite parse_items_emit; [reflexivity|exact Hall|].
    destruct (emit_items_measure l0 k) as [_ Hlen];
      [apply Forall_forall; intros; apply emit_measure|exact Hsl|].
    pose proof (emit_measure v0 Hs0 (emit_items l0 k)).
    assert (1 <= depth v0)%nat by (destruct v0; simpl; lia).
    lia.
  - destruct d as [|[k0 v0] d0]; [reflexivity|].
    rewrite emit_dict_unfold, parse_value_object.
    assert (Hparts : bool_decide (NoDup (map fst ((k0, v0) :: d0)))
                     && forallb (fun kv => utf8_text kv.1 && storable kv.2)
                          ((k0, v0) :: d0) = true)
      by exact Hst.
    apply andb_true_iff in Hparts as [Hnd Hvals].
    apply bool_decide_eq_true in Hnd.
    simpl in Hn.
    assert (Hall : Forall (fun kv => utf8_text kv.1 = true
                                     /\ reads_back (parse_value n) kv.2)
                     ((k0, v0) :: d0)).
    { apply Forall_forall. intros kv Hkv.
      assert (Hskv : utf8_text kv.1 && storable kv.2 = true).
      { rewrite forallb_forall in Hvals. apply Hvals. by apply list_elem_of_In. }
      apply andb_true_iff in Hskv as [Hkey Hskv].
      split; [exact Hkey|]. split; [exact Hskv|].
      intros k' Hk'. rewrite Forall_forall in IHd.
      apply (IHd kv Hkv); [exact Hskv| |exact Hk'].
      apply (depth_pair ((k0, v0) :: d0) kv n Hkv). simpl. lia. }
    simpl in Hvals. apply andb_true_iff in Hvals as [Hs0 Hsd].
    apply andb_true_iff in Hs0 as [_ Hs0].
    unfold emit_string at 1. rewrite parse_object_nonempty.
    change (String quote (emit_chars k0 ?x)) with (emit_string k0 x).
    rewrite parse_pairs_emit.
    + by rewrite dict_of_pairs_distinct.
    + exact Hall.
    + destruct (emit_pairs_measure d0 k) as [_ Hlen];
        [apply Forall_forall; intros; apply emit_measure|exact Hsd|].
      pose proof (emit_measure v0 Hs0 (emit_pairs d0 k)).
      pose proof (length_emit_chars k0
                    (String ":" (String " " (emit v0 (emit_pairs d0 k))))).
      unfold emit_string. simpl in *. lia.
Qed.

(** Decoding the text of a value gives the value back. *)
Theorem json_loads_dumps (v : json) :
  storable v = true -> json_loads (json_dumps v) = Some v.
Proof.
  intros Hst. unfold json_loads, json_dumps.
  rewrite (skip_ws_emit v _ Hst).
  rewrite (parse_value_emit v Hst); [reflexivity| |reflexivity].
  pose proof (emit_measure v Hst EmptyString). lia.
Qed.

End JsonFacts.

(** ** The cache and the progress channel *)

Section CacheFacts.
Import Py Json Cache Tasks.

Lemma get_setex (now_set now_get expire : Z) (key value : string)
    (r : gmap string (string * Z)) :
  now_get < now_set + expire ->
  get now_get key (setex now_set key expire value r) = Some value.
Proof.
  intros Hfresh. unfold get, setex. rewrite lookup_insert_eq.
  destruct (Z.ltb_spec now_get (now_set + expire)); [done|lia].
Qed.

Lemma get_setex_expired (now_set now_get expire : Z) (key value : string)
    (r : gmap string (string * Z)) :
  now_set + expire <= now_get ->
  get now_get key (setex now_set key expire value r) = None.
Proof.
  intros Hlate. unfold get, setex. rewrite lookup_insert_eq.
  destruct (Z.ltb_spec now_get (now_set + expire)); [lia|done].
Qed.

Lemma get_setex_other (now_set now_get expire : Z) (key key' value : string)
    (r : gmap string (string * Z)) :
  key <> key' ->
  get now_get key' (setex now_set key expire value r) = get now_get key' r.
Proof. intros Hne. unfold get, setex. by rewrite lookup_insert_ne. Qed.

(** What a read returns right after a write of [v]. *)
Definition read_back (v : json) : json :=
  match v with
  | JStr s => default (JStr s) (json_loads s)
  | _ => v
  end.

Lemma cache_get_cache_set (now_set now_get expire : Z) (key : string) (v : json)
    (r : gmap string (string * Z)) :
  now_get < now_set + expire ->
  storable v = true ->
  cache_get now_get key (cache_set now_set key v expire r) = read_back v.
Proof.
  intros Hfresh Hst. unfold cache_get, cache_set.
  rewrite get_setex by exact Hfresh.
  destruct v as [| b | z | lit | s | l | d]; try discriminate Hst;
    try (rewrite json_loads_dumps by exact Hst; reflexivity).
  simpl. by destruct (json_loads s).
Qed.


(** The eight characters of a string literal with one escape, that of
    the euro sign, and the three bytes of the euro sign. *)
Definition escaped_euro : string :=
  String quote (String.append "\u20ac" (String quote EmptyString)).

Definition euro_sign : string :=
  String "226" (String "130" (String "172" EmptyString)).

(** A stored string that is JSON text with an escape comes back as
    the character it denotes. *)
Lemma cache_string_read_back_decoded :
  cache_get 0 "k" (cache_set 0 "k" (JStr escaped_euro) default_expire ∅)
  = JStr euro_sign
  /\ cache_get 0 "k" (cache_set 0 "k" (JList [JStr euro_sign]) default_expire ∅)
     = JList [JStr euro_sign].
Proof. split; vm_compute; reflexivity. Qed.



(** The notification of the end of an epoch of a run of ten, as the
    trainer builds it, and the value [json.dumps] receives for it. *)
Definition epoch_notification (epoch : Z) : list (string * pyval) :=
  CADModelTrainer.epoch_note epoch 10 (Fin (7 # 10)) (Fin (3 # 10)) (Fin (1 # 2))
    (Fin (9 # 10)) (Fin (1 # 1000))
    [("precision", Fin (9 # 10)); ("recall", Fin (8 # 10)); ("f1_score", Fin (85 # 100))].

Definition epoch_payload (epoch : Z) : list (string * json) :=
  default [] (payload_json decimal_repr (epoch_notification epoch)).

(** The state after the handler has run on the notification of epoch
    5 and then on that of epoch 3, for job J1. *)
Definition epoch5_then_epoch3 : world :=
  (_update_training_progress decimal_repr "J1" (epoch_notification 3)
     (_update_training_progress decimal_repr "J1" (epoch_notification 5)
        (world_of_job running_job)).2).2.

(** C5, refuted as stated: after epoch 5 and then epoch 3 have been
    written, the read returns the epoch 3 payload. *)
Lemma late_lower_epoch_overwrites :
  cache_get (now epoch5_then_epoch3) (progress_key "J1")
    (redis_store epoch5_then_epoch3) = JDict (epoch_payload 3)
  /\ dict_get "epoch" (epoch_notification 3) = Some (VInt 3)
  /\ JDict (epoch_payload 3) <> JDict (epoch_payload 5).
Proof.
  split; [vm_compute; reflexivity|]. split; [reflexivity|].
  vm_compute. discriminate.
Qed.

(** C5, as the code has it.  The write to the progress channel
    overwrites the entry of the job without looking at it: after two
    notifications written in a row, whatever they hold, a read within
    the 300 seconds of the entry returns what it would return had the
    second alone been written, which is the second payload. *)
Theorem progress_channel_last_write_wins (w : world) (job_id : string)
    (first second : list (string * json)) (dt : Z)
    (Hdt : 0 <= dt < 300) :
  let after_both :=
    (publish_progress job_id (JDict second)
       (publish_progress job_id (JDict first) w).2).2 in
  let after_second_alone := (publish_progress job_id (JDict second) w).2 in
  cache_get (now w + dt) (progress_key job_id) (redis_store after_both)
  = cache_get (now w + dt) (progress_key job_id) (redis_store after_second_alone)
  /\ (storable (JDict second) = true ->
      cache_get (now w + dt) (progress_key job_id) (redis_store after_both)
      = JDict second).
Proof.
  unfold publish_progress, modify. simpl. split.
  - unfold cache_get, cache_set. by rewrite !get_setex by lia.
  - intros Hst. rewrite cache_get_cache_set; [reflexivity|lia|exact Hst].
Qed.

Lemma progress_channel_last_write_wins_witness :
  storable (JDict (epoch_payload 3)) = true
  /\ cache_get (200 + 1) (progress_key "J1")
       (redis_store
          (publish_progress "J1" (JDict (epoch_payload 3))
             (publish_progress "J1" (JDict (epoch_payload 5))
                (world_of_job running_job)).2).2)
     = JDict (epoch_payload 3).
Proof.
  split; [vm_compute; reflexivity|].
  apply (progress_channel_last_write_wins (world_of_job running_job) "J1"
           (epoch_payload 5) (epoch_payload 3) 1).
  - lia.
  - vm_compute. reflexivity.
Defined.

(** The notifications of the trainer are such payloads, for every
    writing of floats that gives the text of a float and every
    dictionary of metrics, the names of the metrics being distinct
    strings. *)
Lemma payload_json_metrics (float_repr : pyfloat -> string)
    (metrics : list (string * pyfloat)) :
  (forall x, float_literal (float_repr x) = true) ->
  forallb (fun km => utf8_text km.1) metrics = true ->
  forallb (fun kv => utf8_text kv.1 && storable kv.2)
    (map (fun kx => (kx.1, JFloat (float_repr kx.2))) metrics) = true.
Proof.
  intros Hrepr Hkeys. induction metrics as [|[k x] m IH]; [done|].
  simpl in *. apply andb_true_iff in Hkeys as [Hk Hm].
  rewrite Hk, Hrepr. simpl. by apply IH.
Qed.

Lemma storable_dict (d : list (string * json)) :
  storable (JDict d)
  = bool_decide (NoDup (map fst d))
    && forallb (fun kv => utf8_text kv.1 && storable kv.2) d.
Proof. reflexivity. Qed.

Lemma storable_float (lit : string) : storable (JFloat lit) = float_literal lit.
Proof. reflexivity. Qed.

(** The keys of a literal are text. *)
Ltac literal_keys :=
  repeat match goal with
         | |- context [utf8_text (String ?a ?s)] =>
             let b := eval vm_compute in (utf8_text (String a s)) in
             change (utf8_text (String a s)) with b
         end.

Lemma batch_note_storable {tensor : Type}
    (B : CADModelTrainer.backend tensor) (float_repr : pyfloat -> string)
    (epoch i n : Z) :
  (forall x, float_literal (float_repr x) = true) ->
  exists payload,
    payload_json float_repr (CADModelTrainer.batch_note B epoch i n) = Some payload
    /\ storable (JDict payload) = true.
Proof.
  intros Hrepr. eexists. split; [reflexivity|].
  rewrite storable_dict. apply andb_true_iff. split; [vm_compute; reflexivity|].
  cbn [forallb fst snd]. rewrite !storable_float, !Hrepr. literal_keys.
  reflexivity.
Qed.

Lemma epoch_note_storable (float_repr : pyfloat -> string)
    (epoch total : Z) (tl vl ta va lr : pyfloat)
    (metrics : list (string * pyfloat)) :
  (forall x, float_literal (float_repr x) = true) ->
  NoDup (map fst metrics) ->
  forallb (fun km => utf8_text km.1) metrics = true ->
  exists payload,
    payload_json float_repr
      (CADModelTrainer.epoch_note epoch total tl vl ta va lr metrics)
    = Some payload
    /\ storable (JDict payload) = true.
Proof.
  intros Hrepr Hnd Hkeys. eexists. split; [reflexivity|].
  rewrite storable_dict. apply andb_true_iff. split; [vm_compute; reflexivity|].
  cbn [forallb fst snd]. rewrite storable_dict, !storable_float, !Hrepr.
  literal_keys.
  rewrite payload_json_metrics by assumption.
  rewrite map_map. cbn [fst].
  rewrite bool_decide_eq_true_2; [reflexivity|].
  by rewrite (map_ext _ fst) by done.
Qed.

(** The handler writes to the channel the value [json.dumps] receives
    for the notification, after the database block. *)
Lemma update_progress_publishes (float_repr : pyfloat -> string) (job_id : string)
    (note : list (string * pyval)) (payload : list (string * json)) (w : world) :
  payload_json float_repr note = Some payload ->
  (store_progress job_id note w).1 = Returns tt ->
  _update_training_progress float_repr job_id note w
  = publish_progress job_id (JDict payload) (store_progress job_id note w).2.
Proof.
  intros Hpayload Hstore. unfold _update_training_progress, bind.
  destruct (store_progress job_id note w) as [[[]|e] w1]; [|discriminate Hstore].
  by rewrite Hpayload.
Qed.

End CacheFacts.

(** ** The dataset class *)

Section CADDatasetFacts.
Import Py DatasetPrep CADDataset.

(** Counting the occurrences of each key of a list in a dictionary,
    the way [d[k] = d.get(k, 0) + 1] does. *)
Definition count_step (d : gmap Z Z) (k : Z) : gmap Z Z :=
  <[k := default 0 (d !! k) + 1]> d.

Definition occurrences (c : Z) (keys : list Z) : Z :=
  Z.of_nat (length (filter (fun k => k = c) keys)).

Lemma count_step_lookup (keys : list Z) (c : Z) :
  forall d : gmap Z Z,
    default 0 (foldl count_step d keys !! c) = default 0 (d !! c) + occurrences c keys.
Proof.
  unfold occurrences.
  induction keys as [|k keys IH]; intros d; simpl; [lia|].
  rewrite IH. unfold count_step.
  destruct (decide (k = c)) as [->|Hne].
  - rewrite lookup_insert_eq, filter_cons_True by done. simpl. lia.
  - rewrite lookup_insert_ne, filter_cons_False by done. lia.
Qed.

Lemma count_step_positive (keys : list Z) (c : Z) :
  forall d : gmap Z Z,
    (forall k n, d !! k = Some n -> 0 < n) ->
    forall n, foldl count_step d keys !! c = Some n -> 0 < n.
Proof.
  induction keys as [|k keys IH]; intros d Hd n; simpl; [apply Hd|].
  apply IH. intros k' n'. unfold count_step.
  destruct (decide (k = k')) as [->|Hne].
  - rewrite lookup_insert_eq. intros [= <-].
    destruct (d !! k') as [m|] eqn:E; simpl; [|lia].
    pose proof (Hd _ _ E). lia.
  - rewrite lookup_insert_ne by done. apply Hd.
Qed.

Lemma sum_values_insert (d : gmap Z Z) (k n : Z) :
  d !! k = None -> sum_values (<[k := n]> d) = n + sum_values d.
Proof.
  intros Hk. unfold sum_values.
  rewrite map_fold_insert_L; [done| |done].
  intros; lia.
Qed.

Lemma sum_values_count_step (d : gmap Z Z) (k : Z) :
  sum_values (count_step d k) = sum_values d + 1.
Proof.
  unfold count_step. destruct (d !! k) as [n|] eqn:E; simpl.
  - rewrite <- (insert_delete_id d k n) at 2 by done.
    rewrite <- (insert_delete_eq d).
    rewrite !sum_values_insert by apply lookup_delete_eq. lia.
  - rewrite sum_values_insert by done. lia.
Qed.

Lemma sum_values_counts (keys : list Z) :
  forall d : gmap Z Z,
    sum_values (foldl count_step d keys) = sum_values d + Z.of_nat (length keys).
Proof.
  induction keys as [|k keys IH]; intros d; simpl; [lia|].
  rewrite IH, sum_values_count_step. lia.
Qed.

(** The labels of the valid files, in order. *)
Definition valid_labels (file_ids : list string) (labels : gmap string Z) : list Z :=
  omap (fun fid => labels !! fid) file_ids.

Lemma valid_labels_valid_files (file_ids : list string) (labels : gmap string Z) :
  valid_labels (valid_files file_ids labels) labels = valid_labels file_ids labels.
Proof.
  unfold valid_labels, valid_files.
  induction file_ids as [|f l IH]; [done|].
  destruct (labels !! f) as [c|] eqn:E.
  - rewrite filter_cons_True by (rewrite E; by eexists). simpl. rewrite E.
    f_equal. exact IH.
  - rewrite filter_cons_False by (rewrite E; by intros [? ?]). simpl. rewrite E.
    exact IH.
Qed.

Lemma length_valid_labels (file_ids : list string) (labels : gmap string Z) :
  length (valid_labels file_ids labels) = length (valid_files file_ids labels).
Proof.
  unfold valid_labels, valid_files.
  induction file_ids as [|f l IH]; [done|].
  destruct (labels !! f) as [c|] eqn:E.
  - rewrite filter_cons_True by (rewrite E; by eexists). simpl. rewrite E.
    simpl. f_equal. exact IH.
  - rewrite filter_cons_False by (rewrite E; by intros [? ?]). simpl. rewrite E.
    exact IH.
Qed.

Lemma occurrences_valid_labels (file_ids : list string) (labels : gmap string Z) (c : Z) :
  occurrences c (valid_labels file_ids labels)
  = Z.of_nat (length (filter (fun fid => labels !! fid = Some c) file_ids)).
Proof.
  unfold occurrences, valid_labels. f_equal.
  induction file_ids as [|f l IH]; [done|].
  destruct (labels !! f) as [c'|] eqn:E.
  - replace (omap (fun fid => labels !! fid) (f :: l))
      with (c' :: omap (fun fid => labels !! fid) l) by (simpl; by rewrite E).
    destruct (decide (c' = c)) as [->|Hne].
    + rewrite !filter_cons_True by (done || by rewrite E). simpl. by rewrite IH.
    + rewrite !filter_cons_False by (done || (rewrite E; congruence)). exact IH.
  - replace (omap (fun fid => labels !! fid) (f :: l))
      with (omap (fun fid => labels !! fid) l) by (simpl; by rewrite E).
    rewrite filter_cons_False by (rewrite E; congruence). exact IH.
Qed.

(** On the files that passed the filter of [__init__] the lookup of
    the label never fails, so the loop is the plain count. *)
Lemma get_class_distribution_counts (labels : gmap string Z) (files : list string) :
  forall d : gmap Z Z,
    Forall (fun fid => is_Some (labels !! fid)) files ->
    foldl (fun distribution file_id =>
             match distribution with
             | None => None
             | Some d =>
                 match labels !! file_id with
                 | None => None
                 | Some label => Some (<[label := default 0 (d !! label) + 1]> d)
                 end
             end) (Some d) files
    = Some (foldl count_step d (valid_labels files labels)).
Proof.
  induction files as [|f l IH]; intros d Hall; [done|].
  apply Forall_cons in Hall as [[c Hc] Hl].
  unfold valid_labels. simpl. rewrite Hc. simpl. by apply IH.
Qed.

Lemma valid_files_labelled (file_ids : list string) (labels : gmap string Z) :
  Forall (fun fid => is_Some (labels !! fid)) (valid_files file_ids labels).
Proof.
  unfold valid_files. apply Forall_forall. intros fid Hin.
  by apply list_elem_of_filter in Hin as [? _].
Qed.

(** X1.  [get_class_distribution] of a dataset built by [__init__]
    never raises the KeyError of [self.labels[file_id]], whatever the
    files and the labels; each class it lists has a positive count, and
    the count it gives for a class (0 for a class it does not list) is
    the number of files of [file_ids], repetitions included, that the
    labels map to that class. *)
Theorem class_distribution_counts_labelled_files
    (file_ids : list string) (labels : gmap string Z) :
  exists distribution,
    get_class_distribution (__init__ file_ids labels) = Some distribution
    /\ (forall c n, distribution !! c = Some n -> 0 < n)
    /\ forall c,
         default 0 (distribution !! c)
         = Z.of_nat (length (filter (fun fid => labels !! fid = Some c) file_ids)).
Proof.
  eexists. split; [|split].
  - unfold get_class_distribution, __init__. simpl.
    apply get_class_distribution_counts, valid_files_labelled.
  - intros c n. apply count_step_positive. intros k m. by rewrite lookup_empty.
  - intros c. rewrite count_step_lookup, lookup_empty. simpl.
    by rewrite valid_labels_valid_files, occurrences_valid_labels.
Qed.

(** X2.  The counts of the class distribution add up to the length of
    the dataset: every sample [__len__] announces is counted in one
    class, and the files without a label in none. *)
Theorem class_distribution_sums_to_len
    (file_ids : list string) (labels : gmap string Z) :
  exists distribution,
    get_class_distribution (__init__ file_ids labels) = Some distribution
    /\ sum_values distribution = Z.of_nat (__len__ (__init__ file_ids labels)).
Proof.
  eexists. split.
  - unfold get_class_distribution, __init__. simpl.
    apply get_class_distribution_counts, valid_files_labelled.
  - rewrite sum_values_counts. unfold sum_values at 1.
    rewrite map_fold_empty, valid_labels_valid_files, length_valid_labels.
    unfold __len__, __init__. simpl. lia.
Qed.

Lemma list_getitem_in_range {A} (l : list A) (idx : Z) :
  - Z.of_nat (length l) <= idx < Z.of_nat (length l) ->
  exists x, list_getitem l idx = Some x /\ x ∈ l.
Proof.
  intros Hidx. unfold list_getitem.
  destruct (Z.leb_spec 0 idx).
  - destruct (lookup_lt_is_Some_2 l (Z.to_nat idx)) as [x Hx]; [lia|].
    exists x. split; [exact Hx|]. by eapply list_elem_of_lookup_2.
  - destruct (Z.leb_spec 0 (Z.of_nat (length l) + idx)); [|lia].
    destruct (lookup_lt_is_Some_2 l (Z.to_nat (Z.of_nat (length l) + idx)))
      as [x Hx]; [lia|].
    exists x. split; [exact Hx|]. by eapply list_elem_of_lookup_2.
Qed.

Lemma list_getitem_out_of_range {A} (l : list A) (idx : Z) :
  idx < - Z.of_nat (length l) \/ Z.of_nat (length l) <= idx ->
  list_getitem l idx = None.
Proof.
  intros Hidx. unfold list_getitem.
  destruct (Z.leb_spec 0 idx).
  - apply lookup_ge_None_2. lia.
  - destruct (Z.leb_spec 0 (Z.of_nat (length l) + idx)); [lia|done].
Qed.

(** X3.  Indexing a dataset built by [__init__]: for every index from
    [-len] to [len - 1] the file picked has a label, which is the one
    the labels give it, so neither IndexError nor KeyError is raised;
    for every other index the lookup in [valid_files] fails. *)
Theorem getitem_label_defined_exactly_in_range
    (file_ids : list string) (labels : gmap string Z) (idx : Z) :
  let self := __init__ file_ids labels in
  (- Z.of_nat (__len__ self) <= idx < Z.of_nat (__len__ self) ->
     exists file_id label,
       getitem_label self idx = Some (file_id, label)
       /\ file_id ∈ file_ids
       /\ labels !! file_id = Some label)
  /\ (idx < - Z.of_nat (__len__ self) \/ Z.of_nat (__len__ self) <= idx ->
        getitem_label self idx = None).
Proof.
  simpl. unfold getitem_label, __len__, __init__. simpl. split.
  - intros Hidx.
    destruct (list_getitem_in_range _ idx Hidx) as (fid & -> & Hin).
    unfold valid_files in Hin.
    apply list_elem_of_filter in Hin as [[label Hl] Hin].
    exists fid, label. by rewrite Hl.
  - intros Hidx. by rewrite list_getitem_out_of_range.
Qed.

End CADDatasetFacts.

(** ** The cache: deletion and expiry *)

Section CacheMoreFacts.
Import Py Json Cache.

Lemma cache_get_miss (t : Z) (key : string) (r : gmap string (string * Z)) :
  get t key r = None -> cache_get t key r = JNull.
Proof. intros E. unfold cache_get. by rewrite E. Qed.

(** X4.  [cache_delete] at any instant: it answers True exactly when
    a read of the key at that instant would have found an entry (an
    entry past its deadline counts as absent); afterwards [cache_get]
    of the key returns None at every instant, and the reads of every
    other key are what they were. *)
Theorem cache_delete_forgets_key_only (t : Z) (key : string)
    (r : gmap string (string * Z)) :
  ((cache_delete t key r).1 = true <-> is_Some (get t key r))
  /\ (forall t', cache_get t' key (cache_delete t key r).2 = JNull)
  /\ (forall t' key', key' <> key ->
        cache_get t' key' (cache_delete t key r).2 = cache_get t' key' r).
Proof.
  unfold cache_delete. simpl. split; [|split].
  - apply bool_decide_eq_true.
  - intros t'. apply cache_get_miss. unfold get. by rewrite lookup_delete_eq.
  - intros t' key' Hne. unfold cache_get, get. by rewrite lookup_delete_ne.
Qed.

(** X5.  An entry written by [cache_set] with [expire] seconds, a
    positive number as Redis requires, is gone once they have passed,
    whatever was stored: [cache_get] returns None and [cache_delete]
    answers False.  The reads of the other keys are not affected by
    the write. *)
Theorem cache_entry_expires (now_set now_get expire : Z) (key : string) (v : json)
    (r : gmap string (string * Z))
    (Hexpire : 0 < expire)
    (Hlate : now_set + expire <= now_get) :
  cache_get now_get key (cache_set now_set key v expire r) = JNull
  /\ (cache_delete now_get key (cache_set now_set key v expire r)).1 = false
  /\ (forall t key', key' <> key ->
        cache_get t key' (cache_set now_set key v expire r) = cache_get t key' r).
Proof.
  assert (Hgone : get now_get key (cache_set now_set key v expire r) = None)
    by (unfold cache_set; by apply get_setex_expired).
  split; [by apply cache_get_miss|]. split.
  - unfold cache_delete. simpl. rewrite Hgone.
    apply bool_decide_eq_false. by intros [? ?].
  - intros t key' Hne. unfold cache_get, cache_set.
    by rewrite get_setex_other.
Qed.

Lemma cache_entry_expires_witness :
  cache_get 3600 "k" (cache_set 0 "k" (JInt 7) default_expire ∅) = JNull
  /\ (cache_delete 3600 "k" (cache_set 0 "k" (JInt 7) default_expire ∅)).1 = false
  /\ (forall t key', key' <> "k" ->
        cache_get t key' (cache_set 0 "k" (JInt 7) default_expire ∅)
        = cache_get t key' ∅).
Proof.
  apply (cache_entry_expires 0 3600 default_expire "k" (JInt 7) ∅).
  - reflexivity.
  - unfold default_expire. lia.
Defined.

(** X6.  Storing None cannot be told from storing nothing: after
    [cache_set key None], as the clean-up task does with one second of
    expiry, [cache_get] of the key returns None before the expiry as
    well as after it. *)
Theorem cache_set_none_reads_as_miss (now_set now_get expire : Z) (key : string)
    (r : gmap string (string * Z))
    (Hexpire : 0 < expire) :
  cache_get now_get key (cache_set now_set key JNull expire r) = JNull.
Proof.
  unfold cache_get, cache_set, get, setex. rewrite lookup_insert_eq.
  by destruct (now_get <? now_set + expire)%Z.
Qed.

Lemma cache_set_none_reads_as_miss_witness :
  cache_get 0 "training_progress:J1"
    (cache_set 0 "training_progress:J1" JNull 1 ∅) = JNull.
Proof.
  apply (cache_set_none_reads_as_miss 0 0 1 "training_progress:J1" ∅).
  lia.
Defined.

End CacheMoreFacts.

(** ** The trainer: what a run records *)

Section TrainerRecordsFacts.
Import Py DatasetPrep CADModelTrainer.
Context {tensor : Type}.
Variable B : backend tensor.
Variable parameters : list (string * nat).
Variable has_callback : bool.
Variable hp : hyper.














End TrainerRecordsFacts.

(** ** The trainer on degenerate inputs *)

Section TrainerEdgeFacts.
Import Py DatasetPrep Transforms CADDataset CADModelTrainer Tasks.
Context {tensor : Type}.
Variable B : backend tensor.
Variable parameters : list (string * nat).
Variable has_callback : bool.
Variable hp : hyper.

Lemma valid_files_agree (l : list string) (lbl1 lbl2 : gmap string Z) :
  (forall fid, fid ∈ l -> lbl1 !! fid = lbl2 !! fid) ->
  valid_files l lbl1 = valid_files l lbl2.
Proof.
  unfold valid_files. induction l as [|f l IH]; intros Hagree; [done|].
  assert (Hl : filter (fun fid => is_Some (lbl1 !! fid)) l
               = filter (fun fid => is_Some (lbl2 !! fid)) l).
  { apply IH. intros fid Hin. apply Hagree. by right. }
  assert (Hf : lbl1 !! f = lbl2 !! f) by (apply Hagree; by left).
  destruct (lbl2 !! f) as [c|] eqn:E.
  - rewrite !filter_cons_True by (rewrite ?Hf, ?E; by eexists). by rewrite Hl.
  - rewrite !filter_cons_False by (rewrite ?Hf, ?E; by intros [? ?]). exact Hl.
Qed.

Lemma valid_files_label_comprehension (files : list string) (lbl : gmap string Z) :
  valid_files files (label_comprehension files lbl) = valid_files files lbl.
Proof.
  apply valid_files_agree. intros fid Hin.
  rewrite label_comprehension_lookup. by rewrite decide_True.
Qed.

Lemma valid_files_app (l1 l2 : list string) (lbl : gmap string Z) :
  valid_files (l1 ++ l2) lbl = valid_files l1 lbl ++ valid_files l2 lbl.
Proof. unfold valid_files. apply filter_app. Qed.

Lemma valid_files_unlabelled (files : list string) (lbl : gmap string Z) :
  Forall (fun fid => lbl !! fid = None) files -> valid_files files lbl = [].
Proof.
  unfold valid_files. induction 1 as [|f l Hf Hl IH]; [done|].
  rewrite filter_cons_False; [exact IH|]. rewrite Hf. by intros [? ?].
Qed.

Lemma loader_len_empty (bs : Z) : 0 < bs -> loader_len 0 bs = 0.
Proof. intros Hbs. unfold loader_len. simpl. apply Z.div_small. lia. Qed.

Lemma loader_len_nonempty (n : nat) (bs : Z) :
  0 < bs -> (0 < n)%nat -> loader_len n bs <> 0.
Proof.
  intros Hbs Hn. unfold loader_len.
  assert (0 < (Z.of_nat n + bs - 1) / bs); [|lia].
  apply Z.div_str_pos. lia.
Qed.

(** X9.  The two datasets [prepare_data] builds from the configuration
    of [_prepare_dataset_config] hold, between them, every labelled
    file of the dataset exactly as often as [file_ids] lists it, in the
    stored order: restricting the labels to each split loses no sample,
    and the sample counts of the two loaders add up to the number of
    labelled files. *)
Theorem split_datasets_cover_labelled_files (d : Dataset) :
  exists cfg,
    _prepare_dataset_config d = Returns cfg
    /\ self_valid_files (__init__ (train_files cfg) (train_labels cfg))
       ++ self_valid_files (__init__ (val_files cfg) (val_labels cfg))
       = valid_files (file_ids d) (default ∅ (labels d))
    /\ (__len__ (__init__ (train_files cfg) (train_labels cfg))
        + __len__ (__init__ (val_files cfg) (val_labels cfg))
        = length (valid_files (file_ids d) (default ∅ (labels d))))%nat.
Proof.
  eexists. split; [reflexivity|].
  assert (Hcover :
    valid_files (take (split_index (length (file_ids d))) (file_ids d))
      (label_comprehension (take (split_index (length (file_ids d))) (file_ids d))
         (default ∅ (labels d)))
    ++ valid_files (drop (split_index (length (file_ids d))) (file_ids d))
      (label_comprehension (drop (split_index (length (file_ids d))) (file_ids d))
         (default ∅ (labels d)))
    = valid_files (file_ids d) (default ∅ (labels d))).
  { rewrite !valid_files_label_comprehension, <- valid_files_app.
    by rewrite take_drop. }
  split; [exact Hcover|].
  unfold __len__, __init__. simpl. by rewrite <- Hcover, length_app.
Qed.

(** The exception of the call of [RandomAffine] with a keyword it
    does not have. *)
Definition affine_error : pyexn :=
  mk_exn "TypeError" "RandomAffine.__init__() got an unexpected keyword argument 'p'".

Lemma transforms_of_default_augmentation :
  get_training_transforms (random_rotation_error B) default_augmentation
  = Raises (default affine_error (random_rotation_error B (VInt 15))).
Proof.
  unfold get_training_transforms.
  replace (default (VBool true) (default_augmentation !! "enable_rotation"))
    with (VBool true) by reflexivity.
  replace (default (VInt 15) (default_augmentation !! "rotation_degrees"))
    with (VInt 15) by reflexivity.
  cbn [truthy].
  destruct (random_rotation_error B (VInt 15)); reflexivity.
Qed.

Lemma train_of_prepared_config (d : Dataset) (save_dir : string)
    (h0 : gmap nat tensor) :
  exists cfg,
    _prepare_dataset_config d = Returns cfg
    /\ train B parameters has_callback hp cfg save_dir (init_state h0)
       = (Raises (default affine_error (random_rotation_error B (VInt 15))),
          init_state h0).
Proof.
  eexists. split; [reflexivity|].
  unfold train, bind, lift, prepare_data. cbn [augmentation].
  by rewrite transforms_of_default_augmentation.
Qed.

(** X10.  [train] on a configuration that [_prepare_dataset_config]
    returns never gets to an epoch: whatever the dataset and the
    hyper-parameters, [prepare_data] raises while it builds the
    training transforms, because the augmentation of the configuration
    leaves [enable_affine] at its default and [RandomAffine] is then
    called with a keyword [p] it does not have (a [TypeError]; or the
    exception of [RandomRotation], should it refuse 15 degrees).  The
    trainer is left as it was initialised. *)
Theorem train_on_prepared_config_raises (d : Dataset) (save_dir : string)
    (h0 : gmap nat tensor) :
  exists cfg,
    _prepare_dataset_config d = Returns cfg
    /\ train B parameters has_callback hp cfg save_dir (init_state h0)
       = (Raises (default affine_error (random_rotation_error B (VInt 15))),
          init_state h0).
Proof. apply train_of_prepared_config. Qed.

(** X11.  When the training transforms can be built and no training
    file has a label, [train] raises the [ValueError] of the shuffling
    sampler, whatever the batch size, and leaves the trainer as it was
    initialised. *)
Theorem train_raises_on_empty_training_split (cfg : dataset_config)
    (save_dir : string) (h0 : gmap nat tensor)
    (Htransforms : get_training_transforms (random_rotation_error B)
                     (augmentation cfg) = Returns tt)
    (Hnone : valid_files (train_files cfg) (train_labels cfg) = []) :
  train B parameters has_callback hp cfg save_dir (init_state h0)
  = (Raises (mk_exn "ValueError"
       "num_samples should be a positive integer value, but got num_samples=0"),
     init_state h0).
Proof.
  unfold train, bind, lift, prepare_data. by rewrite Htransforms, Hnone.
Qed.

(** X12.  With [epochs] zero or negative the loop body never runs and
    [train] cannot return: once the loaders are built it raises the
    error of the empty validation loader when the validation split has
    no labelled file, and otherwise IndexError, list index out of
    range, from the read of the last training loss; the trainer is
    left as it was initialised. *)
Theorem train_raises_without_epochs (cfg : dataset_config) (save_dir : string)
    (h0 : gmap nat tensor) (n n_train n_val : Z)
    (Hdata : prepare_data B hp cfg = Returns (n_train, n_val))
    (Hepochs : epochs hp = VInt n)
    (Hn : n <= 0) :
  train B parameters has_callback hp cfg save_dir (init_state h0)
  = (Raises (if (n_val =? 0)%Z then empty_loader_error B
             else mk_exn "IndexError" "list index out of range"),
     init_state h0).
Proof.
  unfold train, bind, lift, epoch_range.
  rewrite Hdata, Hepochs.
  replace (Z.to_nat n) with 0%nat by lia. simpl.
  unfold validate_epoch.
  destruct (n_val =? 0)%Z; [reflexivity|].
  simpl. destruct (validate B h0) as [[fvl fva] fm]. reflexivity.
Qed.

End TrainerEdgeFacts.

Section TaskOnPreparedConfig.
Import Py DatasetPrep Transforms CADModelTrainer Tasks.
Context {tensor : Type}.
Variable B : backend tensor.
Variable parameters : list (string * nat).

(** A run of the trainer inside the task once the trainer has been
    constructed: the hyper-parameters are those of [__init__], the
    progress callback is set, and the run takes [seconds]. *)
Definition constructed_trainer_run (seconds : Z) (h0 : gmap nat tensor)
    : gmap string pyval -> gmap string pyval -> dataset_config -> string ->
      outcome training_results * Z :=
  fun model_config training_config dataset_config save_dir =>
    ((train B parameters true (init_hyper training_config) dataset_config save_dir
        (init_state h0)).1, seconds).

(** X13.  The training task cannot complete a job: for every job and
    every ready dataset, once the trainer is constructed its [train]
    raises on the configuration the task prepares, so the task stores
    the job as failed with the text of that exception, returns a
    failure, and creates no model. *)
Theorem training_task_never_completes
    (uuid4 : nat -> string) (strftime : Z -> string) (model_storage_path : string)
    (seconds : Z) (h0 : gmap nat tensor)
    (w : world) (tid : option string) (job_id dataset_id : string)
    (mc tc : gmap string pyval) (user : string)
    (job : gmap string pyval) (d : Dataset)
    (Hjob : training_jobs w !! job_id = Some job)
    (Hd : datasets w !! dataset_id = Some d)
    (Hready : ds_status d = "ready") :
  let e := default affine_error (random_rotation_error B (VInt 15)) in
  exists w',
    train_cad_model_task (constructed_trainer_run seconds h0) uuid4 strftime
      model_storage_path tid job_id dataset_id mc tc user w
    = (Returns (TaskFailure job_id (exn_str e)), w')
    /\ job_col w' job_id "status" = Some (VStr "failed")
    /\ ai_models w' = ai_models w.
Proof.
  intros e.
  destruct (train_of_prepared_config B parameters true (init_hyper tc) d
              (model_storage_path ++ "/" ++ job_id)%string h0) as (cfg & Hcfg & Hrun).
  destruct (train_task_trainer_raises (constructed_trainer_run seconds h0)
              uuid4 strftime model_storage_path w tid job_id dataset_id mc tc user
              job d cfg e seconds Hjob Hd Hready Hcfg) as (w' & Htask & Hst & _ & Hm).
  { unfold constructed_trainer_run. by rewrite Hrun. }
  exists w'. split; [exact Htask|]. split; [exact Hst|exact Hm].
Qed.

End TaskOnPreparedConfig.

(** ** The general facts about the trainer, on runs of the toy model *)

Section TrainerRuns.
Import Py DatasetPrep Transforms CADModelTrainer Tasks.





(** A split without a labelled training file, the affine transform
    switched off. *)
Definition unlabelled_training_config : dataset_config :=
  without_affine
    {| train_files := ["f1"; "f2"];
       val_files := ["f3"];
       train_labels := ∅;
       val_labels := {[ "f3" := 0 ]};
       augmentation := default_augmentation |}.

Lemma train_raises_on_empty_training_split_witness :
  train toy_backend toy_parameters true patience_one unlabelled_training_config
    "/models/J1" (init_state toy_heap)
  = (Raises (mk_exn "ValueError"
       "num_samples should be a positive integer value, but got num_samples=0"),
     init_state toy_heap).
Proof.
  apply (train_raises_on_empty_training_split toy_backend toy_parameters true
           patience_one unlabelled_training_config "/models/J1" toy_heap).
  - vm_compute. reflexivity.
  - vm_compute. reflexivity.
Defined.

Definition no_epochs : hyper :=
  init_hyper (list_to_map [("epochs", VInt 0); ("batch_size", VInt 2)]).

Lemma train_raises_without_epochs_witness :
  train toy_backend toy_parameters true no_epochs toy_config "/models/J1"
    (init_state toy_heap)
  = (Raises (if (1 =? 0)%Z then empty_loader_error toy_backend
             else mk_exn "IndexError" "list index out of range"),
     init_state toy_heap).
Proof.
  apply (train_raises_without_epochs toy_backend toy_parameters true no_epochs
           toy_config "/models/J1" toy_heap 0 4 1).
  - vm_compute. reflexivity.
  - reflexivity.
  - lia.
Defined.

Lemma training_task_never_completes_witness :
  exists w',
    train_cad_model_task (constructed_trainer_run toy_backend toy_parameters 60 toy_heap)
      one_uuid one_stamp "/models" (Some "celery-1") "J1" "D1" ∅ ∅ "u1" ready_world
    = (Returns (TaskFailure "J1"
         "RandomAffine.__init__() got an unexpected keyword argument 'p'"), w')
    /\ job_col w' "J1" "status" = Some (VStr "failed")
    /\ ai_models w' = ai_models ready_world.
Proof.
  apply (training_task_never_completes toy_backend toy_parameters
           one_uuid one_stamp "/models" 60 toy_heap ready_world (Some "celery-1")
           "J1" "D1" ∅ ∅ "u1" queued_job
           {| ds_name := "drawings";
              ds_status := "ready";
              file_ids := ["a"; "b"; "c"; "d"; "e"];
              labels := Some (list_to_map
                [("a", 0); ("b", 1); ("c", 0); ("d", 1); ("e", 0)]) |}).
  - reflexivity.
  - reflexivity.
  - reflexivity.
Defined.

End TrainerRuns.
